(** * Print-queue manager: the job lifecycle core

    A shallow embedding of the JavaScript sources of the print-queue
    manager (models/printSettings.js, utils/printerIntegration.js,
    models/database.js, models/printJob.js, controllers/jobController.js,
    utils/cleanupService.js) and the properties of its specification.

    Asynchronous functions are modelled sequentially: one request runs to
    completion, threading the database explicitly.  A rejected promise or a
    thrown [Error] is the [Throw] branch of [result]. *)

From Stdlib Require Import ZArith List String Ascii Bool Lia.
From Stdlib Require Import DecimalString Permutation Sorted.
Import ListNotations.
Local Open Scope string_scope.
Local Open Scope Z_scope.

(** ** JavaScript values *)

Module JS.

(** Numbers are the integers and NaN; fractions, infinities and magnitudes
    past 2^53 do not occur in the data this development follows. *)
Inductive number : Type :=
| NaN
| Num (z : Z).

(** Primitive values.  A settings field holds one of these; [VUndefined] is
    also what reading an absent property gives. *)
Inductive value : Type :=
| VUndefined
| VNull
| VBool (b : bool)
| VNum (n : number)
| VStr (s : string).

(** A thrown [Error] carries its message. *)
Inductive result (A : Type) : Type :=
| Ok (a : A)
| Throw (message : string).
Arguments Ok {A} a.
Arguments Throw {A} message.

Definition bind {A B : Type} (r : result A) (k : A -> result B) : result B :=
  match r with
  | Ok a => k a
  | Throw m => Throw m
  end.

Notation "'let*' x ':=' r 'in' k" := (bind r (fun x => k))
  (at level 10, x pattern, r at level 100, k at level 200).

(** ToBoolean. *)
Definition truthy (v : value) : bool :=
  match v with
  | VUndefined | VNull => false
  | VBool b => b
  | VNum NaN => false
  | VNum (Num z) => negb (z =? 0)
  | VStr s => negb (s =? "")%string
  end.

(** [a || b] *)
Definition or_else (a b : value) : value := if truthy a then a else b.

Definition is_undefined (v : value) : bool :=
  match v with
  | VUndefined => true
  | _ => false
  end.

Definition decimal (z : Z) : string := NilZero.string_of_int (Z.to_int z).

(** ToString, as [String(v)] and template literals apply it. *)
Definition toString (v : value) : string :=
  match v with
  | VUndefined => "undefined"
  | VNull => "null"
  | VBool true => "true"
  | VBool false => "false"
  | VNum NaN => "NaN"
  | VNum (Num z) => decimal z
  | VStr s => s
  end.

(** White space that [parseInt] and [Number] skip (the ASCII part of
    StrWhiteSpaceChar): TAB, LF, VT, FF, CR, SP. *)
Definition is_space (c : ascii) : bool :=
  let n := nat_of_ascii c in
  ((9 <=? n) && (n <=? 13))%nat || (n =? 32)%nat.

Definition digit_of (c : ascii) : option Z :=
  let n := Z.of_nat (nat_of_ascii c) in
  if (48 <=? n) && (n <=? 57) then Some (n - 48) else None.

Definition is_digit (c : ascii) : bool :=
  match digit_of c with
  | Some _ => true
  | None => false
  end.

Fixpoint skip_spaces (s : string) : string :=
  match s with
  | String c r => if is_space c then skip_spaces r else s
  | EmptyString => s
  end.

(** The longest prefix of decimal digits, read left to right; [None] when
    there is no digit at all. *)
Fixpoint digits_prefix (acc : option Z) (s : string) : option Z :=
  match s with
  | String c r =>
      match digit_of c with
      | Some d =>
          digits_prefix (Some (10 * match acc with Some a => a | None => 0 end + d)) r
      | None => acc
      end
  | EmptyString => acc
  end.

(** [parseInt(string, 10)]: leading white space, an optional sign, then the
    digits; no digit gives NaN.  Radix 10 is explicit, so "0x" is not a
    prefix. *)
Definition parseInt_string (s : string) : number :=
  let t := skip_spaces s in
  let '(sign, body) :=
    match t with
    | String "-" r => (-1, r)
    | String "+" r => (1, r)
    | _ => (1, t)
    end in
  match digits_prefix None body with
  | Some z => Num (sign * z)
  | None => NaN
  end.

(** [parseInt(v, 10)]: the argument is first converted to a string. *)
Definition parseInt (v : value) : number := parseInt_string (toString v).

(** [Array.prototype.includes] on an array of strings and on an array of
    numbers (SameValueZero: no conversion between types). *)
Definition includes_string (l : list string) (v : value) : bool :=
  match v with
  | VStr s => existsb (String.eqb s) l
  | _ => false
  end.

Definition includes_number (l : list Z) (n : number) : bool :=
  match n with
  | Num z => existsb (Z.eqb z) l
  | NaN => false
  end.

(** [Array.prototype.join]. *)
Definition join (sep : string) (l : list string) : string :=
  match l with
  | [] => ""
  | x :: r => fold_left (fun acc y => acc ++ sep ++ y)%string r x
  end.

(** ** Number(string): is the string a StringNumericLiteral?

    [isNaN(s)] on a route parameter converts the string with ToNumber; the
    result is NaN exactly when the trimmed string is neither empty nor a
    numeric literal. *)

Fixpoint drop_while (p : ascii -> bool) (s : string) : string :=
  match s with
  | String c r => if p c then drop_while p r else s
  | EmptyString => s
  end.

Fixpoint all_chars (p : ascii -> bool) (s : string) : bool :=
  match s with
  | String c r => p c && all_chars p r
  | EmptyString => true
  end.

Definition nonempty (s : string) : bool := negb (s =? "")%string.

Definition is_hex_digit (c : ascii) : bool :=
  let n := nat_of_ascii c in
  (is_digit c || ((65 <=? n) && (n <=? 70)) || ((97 <=? n) && (n <=? 102)))%nat.

Definition is_octal_digit (c : ascii) : bool :=
  let n := nat_of_ascii c in ((48 <=? n) && (n <=? 55))%nat.

Definition is_binary_digit (c : ascii) : bool :=
  let n := nat_of_ascii c in ((48 <=? n) && (n <=? 49))%nat.

(** ExponentPart (optional): e or E, an optional sign, one digit or more;
    nothing may follow. *)
Definition exponent_ok (s : string) : bool :=
  match s with
  | EmptyString => true
  | String c r =>
      if (c =? "e")%char || (c =? "E")%char then
        let r' := match r with
                  | String "+" t => t
                  | String "-" t => t
                  | _ => r
                  end in
        nonempty r' && all_chars is_digit r'
      else false
  end.

(** StrUnsignedDecimalLiteral. *)
Definition unsigned_decimal_ok (s : string) : bool :=
  if (s =? "Infinity")%string then true
  else
    let after_int := drop_while is_digit s in
    let has_int := negb (String.length after_int =? String.length s)%nat in
    match after_int with
    | String "." r =>
        let after_frac := drop_while is_digit r in
        let has_frac := negb (String.length after_frac =? String.length r)%nat in
        (has_int || has_frac) && exponent_ok after_frac
    | _ => has_int && exponent_ok after_int
    end.

Definition numeric_literal_ok (s : string) : bool :=
  match s with
  | String "0" (String x r) =>
      if (x =? "x")%char || (x =? "X")%char then nonempty r && all_chars is_hex_digit r
      else if (x =? "o")%char || (x =? "O")%char then nonempty r && all_chars is_octal_digit r
      else if (x =? "b")%char || (x =? "B")%char then nonempty r && all_chars is_binary_digit r
      else unsigned_decimal_ok s
  | String "+" r => unsigned_decimal_ok r
  | String "-" r => unsigned_decimal_ok r
  | _ => unsigned_decimal_ok s
  end.

Fixpoint rev_string (acc s : string) : string :=
  match s with
  | String c r => rev_string (String c acc) r
  | EmptyString => acc
  end.

Definition trim (s : string) : string :=
  rev_string "" (skip_spaces (rev_string "" (skip_spaces s))).

(** [isNaN(s)] for a string [s]. *)
Definition isNaN_string (s : string) : bool :=
  let t := trim s in
  if (t =? "")%string then false else negb (numeric_literal_ok t).

End JS.
Export JS.

(** ** models/printSettings.js *)

(** A settings object: its four declared properties, [VUndefined] where the
    property is absent.  Other properties are never read. *)
Record Settings : Type := mkSettings {
  paperType : value;
  printQuality : value;
  colorMode : value;
  paperSize : value
}.

(** What a caller may pass where a settings object is expected: an object,
    or a primitive. *)
Inductive arg : Type :=
| Obj (s : Settings)
| Prim (v : value).

Definition no_settings : Settings :=
  mkSettings VUndefined VUndefined VUndefined VUndefined.

Definition truthy_arg (a : arg) : bool :=
  match a with
  | Obj _ => true
  | Prim v => truthy v
  end.

(** Reading the declared properties of [a]: a number, string or boolean has
    none of them; [null] and [undefined] raise a TypeError. *)
Definition properties (a : arg) : result Settings :=
  match a with
  | Obj s => Ok s
  | Prim VUndefined => Throw "Cannot read properties of undefined"
  | Prim VNull => Throw "Cannot read properties of null"
  | Prim _ => Ok no_settings
  end.

Module PrintSettings.

Definition DEFAULT_SETTINGS : Settings :=
  mkSettings (VStr "Plain Paper") (VNum (Num 600)) (VStr "Grayscale") (VStr "A4").

Definition paperTypes : list string := ["Plain Paper"; "Glossy"].
Definition printQualities : list Z := [600; 1200].
Definition colorModes : list string := ["Color"; "Grayscale"].
Definition paperSizes : list string := ["A4"; "Letter"; "Legal"].

Definition getDefaults : Settings := DEFAULT_SETTINGS.

Record Validation : Type := mkValidation {
  isValid : bool;
  errors : list string
}.

Definition check_field (present ok : bool) (message : string) : list string :=
  if present && negb ok then [message] else [].

(** The four checks of [validateSettings], in source order, on the
    properties read from a truthy argument. *)
Definition collect_errors (s : Settings) : list string :=
  check_field (negb (is_undefined (paperType s)))
        (includes_string paperTypes (paperType s))
        ("Invalid paper type: " ++ toString (paperType s)
           ++ ". Must be one of: " ++ join ", " paperTypes)
  ++ check_field (negb (is_undefined (printQuality s)))
        (includes_number printQualities (parseInt (printQuality s)))
        ("Invalid print quality: " ++ toString (printQuality s)
           ++ ". Must be one of: " ++ join ", " (map decimal printQualities))
  ++ check_field (negb (is_undefined (colorMode s)))
        (includes_string colorModes (colorMode s))
        ("Invalid color mode: " ++ toString (colorMode s)
           ++ ". Must be one of: " ++ join ", " colorModes)
  ++ check_field (negb (is_undefined (paperSize s)))
        (includes_string paperSizes (paperSize s))
        ("Invalid paper size: " ++ toString (paperSize s)
           ++ ". Must be one of: " ++ join ", " paperSizes).

Definition validateSettings (settings : arg) : Validation :=
  if negb (truthy_arg settings) then
    mkValidation false ["Settings object is required"]
  else
    let errs := match properties settings with
                | Ok s => collect_errors s
                | Throw _ => []
                end in
    mkValidation (Nat.eqb (List.length errs) 0) errs.

Definition applyDefaults (settings : arg) : result Settings :=
  let* s := properties settings in
  Ok (mkSettings
        (or_else (paperType s) (paperType DEFAULT_SETTINGS))
        (if negb (is_undefined (printQuality s))
         then VNum (parseInt (printQuality s))
         else printQuality DEFAULT_SETTINGS)
        (or_else (colorMode s) (colorMode DEFAULT_SETTINGS))
        (or_else (paperSize s) (paperSize DEFAULT_SETTINGS))).

Definition normalizeSettings (settings : arg) : result Settings :=
  let* s := properties settings in
  Ok (mkSettings
        (VStr (toString (or_else (paperType s) (paperType DEFAULT_SETTINGS))))
        (VNum (parseInt (or_else (printQuality s) (printQuality DEFAULT_SETTINGS))))
        (VStr (toString (or_else (colorMode s) (colorMode DEFAULT_SETTINGS))))
        (VStr (toString (or_else (paperSize s) (paperSize DEFAULT_SETTINGS))))).

End PrintSettings.

(** ** Timestamps

    The clock is milliseconds since the epoch ([Date.now()]).  SQLite's
    CURRENT_TIMESTAMP writes the UTC second as the text
    YYYY-MM-DD HH:MM:SS; [Date.prototype.toISOString] writes
    YYYY-MM-DDTHH:mm:ss.sssZ.  Both use the proleptic Gregorian calendar. *)

Module Clock.

Definition ONE_DAY_MS : Z := 24 * 60 * 60 * 1000.

(** The civil date of a day number, by eras of 400 years that begin on a
    first of March: year of the era, day of that year, month counted from
    March, day of the month. *)
Definition year_of_era (doe : Z) : Z :=
  (doe - doe / 1460 + doe / 36524 - doe / 146096) / 365.

Definition day_of_year (doe yoe : Z) : Z :=
  doe - (365 * yoe + yoe / 4 - yoe / 100).

Definition month_index (doy : Z) : Z := (5 * doy + 2) / 153.

Definition day_of_month (doy mp : Z) : Z := doy - (153 * mp + 2) / 5 + 1.

(** Year, month and day of the day numbered [z] since 1970-01-01. *)
Definition civil_from_days (z : Z) : Z * Z * Z :=
  let z := z + 719468 in
  let era := z / 146097 in
  let doe := z - era * 146097 in
  let yoe := year_of_era doe in
  let y := yoe + era * 400 in
  let doy := day_of_year doe yoe in
  let mp := month_index doy in
  let d := day_of_month doy mp in
  let m := if mp <? 10 then mp + 3 else mp - 9 in
  (if m <=? 2 then y + 1 else y, m, d).

Definition digit_char (d : Z) : ascii := ascii_of_nat (48 + Z.to_nat d).

(** The last [width] decimal digits of [n]: [n] left-padded with zeros
    when it has no more digits than that. *)
Fixpoint pad (width : nat) (n : Z) : string :=
  match width with
  | O => ""
  | S k => (pad k (n / 10) ++ String (digit_char (n mod 10)) "")%string
  end.

Definition date_of (c : Z * Z * Z) : string :=
  let '(y, m, d) := c in
  (pad 4 y ++ "-" ++ pad 2 m ++ "-" ++ pad 2 d)%string.

Definition date_text (ms : Z) : string :=
  date_of (civil_from_days (ms / ONE_DAY_MS)).

Definition time_text (ms : Z) : string :=
  let s := (ms mod ONE_DAY_MS) / 1000 in
  (pad 2 (s / 3600) ++ ":" ++ pad 2 (s / 60 mod 60) ++ ":" ++ pad 2 (s mod 60))%string.

(** The text CURRENT_TIMESTAMP stores at clock [ms] (years 0000 to 9999). *)
Definition CURRENT_TIMESTAMP (ms : Z) : string :=
  (date_text ms ++ " " ++ time_text ms)%string.

(** [new Date(ms).toISOString()] (years 0000 to 9999). *)
Definition toISOString (ms : Z) : string :=
  (date_text ms ++ "T" ++ time_text ms ++ "." ++ pad 3 (ms mod 1000) ++ "Z")%string.

(** The clocks of the years 0000 to 9999, from 0000-01-01T00:00:00.000Z
    to 9999-12-31T23:59:59.999Z. *)
Definition supported (ms : Z) : Prop :=
  -62167219200000 <= ms < 253402300800000.

(** A date as one number, YYYYMMDD. *)
Definition date_key (c : Z * Z * Z) : Z :=
  let '(y, m, d) := c in y * 10000 + m * 100 + d.

Definition valid_date (c : Z * Z * Z) : Prop :=
  let '(y, m, d) := c in 0 <= y <= 9999 /\ 1 <= m <= 12 /\ 1 <= d <= 31.

End Clock.

(** ** utils/printerIntegration.js *)

Module PrinterIntegration.

(** The names the module exports ([module.exports]). *)
Definition exports : list string :=
  ["formatPrinterOptions"; "getPrinterStatus"; "submitJobToPrinter";
   "getPrintQueueStatus"; "cancelPrintJob"; "validatePrintSettings";
   "getPrinterCapabilities"; "PRINTER_CONFIG"].

(** Reading property [name] of the module object: the implementation when
    the name is exported, [undefined] otherwise. *)
Definition member {A : Type} (name : string) (implementation : A) : option A :=
  if existsb (String.eqb name) exports then Some implementation else None.

Record Validation : Type := mkValidation {
  valid : bool;
  errors : list string
}.

Definition check_field (present ok : bool) (message : string) : list string :=
  if present && negb ok then [message] else [].

Definition collect_errors (s : Settings) : list string :=
  check_field (truthy (paperType s))
        (includes_string ["Plain Paper"; "Glossy"] (paperType s))
        ("Invalid paper type: " ++ toString (paperType s))
  ++ check_field (truthy (printQuality s))
        (includes_number [600; 1200] (parseInt (printQuality s)))
        ("Invalid print quality: " ++ toString (printQuality s))
  ++ check_field (truthy (colorMode s))
        (includes_string ["Color"; "Grayscale"] (colorMode s))
        ("Invalid color mode: " ++ toString (colorMode s))
  ++ check_field (truthy (paperSize s))
        (includes_string ["A4"; "Letter"; "Legal"] (paperSize s))
        ("Invalid paper size: " ++ toString (paperSize s)).

(** [!settings || typeof settings !== 'object'] holds of every primitive. *)
Definition validatePrintSettings (settings : arg) : Validation :=
  match settings with
  | Prim _ => mkValidation false ["Settings must be an object"]
  | Obj s =>
      let errs := collect_errors s in
      mkValidation (Nat.eqb (List.length errs) 0) errs
  end.

(** DeviceSubmissionResult; [jobId] is the device token, [None] for null. *)
Record SubmitResult : Type := mkSubmitResult {
  success : bool;
  jobId : option string;
  message : string
}.

(** The world the printer module talks to: the file system, and the
    platform branch with its shell command, which either yields the device
    token of the accepted job or throws. *)
Record Device : Type := mkDevice {
  existsSync : string -> bool;
  platformSubmit : string -> Settings -> result string
}.

Definition failure (reason : string) : SubmitResult :=
  mkSubmitResult false None ("Failed to submit job to printer: " ++ reason).

(** The whole body sits in a try/catch that returns: it never throws. *)
Definition submitJobToPrinter (dev : Device) (documentPath : string)
    (settings : arg) : SubmitResult :=
  if negb (existsSync dev documentPath) then
    failure ("Document file not found: " ++ documentPath)
  else
    match settings with
    | Prim _ => failure "Invalid print settings"
    | Obj s =>
        match platformSubmit dev documentPath s with
        | Ok token =>
            mkSubmitResult true (Some token)
              ("Job submitted successfully to printer. Job ID: " ++ token)
        | Throw reason => failure reason
        end
    end.

End PrinterIntegration.

(** ** models/database.js *)

Module Database.

(** A row of table PrintJob.  The columns paperType, printQuality,
    colorMode and paperSize are grouped in [settings] and hold the values
    as they were bound; no property below reads them back, so SQLite's
    column affinity is left out.  [submittedAt] and [completedAt] are the
    texts CURRENT_TIMESTAMP wrote, [None] for NULL. *)
Record PrintJobRow : Type := mkRow {
  id : Z;
  userId : Z;
  documentName : string;
  documentPath : string;
  settings : Settings;
  status : string;
  submittedAt : string;
  completedAt : option string
}.

(** The database: the identifiers of table User, the rows of PrintJob in
    rowid order, and the AUTOINCREMENT counter sqlite_sequence keeps for
    PrintJob. *)
Record Db : Type := mkDb {
  users : list Z;
  jobs : list PrintJobRow;
  sequence : Z
}.

Record RunResult : Type := mkRun {
  lastID : Z;
  changes : Z
}.

(** The argument of [insertPrintJob]; an absent property is [None] or
    [VUndefined]. *)
Record JobData : Type := mkJobData {
  jd_userId : option Z;
  jd_documentName : option string;
  jd_documentPath : option string;
  jd_settings : Settings;
  jd_status : option string
}.

(** Destructuring default [x = d]. *)
Definition default_to (v d : value) : value :=
  if is_undefined v then d else v.

Definition max_id (l : list PrintJobRow) : Z :=
  fold_right (fun r m => Z.max (id r) m) 0 l.

(** AUTOINCREMENT: one more than the largest rowid ever used. *)
Definition next_id (db : Db) : Z := Z.max (sequence db) (max_id (jobs db)) + 1.

(** INSERT INTO PrintJob: NOT NULL on the first three columns, the foreign
    key on userId (PRAGMA foreign_keys = ON), submittedAt by default
    CURRENT_TIMESTAMP, completedAt NULL. *)
Definition insertPrintJob (now : Z) (db : Db) (jobData : JobData)
    : result (Db * RunResult) :=
  match jd_userId jobData, jd_documentName jobData, jd_documentPath jobData with
  | Some uid, Some name, Some path =>
      if existsb (Z.eqb uid) (users db) then
        let s := jd_settings jobData in
        let row :=
          mkRow (next_id db) uid name path
            (mkSettings
               (default_to (paperType s) (VStr "Plain Paper"))
               (default_to (printQuality s) (VNum (Num 600)))
               (default_to (colorMode s) (VStr "Grayscale"))
               (default_to (paperSize s) (VStr "A4")))
            (match jd_status jobData with Some st => st | None => "pending" end)
            (Clock.CURRENT_TIMESTAMP now) None in
        Ok (mkDb (users db) (jobs db ++ [row]) (next_id db),
            mkRun (next_id db) 1)
      else Throw "Query failed: SQLITE_CONSTRAINT: FOREIGN KEY constraint failed"
  | _, _, _ => Throw "Query failed: SQLITE_CONSTRAINT: NOT NULL constraint failed"
  end.

(** Insertion of [r] into a list ordered by submittedAt, latest first. *)
Fixpoint insert_desc (r : PrintJobRow) (l : list PrintJobRow) : list PrintJobRow :=
  match l with
  | [] => [r]
  | x :: t =>
      if (submittedAt x <=? submittedAt r)%string then r :: l
      else x :: insert_desc r t
  end.

Definition order_by_submittedAt_desc (l : list PrintJobRow) : list PrintJobRow :=
  fold_right insert_desc [] l.

(** SELECT * FROM PrintJob WHERE userId = ? ORDER BY submittedAt DESC.
    The order among rows of equal submittedAt is not fixed by SQL; the
    properties below do not depend on it. *)
Definition getPrintJobs (db : Db) (uid : Z) : list PrintJobRow :=
  order_by_submittedAt_desc (filter (fun r => userId r =? uid) (jobs db)).

(** SELECT * FROM PrintJob WHERE id = ?; no row equals NaN. *)
Definition getPrintJob (db : Db) (jobId : number) : option PrintJobRow :=
  match jobId with
  | Num n => find (fun r => id r =? n) (jobs db)
  | NaN => None
  end.

Definition count_id (jobId : Z) (l : list PrintJobRow) : Z :=
  Z.of_nat (List.length (filter (fun r => id r =? jobId) l)).

Definition set_status (st : string) (r : PrintJobRow) : PrintJobRow :=
  mkRow (id r) (userId r) (documentName r) (documentPath r) (settings r)
        st (submittedAt r) (completedAt r).

Definition set_completed (stamp : string) (r : PrintJobRow) : PrintJobRow :=
  mkRow (id r) (userId r) (documentName r) (documentPath r) (settings r)
        "completed" (submittedAt r) (Some stamp).

Definition update_where (jobId : Z) (f : PrintJobRow -> PrintJobRow)
    (l : list PrintJobRow) : list PrintJobRow :=
  map (fun r => if id r =? jobId then f r else r) l.

(** UPDATE PrintJob SET status = ? WHERE id = ? *)
Definition updatePrintJobStatus (db : Db) (jobId : Z) (st : string)
    : Db * RunResult :=
  (mkDb (users db) (update_where jobId (set_status st) (jobs db)) (sequence db),
   mkRun 0 (count_id jobId (jobs db))).

(** UPDATE PrintJob SET status = 'completed',
    completedAt = CURRENT_TIMESTAMP WHERE id = ? *)
Definition completePrintJob (now : Z) (db : Db) (jobId : Z) : Db * RunResult :=
  (mkDb (users db)
        (update_where jobId (set_completed (Clock.CURRENT_TIMESTAMP now)) (jobs db))
        (sequence db),
   mkRun 0 (count_id jobId (jobs db))).

End Database.

(** ** models/printJob.js

    A function that throws leaves the database as the failing statement
    found it; every statement is one atomic write. *)

Module PrintJob.

Import Database.

Definition falsy_id (u : option Z) : bool :=
  match u with
  | Some n => n =? 0
  | None => true
  end.

Definition falsy_text (s : option string) : bool :=
  match s with
  | Some t => (t =? "")%string
  | None => true
  end.

(** Returns the new database and [lastID], which is both [id] and [jobId]
    of the object the source returns. *)
Definition createPrintJob (now : Z) (db : Db) (jobData : JobData)
    : result (Db * Z) :=
  if falsy_id (jd_userId jobData) || falsy_text (jd_documentName jobData)
     || falsy_text (jd_documentPath jobData)
  then Throw "Missing required job data: userId, documentName, documentPath"
  else
    let s := jd_settings jobData in
    let* (db', r) :=
      insertPrintJob now db
        (mkJobData (jd_userId jobData) (jd_documentName jobData)
           (jd_documentPath jobData)
           (mkSettings
              (default_to (paperType s) (VStr "Plain Paper"))
              (default_to (printQuality s) (VNum (Num 600)))
              (default_to (colorMode s) (VStr "Grayscale"))
              (default_to (paperSize s) (VStr "A4")))
           (Some "pending")) in
    Ok (db', lastID r).

Definition rethrow {A : Type} (r : result A) : result A :=
  match r with
  | Ok a => Ok a
  | Throw m => Throw ("Job submission error: " ++ m)
  end.

Definition submitJobToQueue (dev : PrinterIntegration.Device) (db : Db)
    (jobId : Z) (documentPath : string) (settings : arg)
    : result (Db * PrinterIntegration.SubmitResult) :=
  rethrow
    match getPrintJob db (Num jobId) with
    | None => Throw ("Job " ++ decimal jobId ++ " not found")
    | Some _ =>
        let validation := PrinterIntegration.validatePrintSettings settings in
        if negb (PrinterIntegration.valid validation) then
          Throw ("Invalid print settings: "
                   ++ join ", " (PrinterIntegration.errors validation))
        else
          let result :=
            PrinterIntegration.submitJobToPrinter dev documentPath settings in
          if PrinterIntegration.success result then
            Ok (fst (updatePrintJobStatus db jobId "in-progress"), result)
          else Ok (db, result)
    end.

Definition getUserPrintJobs (db : Db) (uid : Z) : list PrintJobRow :=
  getPrintJobs db uid.

Definition validStatuses : list string :=
  ["pending"; "in-progress"; "completed"; "failed"].

Definition updateJobStatus (db : Db) (jobId : Z) (st : string)
    : result (Db * RunResult) :=
  if negb (existsb (String.eqb st) validStatuses) then
    Throw ("Invalid status: " ++ st ++ ". Must be one of: "
             ++ join ", " validStatuses)
  else Ok (updatePrintJobStatus db jobId st).

Definition completeJob (now : Z) (db : Db) (jobId : Z) : Db * RunResult :=
  completePrintJob now db jobId.

End PrintJob.

(** ** utils/cleanupService.js *)

Module CleanupService.

Import Database.

Record CleanupResult : Type := mkCleanup {
  deleted : Z;
  message : string
}.

(** DELETE FROM PrintJob WHERE submittedAt < ?, the parameter being the ISO
    text of one day before [now].  The column is declared DATETIME and
    holds the text CURRENT_TIMESTAMP wrote, the parameter is bound as
    text, and neither text reads as a number: SQLite compares the two
    texts byte by byte.  The result counts the deleted rows
    ([this.changes]). *)
Definition cleanupOldPrintJobs (now : Z) (db : Db) : Db * CleanupResult :=
  let oneDayAgo := Clock.toISOString (now - Clock.ONE_DAY_MS) in
  let kept := filter (fun r => negb (submittedAt r <? oneDayAgo)%string) (jobs db) in
  let n := Z.of_nat (List.length (jobs db) - List.length kept) in
  (mkDb (users db) kept (sequence db),
   mkCleanup n ("Cleaned up " ++ decimal n ++ " old print job(s) from database")).

End CleanupService.

(** ** controllers/jobController.js *)

Module JobController.

Record UploadedFile : Type := mkUpload {
  originalName : string;
  path : string
}.

(** The session properties the job routes read; [None] is an absent or
    null property. *)
Record Session : Type := mkSession {
  uploadedFile : option UploadedFile;
  userId : option Z;
  printSettings : option Settings
}.

Inductive Response : Type :=
| RenderError (code : Z) (error : string)
| RenderJobConfirmation (jobId : Z) (documentName : string)
    (settings : Settings) (submissionResult : PrinterIntegration.SubmitResult)
| RenderJobDetails (job : Database.PrintJobRow)
| RenderDashboard (jobs : list Database.PrintJobRow)
| Redirect (location : string)
| JsonError (code : Z) (error : string)
| JsonStatus (jobId : Z) (status : value) (updated : bool).

(** POST /submit-job.  Returns the response, the database and the session
    as the handler leaves them. *)
Definition postSubmitJob (dev : PrinterIntegration.Device) (now : Z)
    (db : Database.Db) (session : Session) : Response * Database.Db * Session :=
  match uploadedFile session with
  | None =>
      (RenderError 200 "No file uploaded. Please upload a document first.",
       db, session)
  | Some file =>
      if PrintJob.falsy_id (userId session) then
        (RenderError 200 "User session invalid. Please log in again.", db, session)
      else
        let settings :=
          match printSettings session with
          | Some s => s
          | None => PrintSettings.getDefaults
          end in
        match PrintJob.createPrintJob now db
                (Database.mkJobData (userId session) (Some (originalName file))
                   (Some (path file)) settings None) with
        | Throw m => (RenderError 500 ("Job submission failed: " ++ m), db, session)
        | Ok (db1, jobId) =>
            match PrintJob.submitJobToQueue dev db1 jobId (path file) (Obj settings) with
            | Throw m =>
                (RenderError 500 ("Job submission failed: " ++ m), db1, session)
            | Ok (db2, submissionResult) =>
                (RenderJobConfirmation jobId (originalName file) settings
                   submissionResult,
                 db2, mkSession None (userId session) None)
            end
        end
  end.

(** [!jobId || isNaN(jobId)] on the route parameter. *)
Definition invalid_job_id (jobId : string) : bool :=
  (jobId =? "")%string || isNaN_string jobId.

(** [job.userId !== req.session.userId] *)
Definition not_owner (job : Database.PrintJobRow) (session : Session) : bool :=
  match userId session with
  | Some u => negb (Database.userId job =? u)
  | None => true
  end.

(** GET /job/:jobId *)
Definition getJobDetails (db : Database.Db) (session : Session)
    (jobId : string) : Response :=
  if invalid_job_id jobId then RenderError 400 "Invalid job ID"
  else
    match Database.getPrintJob db (parseInt_string jobId) with
    | None => RenderError 404 "Job not found"
    | Some job =>
        if not_owner job session then
          RenderError 403
            "Access denied. You do not have permission to view this job."
        else RenderJobDetails job
    end.

(** GET /dashboard *)
Definition getDashboard (db : Database.Db) (session : Session) : Response :=
  if PrintJob.falsy_id (userId session) then Redirect "/login"
  else
    match userId session with
    | Some u => RenderDashboard (PrintJob.getUserPrintJobs db u)
    | None => Redirect "/login"
    end.

(** What a queue check answers: the object whose [inQueue] and [status]
    the handler reads. *)
Record StatusCheck : Type := mkStatusCheck {
  inQueue : value;
  queueStatus : value
}.

Definition QueueCheck : Type := Z -> result StatusCheck.

(** GET /api/job/:jobId/status, given the value of the property
    [printerIntegration.isJobInQueue]: calling [undefined] raises a
    TypeError, which the handler's catch turns into status 500. *)
Definition updateJobStatus_with (isJobInQueue : option QueueCheck)
    (db : Database.Db) (session : Session) (jobId : string)
    : Response * Database.Db :=
  let failed := (JsonError 500 "Failed to update job status", db) in
  if invalid_job_id jobId then (JsonError 400 "Invalid job ID", db)
  else
    match Database.getPrintJob db (parseInt_string jobId) with
    | None => (JsonError 404 "Job not found", db)
    | Some job =>
        if not_owner job session then (JsonError 403 "Access denied", db)
        else
          match isJobInQueue with
          | None => failed
          | Some queue_check =>
              match queue_check (Database.id job) with
              | Throw _ => failed
              | Ok statusCheck =>
                  let gone := negb (truthy (inQueue statusCheck)) in
                  let answer :=
                    JsonStatus (Database.id job) (queueStatus statusCheck) gone in
                  if gone && (Database.status job =? "in-progress")%string then
                    match PrintJob.updateJobStatus db (Database.id job) "completed" with
                    | Ok (db', _) => (answer, db')
                    | Throw _ => failed
                    end
                  else (answer, db)
              end
          end
    end.

(** The handler as the application runs it: the property is read from the
    printer integration module object. *)
Definition updateJobStatus (implementation : QueueCheck) (db : Database.Db)
    (session : Session) (jobId : string) : Response * Database.Db :=
  updateJobStatus_with
    (PrinterIntegration.member "isJobInQueue" implementation) db session jobId.

(** The operations that reach the job table: the routes of app.js, and
    the sweep that [runAllCleanup] runs on schedule and [manualCleanup] on
    demand (its two document sweeps touch the file system only). *)
Inductive Request : Type :=
| POST_submit_job (dev : PrinterIntegration.Device) (now : Z) (session : Session)
| GET_job_status (session : Session) (jobId : string)
| GET_job (session : Session) (jobId : string)
| GET_dashboard (session : Session)
| Sweep (now : Z).

(** The database after serving a request. *)
Definition serve (isJobInQueue : option QueueCheck) (db : Database.Db)
    (request : Request) : Database.Db :=
  match request with
  | POST_submit_job dev now session =>
      snd (fst (postSubmitJob dev now db session))
  | GET_job_status session jobId =>
      snd (updateJobStatus_with isJobInQueue db session jobId)
  | GET_job _ _ => db
  | GET_dashboard _ => db
  | Sweep now => fst (CleanupService.cleanupOldPrintJobs now db)
  end.

End JobController.

(** ** Vocabulary of the specification *)

Definition terminal (st : string) : bool :=
  (st =? "completed")%string || (st =? "failed")%string.

(** The moves of the job state machine, and staying put. *)
Definition follows_order (before after : string) : Prop :=
  after = before
  \/ (before = "pending" /\ after = "in-progress")
  \/ (before = "in-progress" /\ after = "completed").


Definition job_status (db : Database.Db) (jobId : Z) : option string :=
  option_map Database.status (Database.getPrintJob db (Num jobId)).

Definition job_completedAt (db : Database.Db) (jobId : Z) : option (option string) :=
  option_map Database.completedAt (Database.getPrintJob db (Num jobId)).

Definition defined (v : value) : Prop := v <> VUndefined.

Definition all_defined (s : Settings) : Prop :=
  defined (paperType s) /\ defined (printQuality s)
  /\ defined (colorMode s) /\ defined (paperSize s).

(** The statement that [applyDefaults] keeps every field present in its
    input, whatever its value (the quality through [parseInt]). *)
Definition applyDefaults_keeps_every_present_field : Prop :=
  forall s r : Settings,
    PrintSettings.applyDefaults (Obj s) = Ok r ->
    all_defined r
    /\ (defined (paperType s) -> paperType r = paperType s)
    /\ (defined (printQuality s) -> printQuality r = VNum (parseInt (printQuality s)))
    /\ (defined (colorMode s) -> colorMode r = colorMode s)
    /\ (defined (paperSize s) -> paperSize r = paperSize s).

(** The statement that no exposed operation, the model's [updateJobStatus]
    included, moves a job out of a terminal status. *)
Definition terminal_status_is_final : Prop :=
  forall db jobId before after db' r,
    job_status db jobId = Some before ->
    terminal before = true ->
    PrintJob.updateJobStatus db jobId after = Ok (db', r) ->
    job_status db' jobId = Some before.

(** Rows are told apart by their primary key. *)
Definition unique_ids (db : Database.Db) : Prop :=
  NoDup (map Database.id (Database.jobs db)).

(** Latest submission first. *)
Definition newest_first (a b : Database.PrintJobRow) : Prop :=
  (Database.submittedAt b <=? Database.submittedAt a)%string = true.

(** ** A running example *)

Module Scenario.

Definition upload : JobController.UploadedFile :=
  JobController.mkUpload "a.pdf" "/uploads/a.pdf".

(** User 1, a document uploaded, no settings chosen. *)
Definition session : JobController.Session :=
  JobController.mkSession (Some upload) (Some 1) None.

(** A printer that accepts every job under token 42. *)
Definition device_up : PrinterIntegration.Device :=
  PrinterIntegration.mkDevice (fun _ => true) (fun _ _ => Ok "42").

(** 2026-11-02T00:00:30.000Z. *)
Definition sweep_time : Z := 1793577630000.

(** One minute earlier: 2026-11-01 23:59:30. *)
Definition submit_time : Z := sweep_time - 60 * 1000.

Definition empty_db : Database.Db := Database.mkDb [1; 2] [] 0.

(** The database after user 1 submitted a.pdf: job 1, in progress. *)
Definition db_in_progress : Database.Db :=
  snd (fst (JobController.postSubmitJob device_up submit_time empty_db session)).

(** The same job, marked completed by [completeJob]. *)
Definition db_completed : Database.Db :=
  fst (PrintJob.completeJob submit_time db_in_progress 1).

(** A queue check that reports the job gone from the device queue. *)
Definition queue_empty : JobController.QueueCheck :=
  fun _ => Ok (JobController.mkStatusCheck (VBool false) (VStr "completed")).

End Scenario.

(** ** utils/fileValidator.js *)

Module FileValidator.

Definition SUPPORTED_FORMATS : list (string * list string) :=
  [("application/pdf", [".pdf"]);
   ("image/jpeg", [".jpg"; ".jpeg"]);
   ("image/png", [".png"]);
   ("image/gif", [".gif"]);
   ("image/bmp", [".bmp"]);
   ("image/tiff", [".tiff"; ".tif"])].

(** [Object.values(SUPPORTED_FORMATS).flat()] *)
Definition SUPPORTED_EXTENSIONS : list string := flat_map snd SUPPORTED_FORMATS.

Definition DEFAULT_FILE_SIZE_LIMIT : Z := 50 * 1024 * 1024.

Definition getSupportedMimeTypes : list string := map fst SUPPORTED_FORMATS.

Definition getSupportedExtensions : list string := SUPPORTED_EXTENSIONS.

(** [filename.substring(filename.lastIndexOf('.'))], [None] when there is
    no dot. *)
Fixpoint from_last_dot (s : string) : option string :=
  match s with
  | EmptyString => None
  | String c r =>
      match from_last_dot r with
      | Some e => Some e
      | None => if (c =? ".")%char then Some s else None
      end
  end.

Definition getFileExtension (filename : string) : string :=
  match from_last_dot filename with
  | Some e => e
  | None => ""
  end.

Definition lower_char (c : ascii) : ascii :=
  let n := nat_of_ascii c in
  if ((65 <=? n) && (n <=? 90))%nat then ascii_of_nat (n + 32) else c.

(** [String.prototype.toLowerCase] on ASCII text. *)
Fixpoint toLowerCase (s : string) : string :=
  match s with
  | EmptyString => EmptyString
  | String c r => String (lower_char c) (toLowerCase r)
  end.

(** [SUPPORTED_FORMATS[mimetype] || []], read after the MIME type was
    found among the object's own keys. *)
Fixpoint extensions_of (mimetype : string) (formats : list (string * list string))
    : list string :=
  match formats with
  | [] => []
  | (m, es) :: rest => if (m =? mimetype)%string then es else extensions_of mimetype rest
  end.

Definition validateFileFormat (filename mimetype : string) : bool :=
  if negb (existsb (String.eqb mimetype) getSupportedMimeTypes) then false
  else
    let ext := getFileExtension filename in
    let allowedExtensions := extensions_of mimetype SUPPORTED_FORMATS in
    existsb (String.eqb (toLowerCase ext)) allowedExtensions.

(** [maxSize] is [None] when the caller leaves it out. *)
Definition validateFileSize (fileSize : Z) (maxSize : option Z) : bool :=
  let limit := match maxSize with Some m => m | None => DEFAULT_FILE_SIZE_LIMIT end in
  (0 <? fileSize) && (fileSize <=? limit).

(** [Math.round(maxSize / (1024 * 1024))]: the nearest integer, halves
    upwards. *)
Definition getFileSizeLimitMB (maxSize : option Z) : Z :=
  let limit := match maxSize with Some m => m | None => DEFAULT_FILE_SIZE_LIMIT end in
  (2 * limit + 1024 * 1024) / (2 * (1024 * 1024)).

End FileValidator.

(** ** utils/printerIntegration.js: the commands *)

Module PrinterCommands.

Definition PRINTER_NAME : string := "Ink-Tank-310-series".

(** The property names every object inherits from [Object.prototype]. *)
Definition object_prototype_names : list string :=
  ["constructor"; "hasOwnProperty"; "isPrototypeOf"; "propertyIsEnumerable";
   "toLocaleString"; "toString"; "valueOf"; "__proto__";
   "__defineGetter__"; "__defineSetter__"; "__lookupGetter__"; "__lookupSetter__"].

Fixpoint own_property (key : string) (table : list (string * string)) : option string :=
  match table with
  | [] => None
  | (k, v) :: rest => if (k =? key)%string then Some v else own_property key rest
  end.

(** [table[key]] on an object literal, as text: the key is converted to a
    string; an own property gives its value, an inherited one gives the
    text [native_text] of the built-in found there (every one of them is
    truthy), anything else is [undefined]. *)
Definition lookup (native_text : string -> string) (table : list (string * string))
    (key : value) : option string :=
  let k := toString key in
  match own_property k table with
  | Some v => Some v
  | None =>
      if existsb (String.eqb k) object_prototype_names then Some (native_text k)
      else None
  end.

Definition paperSizeMap : list (string * string) :=
  [("A4", "A4"); ("Letter", "Letter"); ("Legal", "Legal")].

Definition colorModeMap : list (string * string) :=
  [("Color", "-o ColorModel=RGB"); ("Grayscale", "-o ColorModel=Gray")].

Definition dpiMap : list (string * string) :=
  [("600", "-o Resolution=600x600dpi"); ("1200", "-o Resolution=1200x1200dpi")].

Definition paperTypeMap : list (string * string) :=
  [("Plain Paper", "-o MediaType=Plain"); ("Glossy", "-o MediaType=Glossy")].

(** [if (field && table[field]) options.push(...)] *)
Definition option_for (native_text : string -> string)
    (table : list (string * string)) (render : string -> string) (field : value)
    : list string :=
  if truthy field then
    match lookup native_text table field with
    | Some v => [render v]
    | None => []
    end
  else [].

(** The array [options] of [formatPrinterOptions] on a settings object. *)
Definition printer_options (native_text : string -> string) (s : Settings)
    : list string :=
  option_for native_text paperSizeMap (fun v => "-o media=" ++ v) (paperSize s)
  ++ option_for native_text colorModeMap (fun v => v) (colorMode s)
  ++ option_for native_text dpiMap (fun v => v) (printQuality s)
  ++ option_for native_text paperTypeMap (fun v => v) (paperType s).

(** Reading a property of [null] or [undefined] throws. *)
Definition formatPrinterOptions (native_text : string -> string) (settings : arg)
    : result string :=
  let* s := properties settings in
  Ok (join " " (printer_options native_text s)).

(** [haystack.includes(needle)] *)
Fixpoint includes (haystack needle : string) : bool :=
  String.prefix needle haystack
  || match haystack with
     | String _ rest => includes rest needle
     | EmptyString => false
     end.

(** The classes [\w] and [\d]. *)
Definition is_word (c : ascii) : bool :=
  let n := nat_of_ascii c in
  (is_digit c || ((65 <=? n) && (n <=? 90)) || ((97 <=? n) && (n <=? 122))
   || (n =? 95))%nat.

Definition is_word_or_dash (c : ascii) : bool := is_word c || (c =? "-")%char.

Fixpoint take_digits (s : string) : string :=
  match s with
  | String c r => if is_digit c then String c (take_digits r) else EmptyString
  | EmptyString => EmptyString
  end.

Definition starts_with_digit (s : string) : bool :=
  match s with
  | String c _ => is_digit c
  | EmptyString => false
  end.

(** [[\w\-]+-(\d+)] at the head of [s]: the greedy class gives way until
    what follows it is a dash and a digit, so the dash taken is the last
    one of the run of class characters that has a digit behind it; [first]
    tells that no class character has been consumed yet. *)
Fixpoint name_dash_digits (first : bool) (s : string) : option string :=
  match s with
  | String c r =>
      if is_word_or_dash c then
        match name_dash_digits false r with
        | Some digits => Some digits
        | None =>
            if negb first && (c =? "-")%char && starts_with_digit r
            then Some (take_digits r)
            else None
        end
      else None
  | EmptyString => None
  end.

Fixpoint drop (n : nat) (s : string) : string :=
  match n, s with
  | S k, String _ r => drop k r
  | _, _ => s
  end.

(** The pattern anchored at the head of [s]. *)
Definition request_id_here (s : string) : option string :=
  if String.prefix "request id is " s
  then name_dash_digits true (drop 14 s)
  else None.

(** [stdout.match(/request id is [\w\-]+-(\d+)/)]: the first group of the
    leftmost match. *)
Fixpoint match_request_id (stdout : string) : option string :=
  match request_id_here stdout with
  | Some digits => Some digits
  | None =>
      match stdout with
      | String _ rest => match_request_id rest
      | EmptyString => None
      end
  end.

Record ExecOutput : Type := mkExec {
  stdout : string;
  stderr : string
}.

(** The shell: a command line gives its output, or fails with the message
    of the error. *)
Definition Shell : Type := string -> result ExecOutput.

(** The double quote character, as a text. *)
Definition quote : string := String (ascii_of_nat 34) EmptyString.

Definition lp_command (printerOptions documentPath : string) : string :=
  "lp -d " ++ PRINTER_NAME ++ " " ++ printerOptions ++ " "
    ++ quote ++ documentPath ++ quote.

(** Returns the device token or throws, as [platformSubmit] expects. *)
Definition submitJobToPrinterLinux (native_text : string -> string) (exec : Shell)
    (documentPath : string) (settings : Settings) : result string :=
  let printerOptions := join " " (printer_options native_text settings) in
  match exec (lp_command printerOptions documentPath) with
  | Ok out =>
      Ok (match match_request_id (stdout out) with
          | Some digits => digits
          | None => "unknown"
          end)
  | Throw m =>
      if includes m "No such file or directory" then
        Throw "Printer not found or CUPS not installed"
      else if includes m "Permission denied" then
        Throw "Permission denied. User may not have access to printer"
      else if includes m "timeout" then
        Throw "Printer communication timeout"
      else Throw ("Printer submission failed: " ++ m)
  end.

Definition print_command (documentPath : string) : string :=
  "print /D:" ++ quote ++ PRINTER_NAME ++ quote ++ " " ++ quote ++ documentPath ++ quote.

(** The token is the clock in seconds. *)
Definition submitJobToPrinterWindows (exec : Shell) (now : Z)
    (documentPath : string) (settings : Settings) : result string :=
  match exec (print_command documentPath) with
  | Ok _ => Ok (decimal (now / 1000))
  | Throw m =>
      if includes m "not found" || includes m "not recognized" then
        Throw "Printer not found or print command not available"
      else if includes m "Access denied" then
        Throw "Permission denied. User may not have access to printer"
      else if includes m "timeout" then
        Throw "Printer communication timeout"
      else Throw ("Printer submission failed: " ++ m)
  end.

(** [os.platform()] *)
Inductive Platform : Type :=
| Win32
| Linux
| OtherPlatform (name : string).

(** The world behind [submitJobToPrinter] on a given machine. *)
Definition device (existsSync : string -> bool) (platform : Platform)
    (native_text : string -> string) (exec : Shell) (now : Z)
    : PrinterIntegration.Device :=
  PrinterIntegration.mkDevice existsSync
    (match platform with
     | Win32 => submitJobToPrinterWindows exec now
     | Linux => submitJobToPrinterLinux native_text exec
     | OtherPlatform name => fun _ _ => Throw ("Unsupported platform: " ++ name)
     end).

(** [cancelPrintJob]; [jobId] is [None] for null or undefined. *)
Definition cancelPrintJob (exec : Shell) (jobId : option string) : bool * string :=
  let failed m := (false, "Failed to cancel job: " ++ m) in
  match jobId with
  | None => failed "Job ID is required"
  | Some j =>
      if (j =? "")%string then failed "Job ID is required"
      else
        match exec ("cancel " ++ PRINTER_NAME ++ "-" ++ j) with
        | Ok _ => (true, "Job " ++ j ++ " cancelled successfully")
        | Throw m => failed m
        end
  end.

End PrinterCommands.

(** ** controllers/configController.js *)

Module ConfigController.

(** The fields of the form, as [req.body] holds them. *)
Record Body : Type := mkBody {
  body_paperType : value;
  body_printQuality : value;
  body_colorMode : value;
  body_paperSize : value
}.

(** The page 'configure' with its error and success texts. *)
Record Page : Type := mkPage {
  error : option string;
  success : option string
}.

(** POST /configure: the page and the session as the handler leaves them. *)
Definition postConfig (session : JobController.Session) (body : Body)
    : Page * JobController.Session :=
  let settings :=
    mkSettings (body_paperType body) (body_printQuality body)
               (body_colorMode body) (body_paperSize body) in
  let validation := PrintSettings.validateSettings (Obj settings) in
  if negb (PrintSettings.isValid validation) then
    (mkPage (Some (join "; " (PrintSettings.errors validation))) None, session)
  else
    match PrintSettings.normalizeSettings (Obj settings) with
    | Ok normalizedSettings =>
        (mkPage None (Some "Print settings saved successfully"),
         JobController.mkSession (JobController.uploadedFile session)
           (JobController.userId session) (Some normalizedSettings))
    | Throw _ =>
        (mkPage (Some "An error occurred while saving settings") None, session)
    end.

(** [req.session] may be absent. *)
Definition getCurrentSettings (session : option JobController.Session) : Settings :=
  match session with
  | Some s =>
      match JobController.printSettings s with
      | Some settings => settings
      | None => PrintSettings.getDefaults
      end
  | None => PrintSettings.getDefaults
  end.

End ConfigController.

(** ** middleware/auth.js *)

Module Auth.

Inductive Outcome : Type :=
| Next
| RedirectTo (location : string).

Definition logged_in (session : option JobController.Session) : bool :=
  match session with
  | Some s => negb (PrintJob.falsy_id (JobController.userId s))
  | None => false
  end.

Definition requireAuth (session : option JobController.Session) : Outcome :=
  if negb (logged_in session) then RedirectTo "/login" else Next.

Definition requireGuest (session : option JobController.Session) : Outcome :=
  if logged_in session then RedirectTo "/dashboard" else Next.

(** A route of app.js registered behind [requireAuth]. *)
Definition behind_requireAuth {A : Type} (redirect : string -> A)
    (handler : JobController.Session -> A)
    (session : option JobController.Session) : A :=
  match requireAuth session, session with
  | Next, Some s => handler s
  | RedirectTo location, _ => redirect location
  | Next, None => redirect "/login"
  end.

End Auth.

(** ** Directories of stored documents *)

Module Files.

(** A directory entry as the sweeps see it: [mtimeMs] is [None] when
    [fs.statSync] throws on it, and else the modification time in whole
    milliseconds (the clock readings are whole numbers, so the test
    [age > ONE_DAY_MS] gives the same answer on the integral part of the
    time); [locked] tells that [fs.unlinkSync] throws. *)
Record File : Type := mkFile {
  fileName : string;
  mtimeMs : option Z;
  locked : bool
}.

(** [None]: the directory does not exist. *)
Definition Directory : Type := option (list File).

Definition is_none {A : Type} (o : option A) : bool :=
  match o with
  | Some _ => false
  | None => true
  end.

(** [age > ONE_DAY_MS] *)
Definition expired (now : Z) (f : File) : bool :=
  match mtimeMs f with
  | Some m => Clock.ONE_DAY_MS <? now - m
  | None => false
  end.

End Files.

(** ** utils/cleanupService.js: the document sweeps *)

Module CleanupFiles.

Import Files.

(** The body of [files.forEach]: stat, compare, unlink, all inside one
    try whose catch only logs.  [true] when the file was deleted. *)
Definition sweep_one (now : Z) (f : File) : bool :=
  expired now f && negb (locked f).

(** [files.forEach] with its counter: the entries that remain and
    [deletedCount]. *)
Fixpoint sweep_loop (now : Z) (files : list File) (deletedCount : Z)
    : list File * Z :=
  match files with
  | [] => ([], deletedCount)
  | f :: rest =>
      if sweep_one now f then sweep_loop now rest (deletedCount + 1)
      else let '(kept, n) := sweep_loop now rest deletedCount in (f :: kept, n)
  end.

Definition cleanupDirectory (missing : string) (what : string) (now : Z)
    (dir : Directory) : Directory * CleanupService.CleanupResult :=
  match dir with
  | None => (None, CleanupService.mkCleanup 0 missing)
  | Some files =>
      let '(kept, deletedCount) := sweep_loop now files 0 in
      (Some kept,
       CleanupService.mkCleanup deletedCount
         ("Cleaned up " ++ decimal deletedCount ++ " old " ++ what ++ " document(s)"))
  end.

Definition cleanupUploadedDocuments : Z -> Directory -> Directory * CleanupService.CleanupResult :=
  cleanupDirectory "Uploads directory does not exist" "uploaded".

Definition cleanupScannedDocuments : Z -> Directory -> Directory * CleanupService.CleanupResult :=
  cleanupDirectory "Scanned documents directory does not exist" "scanned".

(** What the sweeps work on. *)
Record Storage : Type := mkStorage {
  uploads : Directory;
  scanned : Directory;
  database : Database.Db
}.

Record Summary : Type := mkSummary {
  uploadedDocs : Z;
  scannedDocs : Z;
  printJobs : Z;
  message : string
}.

(** Each of the three sweeps reads the clock for itself: [t1], [t2] and
    [t3] are the three readings, in the order of the calls. *)
Definition runAllCleanup (t1 t2 t3 : Z) (st : Storage) : Storage * Summary :=
  let '(uploads', uploadResult) := cleanupUploadedDocuments t1 (uploads st) in
  let '(scanned', scannedResult) := cleanupScannedDocuments t2 (scanned st) in
  let '(db', jobsResult) := CleanupService.cleanupOldPrintJobs t3 (database st) in
  (mkStorage uploads' scanned' db',
   mkSummary (CleanupService.deleted uploadResult)
     (CleanupService.deleted scannedResult)
     (CleanupService.deleted jobsResult)
     ("Cleanup completed: " ++ decimal (CleanupService.deleted uploadResult)
        ++ " uploaded docs, " ++ decimal (CleanupService.deleted scannedResult)
        ++ " scanned docs, " ++ decimal (CleanupService.deleted jobsResult)
        ++ " print jobs removed")).

End CleanupFiles.

(** ** utils/scannerIntegration.js: the stored scans *)

Module ScannerIntegration.

Import Files.

(** [cleanupExpiredDocuments]: here [fs.statSync] stands outside the inner
    try, so the first entry that cannot be read ends the loop through the
    outer catch, which reports zero; only a failing unlink is skipped.
    Returns the entries that remain and the count, [None] when the outer
    catch was taken. *)
Fixpoint expire_loop (now : Z) (files : list File) (deletedCount : Z)
    : list File * option Z :=
  match files with
  | [] => ([], Some deletedCount)
  | f :: rest =>
      match mtimeMs f with
      | None => (files, None)
      | Some _ =>
          if expired now f then
            if locked f then
              let '(kept, r) := expire_loop now rest deletedCount in (f :: kept, r)
            else expire_loop now rest (deletedCount + 1)
          else
            let '(kept, r) := expire_loop now rest deletedCount in (f :: kept, r)
      end
  end.

(** [os_error] is the message of the error the file system raises on the
    directory ([None]) or on an entry. *)
Definition cleanupExpiredDocuments (os_error : option string -> string) (now : Z)
    (dir : Directory) : Directory * CleanupService.CleanupResult :=
  match dir with
  | None => (None, CleanupService.mkCleanup 0 ("Failed to cleanup: " ++ os_error None))
  | Some files =>
      match expire_loop now files 0 with
      | (kept, Some deletedCount) =>
          (Some kept,
           CleanupService.mkCleanup deletedCount
             ("Cleaned up " ++ decimal deletedCount ++ " expired document(s)"))
      | (kept, None) =>
          (Some kept,
           CleanupService.mkCleanup 0
             ("Failed to cleanup: "
                ++ os_error (option_map fileName (find (fun f => is_none (mtimeMs f)) files))))
      end
  end.

(** One entry of the list [getScannedDocuments] returns; [filePath] (the
    directory joined with [fileName]) and [size] are left out. *)
Record ScannedDoc : Type := mkDoc {
  doc_fileName : string;
  createdAt : Z;
  expiresAt : Z;
  isExpired : bool
}.

(** [files.map(...)]: one unreadable entry throws out of the whole map. *)
Fixpoint describe (now : Z) (files : list File) : option (list ScannedDoc) :=
  match files with
  | [] => Some []
  | f :: rest =>
      match mtimeMs f, describe now rest with
      | Some m, Some docs =>
          Some (mkDoc (fileName f) m (m + Clock.ONE_DAY_MS) (expired now f) :: docs)
      | _, _ => None
      end
  end.

(** Insertion into a list ordered by [createdAt], latest first.  The
    entry inserted precedes in the directory listing all those of the
    list, and goes before those of the same time (the sort is stable). *)
Fixpoint insert_doc (d : ScannedDoc) (l : list ScannedDoc) : list ScannedDoc :=
  match l with
  | [] => [d]
  | x :: t => if createdAt x <=? createdAt d then d :: l else x :: insert_doc d t
  end.

Definition sort_docs (l : list ScannedDoc) : list ScannedDoc :=
  fold_right insert_doc [] l.

(** [getScannedDocuments(userId)]: the user is not looked at. *)
Definition getScannedDocuments (now : Z) (dir : Directory) (userId : option Z)
    : list ScannedDoc :=
  match dir with
  | None => []
  | Some files =>
      match describe now files with
      | Some docs => sort_docs (filter (fun d => negb (isExpired d)) docs)
      | None => []
      end
  end.

End ScannerIntegration.

(** ** Further vocabulary *)

(** Settings in canonical form: every field a member of its enumeration,
    the quality as a number. *)
Definition canonical (s : Settings) : Prop :=
  (exists t, paperType s = VStr t /\ In t PrintSettings.paperTypes)
  /\ (exists q, printQuality s = VNum (Num q) /\ In q PrintSettings.printQualities)
  /\ (exists t, colorMode s = VStr t /\ In t PrintSettings.colorModes)
  /\ (exists t, paperSize s = VStr t /\ In t PrintSettings.paperSizes).

(** The option texts [formatPrinterOptions] can take from its own tables. *)
Definition known_options : list string :=
  ["-o media=A4"; "-o media=Letter"; "-o media=Legal";
   "-o ColorModel=RGB"; "-o ColorModel=Gray";
   "-o Resolution=600x600dpi"; "-o Resolution=1200x1200dpi";
   "-o MediaType=Plain"; "-o MediaType=Glossy"].

(** No row carries a key beyond the AUTOINCREMENT counter. *)
Definition ids_counted (db : Database.Db) : Prop :=
  forall r, In r (Database.jobs db) -> Database.id r <= Database.sequence db.

(** The same job: two rows that agree on everything but the status. *)
Definition same_job (a b : Database.PrintJobRow) : Prop :=
  Database.id a = Database.id b
  /\ Database.userId a = Database.userId b
  /\ Database.documentName a = Database.documentName b
  /\ Database.documentPath a = Database.documentPath b
  /\ Database.settings a = Database.settings b
  /\ Database.submittedAt a = Database.submittedAt b
  /\ Database.completedAt a = Database.completedAt b.

(** The database after a series of requests. *)
Definition run (isJobInQueue : option JobController.QueueCheck)
    (db : Database.Db) (requests : list JobController.Request) : Database.Db :=
  fold_left (JobController.serve isJobInQueue) requests db.

Definition no_dot (s : string) : bool :=
  all_chars (fun c => negb (c =? ".")%char) s.

(** Nothing of the printer name's character class follows: the end of the
    text, or a character outside [[\w\-]]. *)
Definition stops (tail : string) : bool :=
  match tail with
  | String c _ => negb (PrinterCommands.is_word_or_dash c)
  | EmptyString => true
  end.

Definition readable (f : Files.File) : Prop := Files.mtimeMs f <> None.

(** Latest modification first. *)
Definition newer_first (a b : ScannerIntegration.ScannedDoc) : Prop :=
  ScannerIntegration.createdAt b <= ScannerIntegration.createdAt a.

(** * Properties *)

(** ** The calendar and the order of timestamp texts *)

Section ClockFacts.

Import Clock.

(** Linear facts about quotients and remainders by constants. *)
Ltac quotients := Z.div_mod_to_equations; lia.

Example epoch : toISOString 0 = "1970-01-01T00:00:00.000Z".
Proof. reflexivity. Qed.

Example before_epoch : toISOString (-1) = "1969-12-31T23:59:59.999Z".
Proof. reflexivity. Qed.

Example leap_day_2000 : CURRENT_TIMESTAMP 951782400000 = "2000-02-29 00:00:00".
Proof. reflexivity. Qed.

Example leap_day_2024 : toISOString 1709251199999 = "2024-02-29T23:59:59.999Z".
Proof. reflexivity. Qed.

Example no_leap_day_2100 : CURRENT_TIMESTAMP 4107542400000 = "2100-03-01 00:00:00".
Proof. reflexivity. Qed.

Example first_supported : toISOString (-62167219200000) = "0000-01-01T00:00:00.000Z".
Proof. reflexivity. Qed.

Example last_supported : toISOString 253402300799999 = "9999-12-31T23:59:59.999Z".
Proof. reflexivity. Qed.

(** *** Within an era *)

Lemma year_of_era_range (doe : Z) :
  0 <= doe < 146097 ->
  0 <= year_of_era doe <= 399 /\ 0 <= day_of_year doe (year_of_era doe) <= 365.
Proof. intros H. unfold day_of_year, year_of_era. quotients. Qed.

Lemma year_of_era_mono (a b : Z) :
  0 <= a <= b -> b < 146097 -> year_of_era a <= year_of_era b.
Proof. intros. unfold year_of_era. quotients. Qed.

Lemma month_range (doy : Z) :
  0 <= doy <= 365 ->
  0 <= month_index doy <= 11 /\ 1 <= day_of_month doy (month_index doy) <= 31.
Proof. intros H. unfold day_of_month, month_index. quotients. Qed.

(** A later day of the year falls in a later month, or later in the month. *)
Lemma month_step (a b : Z) :
  0 <= a < b -> b <= 365 ->
  month_index a < month_index b
  \/ (month_index a = month_index b
      /\ day_of_month a (month_index a) < day_of_month b (month_index b)).
Proof. intros H1 H2. unfold day_of_month, month_index. quotients. Qed.

(** *** Civil dates *)

(** Month and day are in range on every day. *)
Lemma civil_range (z : Z) :
  let '(y, m, d) := civil_from_days z in 1 <= m <= 12 /\ 1 <= d <= 31.
Proof.
  unfold civil_from_days. cbv zeta.
  set (z' := z + 719468). set (era := z' / 146097). set (doe := z' - era * 146097).
  assert (Hdoe : 0 <= doe < 146097) by (subst doe era; quotients).
  destruct (year_of_era_range doe Hdoe) as [_ Hdoy].
  destruct (month_range _ Hdoy) as [Hmp Hd].
  set (mp := month_index _) in *.
  destruct (Z.ltb_spec mp 10); split; try lia; exact Hd.
Qed.

(** A later day has a later date. *)
Lemma civil_step (a b : Z) :
  a < b -> date_key (civil_from_days a) < date_key (civil_from_days b).
Proof.
  intros Hab. unfold civil_from_days. cbv zeta.
  set (a' := a + 719468). set (ea := a' / 146097). set (da := a' - ea * 146097).
  set (b' := b + 719468). set (eb := b' / 146097). set (db := b' - eb * 146097).
  assert (Hda : 0 <= da < 146097) by (subst da ea; quotients).
  assert (Hdb : 0 <= db < 146097) by (subst db eb; quotients).
  assert (Hlex : ea < eb \/ (ea = eb /\ da < db))
    by (subst da ea db eb a' b'; quotients).
  destruct (year_of_era_range da Hda) as [Hya Hoa].
  destruct (year_of_era_range db Hdb) as [Hyb Hob].
  destruct (month_range _ Hoa) as [Hma Hxa].
  destruct (month_range _ Hob) as [Hmb Hxb].
  set (ya := year_of_era da) in *. set (yb := year_of_era db) in *.
  set (oa := day_of_year da ya) in *. set (ob := day_of_year db yb) in *.
  assert (Hint : 12 * (ya + ea * 400) + month_index oa
                 < 12 * (yb + eb * 400) + month_index ob
                 \/ (ya + ea * 400 = yb + eb * 400
                     /\ month_index oa = month_index ob
                     /\ day_of_month oa (month_index oa)
                        < day_of_month ob (month_index ob))).
  { destruct Hlex as [He | [He Hd]]; [left; lia|].
    pose proof (year_of_era_mono da db ltac:(lia) ltac:(lia)) as Hmono.
    fold ya yb in Hmono.
    assert (Hy : ya < yb \/ ya = yb) by lia.
    destruct Hy as [Hy | Hy]; [left; lia|].
    assert (Hdoy : oa < ob) by (subst oa ob; rewrite Hy; unfold day_of_year; lia).
    destruct (month_step oa ob (conj (proj1 Hoa) Hdoy) (proj2 Hob))
      as [Hm | [Hm Hday]]; [left; lia | right; repeat split; lia]. }
  set (ma := month_index oa) in *. set (mb := month_index ob) in *.
  set (xa := day_of_month oa ma) in *. set (xb := day_of_month ob mb) in *.
  clearbody ya yb oa ob ma mb xa xb. unfold date_key.
  destruct (Z.ltb_spec ma 10), (Z.ltb_spec mb 10);
    repeat match goal with
           | |- context [?u <=? 2] => destruct (Z.leb_spec u 2)
           end; lia.
Qed.

Lemma civil_mono (a b : Z) :
  a <= b -> date_key (civil_from_days a) <= date_key (civil_from_days b).
Proof.
  intros H. destruct (Z.eq_dec a b) as [->|N]; [lia|].
  apply Z.lt_le_incl, civil_step. lia.
Qed.

(** From 0000-01-01 to 9999-12-31 the year has four digits. *)
Lemma civil_valid (z : Z) :
  -719528 <= z <= 2932896 -> valid_date (civil_from_days z).
Proof.
  intros [Hlo Hhi].
  pose proof (civil_mono _ _ Hlo) as Klo.
  pose proof (civil_mono _ _ Hhi) as Khi.
  pose proof (civil_range z) as Hr.
  change (date_key (civil_from_days (-719528))) with 101 in Klo.
  change (date_key (civil_from_days 2932896)) with 99991231 in Khi.
  destruct (civil_from_days z) as [[y m] d]. unfold valid_date, date_key in *. lia.
Qed.

Lemma supported_day (ms : Z) :
  supported ms -> -719528 <= ms / ONE_DAY_MS <= 2932896.
Proof. unfold supported, ONE_DAY_MS. intros H. quotients. Qed.

(** *** Texts of fixed width *)

Lemma length_append (s t : string) :
  String.length (s ++ t) = (String.length s + String.length t)%nat.
Proof. induction s as [|c s IH]; simpl; [reflexivity | now rewrite IH]. Qed.

Lemma pad_length (w : nat) (n : Z) : String.length (pad w n) = w.
Proof.
  revert n. induction w as [|k IH]; intros n; cbn [pad]; [reflexivity|].
  rewrite length_append, IH. cbn [String.length]. lia.
Qed.

(** Behind prefixes of equal length the comparison is decided by the
    prefixes, then by what follows them. *)
Lemma compare_append (p q x y : string) :
  String.length p = String.length q ->
  String.compare (p ++ x) (q ++ y)
  = match String.compare p q with
    | Eq => String.compare x y
    | c => c
    end.
Proof.
  revert q. induction p as [|a p IH]; intros [|b q] Hlen; try discriminate; simpl.
  - reflexivity.
  - injection Hlen as Hlen. rewrite (IH q Hlen).
    destruct (Ascii.compare a b); reflexivity.
Qed.

Lemma digit_compare (a b : Z) :
  0 <= a < 10 -> 0 <= b < 10 ->
  Ascii.compare (digit_char a) (digit_char b) = (a ?= b).
Proof.
  intros Ha Hb.
  assert (Ea : a = 0 \/ a = 1 \/ a = 2 \/ a = 3 \/ a = 4 \/ a = 5 \/ a = 6 \/ a = 7
               \/ a = 8 \/ a = 9) by lia.
  assert (Eb : b = 0 \/ b = 1 \/ b = 2 \/ b = 3 \/ b = 4 \/ b = 5 \/ b = 6 \/ b = 7
               \/ b = 8 \/ b = 9) by lia.
  repeat (destruct Ea as [-> | Ea]); try subst a;
    repeat (destruct Eb as [-> | Eb]); try subst b; reflexivity.
Qed.

Lemma compare_by_digits (a b : Z) :
  match a / 10 ?= b / 10 with
  | Eq => a mod 10 ?= b mod 10
  | c => c
  end = (a ?= b).
Proof.
  destruct (Z.compare_spec (a / 10) (b / 10));
    destruct (Z.compare_spec (a mod 10) (b mod 10));
    destruct (Z.compare_spec a b); try reflexivity; exfalso; quotients.
Qed.

(** Numbers padded to one width sort as texts the way they sort as
    numbers. *)
Lemma pad_compare (w : nat) (a b : Z) :
  0 <= a < 10 ^ Z.of_nat w -> 0 <= b < 10 ^ Z.of_nat w ->
  String.compare (pad w a) (pad w b) = (a ?= b).
Proof.
  revert a b. induction w as [|k IH]; intros a b Ha Hb.
  - change (10 ^ Z.of_nat 0) with 1 in *.
    assert (a = 0) by lia. assert (b = 0) by lia. subst. reflexivity.
  - rewrite Nat2Z.inj_succ, Z.pow_succ_r in Ha, Hb by lia.
    cbn [pad]. rewrite compare_append by now rewrite !pad_length.
    rewrite IH by quotients.
    cbn [String.compare]. rewrite digit_compare by quotients.
    rewrite <- (compare_by_digits a b).
    destruct (a / 10 ?= b / 10); try reflexivity.
    destruct (a mod 10 ?= b mod 10); reflexivity.
Qed.

Ltac two_digits := change (10 ^ Z.of_nat 2) with 100; quotients.

Lemma date_of_compare (c1 c2 : Z * Z * Z) :
  valid_date c1 -> valid_date c2 ->
  String.compare (date_of c1) (date_of c2) = (date_key c1 ?= date_key c2).
Proof.
  destruct c1 as [[y1 m1] d1], c2 as [[y2 m2] d2].
  unfold valid_date, date_key, date_of.
  intros (Hy1 & Hm1 & Hd1) (Hy2 & Hm2 & Hd2).
  rewrite compare_append by now rewrite !pad_length.
  rewrite (pad_compare 4) by (change (10 ^ Z.of_nat 4) with 10000; lia).
  change (("-" ++ pad 2 m1 ++ "-" ++ pad 2 d1)%string)
    with (String "-" (pad 2 m1 ++ String "-" (pad 2 d1))).
  change (("-" ++ pad 2 m2 ++ "-" ++ pad 2 d2)%string)
    with (String "-" (pad 2 m2 ++ String "-" (pad 2 d2))).
  cbn [String.compare]. change (Ascii.compare "-" "-") with Eq. cbv iota.
  rewrite compare_append by now rewrite !pad_length.
  rewrite (pad_compare 2) by two_digits.
  cbn [String.compare]. change (Ascii.compare "-" "-") with Eq. cbv iota.
  rewrite (pad_compare 2) by two_digits.
  destruct (Z.compare_spec y1 y2); destruct (Z.compare_spec m1 m2);
    destruct (Z.compare_spec d1 d2);
    destruct (Z.compare_spec (y1 * 10000 + m1 * 100 + d1)
                (y2 * 10000 + m2 * 100 + d2));
    try reflexivity; exfalso; lia.
Qed.

(** *** Timestamps *)

(** Date texts sort as the days they name. *)
Lemma date_text_compare (a b : Z) :
  supported a -> supported b ->
  String.compare (date_text a) (date_text b) = (a / ONE_DAY_MS ?= b / ONE_DAY_MS).
Proof.
  intros Ha Hb. unfold date_text.
  rewrite date_of_compare by now apply civil_valid, supported_day.
  destruct (Z.compare_spec (a / ONE_DAY_MS) (b / ONE_DAY_MS)) as [E|L|G].
  - rewrite E. apply Z.compare_refl.
  - apply Z.compare_lt_iff. now apply civil_step.
  - apply Z.compare_gt_iff. now apply civil_step.
Qed.

Lemma date_text_length (ms : Z) : String.length (date_text ms) = 10%nat.
Proof.
  unfold date_text. destruct (civil_from_days _) as [[y m] d]. unfold date_of.
  rewrite !length_append, !pad_length. reflexivity.
Qed.

Lemma time_text_compare (a b : Z) :
  String.compare (time_text a) (time_text b)
  = (a mod ONE_DAY_MS / 1000 ?= b mod ONE_DAY_MS / 1000).
Proof.
  unfold time_text. cbv zeta.
  set (s := a mod ONE_DAY_MS / 1000). set (t := b mod ONE_DAY_MS / 1000).
  assert (Hs : 0 <= s < 86400) by (subst s; unfold ONE_DAY_MS; quotients).
  assert (Ht : 0 <= t < 86400) by (subst t; unfold ONE_DAY_MS; quotients).
  clearbody s t.
  rewrite compare_append by now rewrite !pad_length.
  rewrite (pad_compare 2) by two_digits.
  change ((":" ++ pad 2 (s / 60 mod 60) ++ ":" ++ pad 2 (s mod 60))%string)
    with (String ":" (pad 2 (s / 60 mod 60) ++ String ":" (pad 2 (s mod 60)))).
  change ((":" ++ pad 2 (t / 60 mod 60) ++ ":" ++ pad 2 (t mod 60))%string)
    with (String ":" (pad 2 (t / 60 mod 60) ++ String ":" (pad 2 (t mod 60)))).
  cbn [String.compare]. change (Ascii.compare ":" ":") with Eq. cbv iota.
  rewrite compare_append by now rewrite !pad_length.
  rewrite (pad_compare 2) by two_digits.
  cbn [String.compare]. change (Ascii.compare ":" ":") with Eq. cbv iota.
  rewrite (pad_compare 2) by two_digits.
  destruct (Z.compare_spec (s / 3600) (t / 3600));
    destruct (Z.compare_spec (s / 60 mod 60) (t / 60 mod 60));
    destruct (Z.compare_spec (s mod 60) (t mod 60));
    destruct (Z.compare_spec s t);
    try reflexivity; exfalso; quotients.
Qed.

(** Stored timestamps sort as the seconds they denote. *)
Lemma CURRENT_TIMESTAMP_compare (a b : Z) :
  supported a -> supported b ->
  String.compare (CURRENT_TIMESTAMP a) (CURRENT_TIMESTAMP b) = (a / 1000 ?= b / 1000).
Proof.
  intros Ha Hb. unfold CURRENT_TIMESTAMP.
  rewrite compare_append by now rewrite !date_text_length.
  rewrite date_text_compare by assumption.
  change ((" " ++ time_text a)%string) with (String " " (time_text a)).
  change ((" " ++ time_text b)%string) with (String " " (time_text b)).
  cbn [String.compare]. change (Ascii.compare " " " ") with Eq. cbv iota.
  rewrite time_text_compare.
  unfold ONE_DAY_MS.
  destruct (Z.compare_spec (a / (24 * 60 * 60 * 1000)) (b / (24 * 60 * 60 * 1000)));
    destruct (Z.compare_spec (a mod (24 * 60 * 60 * 1000) / 1000)
                (b mod (24 * 60 * 60 * 1000) / 1000));
    destruct (Z.compare_spec (a / 1000) (b / 1000));
    try reflexivity; exfalso; quotients.
Qed.

End ClockFacts.

(** ** Settings: validation, defaults, normalisation *)

Section SettingsFacts.

Import PrintSettings.

Lemma check_field_nil (present ok : bool) (message : string) :
  check_field present ok message = [] -> present = false \/ ok = true.
Proof.
  unfold check_field.
  destruct present, ok; simpl; auto; discriminate.
Qed.

Lemma length_zero_app {A : Type} (l1 l2 : list A) :
  Nat.eqb (List.length (l1 ++ l2)) 0 = true -> l1 = [] /\ l2 = [].
Proof.
  destruct l1 as [|x l1]; simpl.
  - destruct l2; simpl; [auto | discriminate].
  - discriminate.
Qed.

(** What a valid verdict says about each field of an object. *)
Lemma valid_fields (s : Settings) :
  isValid (validateSettings (Obj s)) = true ->
  (is_undefined (paperType s) = true \/ includes_string paperTypes (paperType s) = true)
  /\ (is_undefined (printQuality s) = true
      \/ includes_number printQualities (parseInt (printQuality s)) = true)
  /\ (is_undefined (colorMode s) = true \/ includes_string colorModes (colorMode s) = true)
  /\ (is_undefined (paperSize s) = true \/ includes_string paperSizes (paperSize s) = true).
Proof.
  unfold validateSettings; simpl. unfold collect_errors.
  intros H.
  apply length_zero_app in H as [H1 H].
  apply app_eq_nil in H as [H2 H].
  apply app_eq_nil in H as [H3 H4].
  apply check_field_nil in H1, H2, H3, H4.
  repeat split.
  - destruct H1 as [H1|H1]; [left; now apply negb_false_iff | now right].
  - destruct H2 as [H2|H2]; [left; now apply negb_false_iff | now right].
  - destruct H3 as [H3|H3]; [left; now apply negb_false_iff | now right].
  - destruct H4 as [H4|H4]; [left; now apply negb_false_iff | now right].
Qed.

(** A string field that is absent or in its list is a fixed point of
    [String(x || default)] after one pass. *)
Lemma text_field_stable (options : list string) (v : value) (d : string) :
  forallb nonempty (d :: options) = true ->
  is_undefined v = true \/ includes_string options v = true ->
  let once := VStr (toString (or_else v (VStr d))) in
  VStr (toString (or_else once (VStr d))) = once.
Proof.
  simpl. intros Hne [Hu | Hin].
  - destruct v; try discriminate. unfold or_else; simpl.
    apply andb_true_iff in Hne as [Hd _]. unfold nonempty in Hd.
    now rewrite Hd.
  - destruct v as [| | b | n | t]; try discriminate. simpl in Hin.
    apply andb_true_iff in Hne as [_ Hopts].
    assert (Ht : nonempty t = true).
    { rewrite forallb_forall in Hopts. apply existsb_exists in Hin as [x [Hx Heq]].
      apply String.eqb_eq in Heq. subst x. now apply Hopts. }
    unfold nonempty in Ht. unfold or_else; simpl. rewrite Ht. simpl. now rewrite Ht.
Qed.

(** A value of [parseInt] in the list of qualities is 600 or 1200. *)
Lemma quality_cases (n : number) :
  includes_number printQualities n = true -> n = Num 600 \/ n = Num 1200.
Proof.
  destruct n as [|z]; simpl; [discriminate|].
  rewrite orb_false_r. intros H. apply orb_true_iff in H as [H|H];
    apply Z.eqb_eq in H; subst; auto.
Qed.

(** Only a truthy value parses to a listed quality. *)
Lemma listed_quality_truthy (v : value) :
  includes_number printQualities (parseInt v) = true -> truthy v = true.
Proof.
  destruct v as [| | [|] | [|z] | t]; simpl; try discriminate; auto.
  - destruct (Z.eqb_spec z 0) as [->|]; [discriminate | reflexivity].
  - destruct t; [discriminate | reflexivity].
Qed.

Lemma quality_field_stable (v : value) :
  is_undefined v = true \/ includes_number printQualities (parseInt v) = true ->
  let once := VNum (parseInt (or_else v (printQuality DEFAULT_SETTINGS))) in
  VNum (parseInt (or_else once (printQuality DEFAULT_SETTINGS))) = once.
Proof.
  simpl. intros [Hu | Hin].
  - destruct v; try discriminate. reflexivity.
  - assert (E : or_else v (VNum (Num 600)) = v).
    { unfold or_else. now rewrite (listed_quality_truthy v Hin). }
    rewrite E.
    destruct (quality_cases _ Hin) as [-> | ->]; reflexivity.
Qed.

(** C7: for every settings object that [validateSettings] accepts (each
    field absent or drawn from its enumeration, the quality in any
    encoding that parses to 600 or 1200), normalising the normalised
    settings gives the normalised settings again. *)
Theorem normalizeSettings_idempotent (s : Settings) :
  isValid (validateSettings (Obj s)) = true ->
  bind (normalizeSettings (Obj s)) (fun once => normalizeSettings (Obj once))
  = normalizeSettings (Obj s).
Proof.
  intros Hvalid.
  destruct (valid_fields s Hvalid) as (Hp & Hq & Hc & Hz).
  unfold normalizeSettings; simpl. f_equal.
  pose proof (text_field_stable paperTypes (paperType s) "Plain Paper" eq_refl Hp) as E1.
  pose proof (quality_field_stable (printQuality s) Hq) as E2.
  pose proof (text_field_stable colorModes (colorMode s) "Grayscale" eq_refl Hc) as E3.
  pose proof (text_field_stable paperSizes (paperSize s) "A4" eq_refl Hz) as E4.
  simpl in E1, E2, E3, E4.
  now rewrite E1, E2, E3, E4.
Qed.

(** A numeral-string quality and the three other fields from their lists. *)
Lemma normalizeSettings_idempotent_witness :
  let s := mkSettings (VStr "Glossy") (VStr "1200") (VStr "Color") (VStr "Legal") in
  isValid (validateSettings (Obj s)) = true
  /\ normalizeSettings (Obj s)
     = Ok (mkSettings (VStr "Glossy") (VNum (Num 1200)) (VStr "Color") (VStr "Legal"))
  /\ bind (normalizeSettings (Obj s)) (fun once => normalizeSettings (Obj once))
     = normalizeSettings (Obj s).
Proof.
  split; [reflexivity | split; [reflexivity |]].
  apply (normalizeSettings_idempotent
           (mkSettings (VStr "Glossy") (VStr "1200") (VStr "Color") (VStr "Legal"))).
  reflexivity.
Defined.

End SettingsFacts.

Section DefaultsFacts.

Import PrintSettings.

Lemma or_else_defined (v d : value) : defined d -> defined (or_else v d).
Proof.
  unfold or_else, defined. intros Hd.
  destruct (truthy v) eqn:E; [|assumption].
  intros ->. discriminate.
Qed.

Lemma or_else_truthy (v d : value) : truthy v = true -> or_else v d = v.
Proof. unfold or_else. now intros ->. Qed.

(** C8, as amended: on every settings object [applyDefaults] returns a
    record whose four fields are defined; a paper type, colour mode or
    paper size given with a truthy value (any value of its enumeration is
    one) comes out unchanged, and a quality that is present comes out as
    [parseInt] of it. *)
Theorem applyDefaults_defined_and_keeps_truthy (s : Settings) :
  exists r : Settings,
    applyDefaults (Obj s) = Ok r
    /\ all_defined r
    /\ (truthy (paperType s) = true -> paperType r = paperType s)
    /\ (defined (printQuality s) -> printQuality r = VNum (parseInt (printQuality s)))
    /\ (truthy (colorMode s) = true -> colorMode r = colorMode s)
    /\ (truthy (paperSize s) = true -> paperSize r = paperSize s).
Proof.
  eexists. split; [reflexivity|]. simpl.
  split; [|repeat split].
  - unfold all_defined; simpl. repeat split.
    + apply or_else_defined; discriminate.
    + destruct (is_undefined (printQuality s)); simpl; discriminate.
    + apply or_else_defined; discriminate.
    + apply or_else_defined; discriminate.
  - apply or_else_truthy.
  - intros Hq. destruct (printQuality s); simpl; try reflexivity. now elim Hq.
  - apply or_else_truthy.
  - apply or_else_truthy.
Qed.

(** A partial record: paper type and a numeral-string quality only. *)
Lemma applyDefaults_defined_and_keeps_truthy_witness :
  exists r : Settings,
    applyDefaults (Obj (mkSettings (VStr "Glossy") (VStr "1200") VUndefined VUndefined))
    = Ok r
    /\ all_defined r
    /\ paperType r = VStr "Glossy"
    /\ printQuality r = VNum (Num 1200).
Proof.
  destruct (applyDefaults_defined_and_keeps_truthy
              (mkSettings (VStr "Glossy") (VStr "1200") VUndefined VUndefined))
    as (r & Hr & Hd & Hp & Hq & _).
  exists r. repeat split; try assumption.
  - apply Hd.
  - apply Hd.
  - apply Hd.
  - apply Hd.
  - now apply Hp.
  - apply Hq. discriminate.
Defined.

(** C8, the claim as stated fails: a paper type present as the empty
    string is replaced by the default. *)
Lemma applyDefaults_replaces_empty_paperType :
  ~ applyDefaults_keeps_every_present_field.
Proof.
  intros H.
  destruct (H (mkSettings (VStr "") VUndefined VUndefined VUndefined)
              (mkSettings (VStr "Plain Paper") (VNum (Num 600))
                 (VStr "Grayscale") (VStr "A4"))
              eq_refl) as (_ & Hp & _).
  simpl in Hp. discriminate Hp. discriminate.
Qed.

(** Every falsy argument is refused with the one message. *)
Lemma validateSettings_falsy (a : arg) :
  truthy_arg a = false ->
  validateSettings a = mkValidation false ["Settings object is required"].
Proof. unfold validateSettings. now intros ->. Qed.

(** The printer module's validator refuses every primitive. *)
Lemma validatePrintSettings_primitive (v : value) :
  PrinterIntegration.validatePrintSettings (Prim v)
  = PrinterIntegration.mkValidation false ["Settings must be an object"].
Proof. reflexivity. Qed.

(** C9, the code at the failing inputs: [validateSettings] accepts the
    number 5, the string "abc" and [true], each with no error at all. *)
Theorem validateSettings_accepts_truthy_primitives :
  validateSettings (Prim (VNum (Num 5))) = mkValidation true []
  /\ validateSettings (Prim (VStr "abc")) = mkValidation true []
  /\ validateSettings (Prim (VBool true)) = mkValidation true [].
Proof. repeat split. Qed.

End DefaultsFacts.

(** ** The job table *)

Section StoreFacts.

Import Database.

Lemma string_compare_trans (a b c : string) :
  String.compare a b <> Gt -> String.compare b c <> Gt -> String.compare a c <> Gt.
Proof.
  revert b c. induction a as [|x a IH]; intros [|y b] [|z c]; simpl; try congruence.
  unfold Ascii.compare.
  destruct (N.compare_spec (N_of_ascii x) (N_of_ascii y));
    destruct (N.compare_spec (N_of_ascii y) (N_of_ascii z));
    destruct (N.compare_spec (N_of_ascii x) (N_of_ascii z));
    try congruence; try lia; try apply IH; intros; try congruence.
Qed.

Lemma string_leb_trans (a b c : string) :
  (a <=? b)%string = true -> (b <=? c)%string = true -> (a <=? c)%string = true.
Proof.
  unfold String.leb. intros H1 H2.
  pose proof (string_compare_trans a b c) as T.
  destruct (String.compare a b), (String.compare b c), (String.compare a c);
    try discriminate; auto; exfalso; apply T; congruence.
Qed.

Lemma insert_desc_perm (r : PrintJobRow) (l : list PrintJobRow) :
  Permutation (insert_desc r l) (r :: l).
Proof.
  induction l as [|x t IH]; simpl.
  - apply Permutation_refl.
  - destruct (submittedAt x <=? submittedAt r)%string.
    + apply Permutation_refl.
    + eapply perm_trans; [apply perm_skip, IH | apply perm_swap].
Qed.

Lemma order_by_perm (l : list PrintJobRow) :
  Permutation (order_by_submittedAt_desc l) l.
Proof.
  induction l as [|x t IH]; simpl.
  - apply perm_nil.
  - eapply perm_trans; [apply insert_desc_perm | now apply perm_skip].
Qed.

Lemma insert_desc_sorted (r : PrintJobRow) (l : list PrintJobRow) :
  StronglySorted newest_first l -> StronglySorted newest_first (insert_desc r l).
Proof.
  induction 1 as [|x t Hs IH Hx]; simpl.
  - repeat constructor.
  - destruct (submittedAt x <=? submittedAt r)%string eqn:E.
    + constructor; [now constructor|].
      constructor; [exact E|].
      rewrite Forall_forall in Hx |- *. intros y Hy.
      unfold newest_first in *. eapply string_leb_trans; [now apply Hx | exact E].
    + constructor; [exact IH|].
      rewrite Forall_forall in Hx |- *. intros y Hy.
      apply (Permutation_in _ (insert_desc_perm r t)) in Hy.
      destruct Hy as [<- | Hy]; [|now apply Hx].
      unfold newest_first.
      destruct (String.leb_total (submittedAt x) (submittedAt r)) as [C|C];
        [congruence | exact C].
Qed.

Lemma order_by_sorted (l : list PrintJobRow) :
  StronglySorted newest_first (order_by_submittedAt_desc l).
Proof.
  induction l as [|x t IH]; simpl.
  - constructor.
  - now apply insert_desc_sorted.
Qed.

(** C10: [getPrintJobs db A] is a rearrangement of exactly the rows whose
    userId is A, every row of the result stands before all rows submitted
    earlier, and each row of the result is owned by A, so none is owned
    by a different user B. *)
Theorem getPrintJobs_own_jobs_newest_first (db : Db) (A : Z) :
  Permutation (getPrintJobs db A) (filter (fun r => userId r =? A) (jobs db))
  /\ StronglySorted newest_first (getPrintJobs db A)
  /\ Forall (fun r => userId r = A) (getPrintJobs db A).
Proof.
  unfold getPrintJobs. split; [apply order_by_perm | split; [apply order_by_sorted|]].
  rewrite Forall_forall. intros r Hr.
  apply (Permutation_in _ (order_by_perm _)) in Hr.
  apply filter_In in Hr as [_ Hr]. now apply Z.eqb_eq.
Qed.

(** No row of another user: the reading of C10 for two users. *)
Lemma getPrintJobs_isolated (db : Db) (A B : Z) (r : PrintJobRow) :
  A <> B -> In r (getPrintJobs db A) -> userId r <> B.
Proof.
  intros Hneq Hr.
  unfold getPrintJobs in Hr.
  apply (Permutation_in _ (order_by_perm _)) in Hr.
  apply filter_In in Hr as [_ Hr]. apply Z.eqb_eq in Hr. congruence.
Qed.

(** For timestamps written by CURRENT_TIMESTAMP the order of the texts is
    the order of the seconds: latest first is newest first. *)
Lemma newest_first_chronological (r1 r2 : PrintJobRow) (a b : Z) :
  Clock.supported a -> Clock.supported b ->
  submittedAt r1 = Clock.CURRENT_TIMESTAMP a ->
  submittedAt r2 = Clock.CURRENT_TIMESTAMP b ->
  newest_first r1 r2 <-> b / 1000 <= a / 1000.
Proof.
  intros Ha Hb E1 E2. unfold newest_first. rewrite E1, E2.
  unfold String.leb. rewrite CURRENT_TIMESTAMP_compare by assumption.
  destruct (Z.compare_spec (b / 1000) (a / 1000)); split; intros; try lia;
    try reflexivity; discriminate.
Qed.

(** *** Lookup and update *)

Lemma max_id_bound (l : list PrintJobRow) (r : PrintJobRow) :
  In r l -> id r <= max_id l.
Proof.
  induction l as [|a l IH]; simpl; [tauto|].
  intros [-> | H]; [lia | specialize (IH H); lia].
Qed.

(** The key AUTOINCREMENT hands out is new. *)
Lemma next_id_fresh (db : Db) (r : PrintJobRow) :
  In r (jobs db) -> id r <> next_id db.
Proof.
  intros H. apply max_id_bound in H. unfold next_id. lia.
Qed.

Lemma find_fresh (l : list PrintJobRow) (x : PrintJobRow) :
  (forall r, In r l -> id r <> id x) ->
  find (fun r => id r =? id x) (l ++ [x]) = Some x.
Proof.
  induction l as [|a l IH]; simpl; intros H.
  - now rewrite Z.eqb_refl.
  - destruct (Z.eqb_spec (id a) (id x)) as [E|_].
    + exfalso. apply (H a); auto.
    + apply IH. intros r Hr. apply H. now right.
Qed.

Lemma update_where_fresh (k : Z) (f : PrintJobRow -> PrintJobRow)
    (l : list PrintJobRow) :
  (forall r, In r l -> id r <> k) -> update_where k f l = l.
Proof.
  induction l as [|a l IH]; simpl; intros H; [reflexivity|].
  destruct (Z.eqb_spec (id a) k) as [E|_].
  - exfalso. apply (H a); auto.
  - f_equal. apply IH. intros r Hr. apply H. now right.
Qed.

Lemma update_where_app (k : Z) (f : PrintJobRow -> PrintJobRow)
    (l1 l2 : list PrintJobRow) :
  update_where k f (l1 ++ l2) = (update_where k f l1 ++ update_where k f l2)%list.
Proof. unfold update_where. apply map_app. Qed.

Lemma find_some_id (l : list PrintJobRow) (k : Z) (r : PrintJobRow) :
  find (fun x => id x =? k) l = Some r -> In r l /\ id r = k.
Proof.
  intros H. apply find_some in H as [H1 H2]. split; [exact H1 | now apply Z.eqb_eq].
Qed.

End StoreFacts.

(** ** Creation and submission *)

Section SubmissionFacts.

Import Database.

Lemma find_update_where (k : Z) (f : PrintJobRow -> PrintJobRow)
    (l : list PrintJobRow) :
  (forall r, id (f r) = id r) ->
  find (fun r => id r =? k) (update_where k f l)
  = option_map f (find (fun r => id r =? k) l).
Proof.
  intros Hf. induction l as [|a l IH]; simpl; [reflexivity|].
  destruct (Z.eqb_spec (id a) k) as [E|N].
  - rewrite Hf. destruct (Z.eqb_spec (id a) k); [reflexivity | contradiction].
  - destruct (Z.eqb_spec (id a) k); [contradiction | exact IH].
Qed.

(** What a successful [createPrintJob] leaves: one new row, pending, under
    a new key. *)
Lemma createPrintJob_row (now : Z) (db db1 : Db) (jobData : JobData) (jobId : Z) :
  PrintJob.createPrintJob now db jobData = Ok (db1, jobId) ->
  exists row,
    db1 = mkDb (users db) (jobs db ++ [row]) (next_id db)
    /\ jobId = next_id db /\ id row = next_id db
    /\ status row = "pending" /\ completedAt row = None
    /\ jd_userId jobData = Some (userId row)
    /\ jd_documentName jobData = Some (documentName row)
    /\ jd_documentPath jobData = Some (documentPath row)
    /\ submittedAt row = Clock.CURRENT_TIMESTAMP now.
Proof.
  unfold PrintJob.createPrintJob.
  destruct (_ || _ || _); [discriminate|].
  unfold insertPrintJob; simpl.
  destruct (jd_userId jobData) as [u|]; [|discriminate].
  destruct (jd_documentName jobData) as [n|]; [|discriminate].
  destruct (jd_documentPath jobData) as [p|]; [|discriminate].
  destruct (existsb (Z.eqb u) (users db)); [|discriminate].
  simpl. intros H. injection H as <- <-.
  eexists. split; [reflexivity|]. simpl. repeat split.
Qed.

Lemma created_job_pending (now : Z) (db db1 : Db) (jobData : JobData) (jobId : Z) :
  PrintJob.createPrintJob now db jobData = Ok (db1, jobId) ->
  exists row, getPrintJob db1 (Num jobId) = Some row /\ status row = "pending".
Proof.
  intros H. apply createPrintJob_row in H as (row & -> & -> & Hid & Hst & _).
  exists row. split; [|exact Hst]. simpl. rewrite <- Hid.
  apply find_fresh. intros r Hr. rewrite Hid. now apply next_id_fresh.
Qed.

(** C6: for a job just created, when the settings pass the printer
    module's validation the call returns the device's result as it is; on a
    failure result the database is untouched and the job is still pending,
    on a success result the job is in progress. *)
Theorem submitJobToQueue_failure_keeps_pending
    (dev : PrinterIntegration.Device) (now : Z) (db db1 : Db)
    (jobData : JobData) (jobId : Z) (documentPath : string) (settings : arg) :
  PrintJob.createPrintJob now db jobData = Ok (db1, jobId) ->
  PrinterIntegration.valid (PrinterIntegration.validatePrintSettings settings) = true ->
  let result := PrinterIntegration.submitJobToPrinter dev documentPath settings in
  exists db2,
    PrintJob.submitJobToQueue dev db1 jobId documentPath settings = Ok (db2, result)
    /\ (PrinterIntegration.success result = false ->
        db2 = db1 /\ job_status db2 jobId = Some "pending")
    /\ (PrinterIntegration.success result = true ->
        job_status db2 jobId = Some "in-progress").
Proof.
  intros Hcreate Hvalid result.
  destruct (created_job_pending _ _ _ _ _ Hcreate) as (row & Hget & Hst).
  unfold PrintJob.submitJobToQueue. rewrite Hget, Hvalid. simpl.
  fold result. destruct (PrinterIntegration.success result) eqn:Hs.
  - eexists. split; [reflexivity|]. split; [discriminate|]. intros _.
    unfold job_status, updatePrintJobStatus; simpl.
    simpl in Hget. rewrite find_update_where by reflexivity.
    now rewrite Hget.
  - exists db1. split; [reflexivity|]. split; [|discriminate]. intros _.
    split; [reflexivity|]. unfold job_status. now rewrite Hget, <- Hst.
Qed.

(** A device that cannot be reached, and one that accepts the job. *)
Lemma submitJobToQueue_failure_keeps_pending_witness :
  let down := PrinterIntegration.mkDevice (fun _ => true)
                (fun _ _ => Throw "Printer communication timeout") in
  let jobData := mkJobData (Some 1) (Some "a.pdf") (Some "/uploads/a.pdf")
                   PrintSettings.getDefaults None in
  let db1 := mkDb [1; 2]
               [mkRow 1 1 "a.pdf" "/uploads/a.pdf" PrintSettings.getDefaults
                  "pending" "2026-11-01 23:59:30" None] 1 in
  exists db2,
    PrintJob.submitJobToQueue down db1 1 "/uploads/a.pdf"
      (Obj PrintSettings.getDefaults)
    = Ok (db2, PrinterIntegration.mkSubmitResult false None
                 "Failed to submit job to printer: Printer communication timeout")
    /\ db2 = db1 /\ job_status db2 1 = Some "pending".
Proof.
  intros down jobData db1.
  destruct (submitJobToQueue_failure_keeps_pending down Scenario.submit_time
              Scenario.empty_db db1 jobData 1 "/uploads/a.pdf"
              (Obj PrintSettings.getDefaults) eq_refl eq_refl)
    as (db2 & Hcall & Hfail & _).
  exists db2. split; [exact Hcall|]. apply Hfail. reflexivity.
Defined.

End SubmissionFacts.

(** ** The routes *)

Section RouteFacts.

Import Database.
Import JobController.

Lemma existsb_In_Z (u : Z) (l : list Z) : In u l -> existsb (Z.eqb u) l = true.
Proof.
  intros H. apply existsb_exists. exists u. split; [exact H | apply Z.eqb_refl].
Qed.



(** The module object has no property isJobInQueue. *)
Lemma isJobInQueue_undefined (implementation : QueueCheck) :
  PrinterIntegration.member "isJobInQueue" implementation = None.
Proof. reflexivity. Qed.

(** C4: for every job that exists and is owned by the caller, whatever an
    implementation of the queue check would answer,
    GET /api/job/:jobId/status answers 500 "Failed to update job status"
    and leaves the database as it was: the handler calls a property the
    printer integration module does not export. *)
Theorem updateJobStatus_always_fails
    (implementation : QueueCheck) (db : Db) (session : Session)
    (jobId : string) (job : PrintJobRow) :
  invalid_job_id jobId = false ->
  getPrintJob db (parseInt_string jobId) = Some job ->
  JobController.userId session = Some (Database.userId job) ->
  updateJobStatus implementation db session jobId
  = (JsonError 500 "Failed to update job status", db).
Proof.
  intros Hid Hjob Hown.
  unfold updateJobStatus, updateJobStatus_with.
  rewrite isJobInQueue_undefined, Hid, Hjob.
  unfold not_owner. rewrite Hown, Z.eqb_refl. reflexivity.
Qed.

Lemma updateJobStatus_always_fails_witness :
  updateJobStatus Scenario.queue_empty Scenario.db_in_progress Scenario.session "1"
  = (JsonError 500 "Failed to update job status", Scenario.db_in_progress).
Proof.
  apply (updateJobStatus_always_fails Scenario.queue_empty Scenario.db_in_progress
           Scenario.session "1"
           (mkRow 1 1 "a.pdf" "/uploads/a.pdf" PrintSettings.getDefaults
              "in-progress" "2026-11-01 23:59:30" None));
    reflexivity.
Defined.

(** C2, the code at the failing input: job 1 is in progress and its token
    has left the device queue.  The status route answers 500 and changes
    nothing, so the job stays in progress without a completion time.  Were
    the queue check reachable, the route would set the status through
    [updateJobStatus], which writes the status column alone: the job would
    be completed with completedAt still NULL. *)
Theorem updateJobStatus_never_stamps_completion :
  job_status Scenario.db_in_progress 1 = Some "in-progress"
  /\ updateJobStatus Scenario.queue_empty Scenario.db_in_progress
       Scenario.session "1"
     = (JsonError 500 "Failed to update job status", Scenario.db_in_progress)
  /\ job_completedAt Scenario.db_in_progress 1 = Some None
  /\ (let db' := snd (updateJobStatus_with (Some Scenario.queue_empty)
                        Scenario.db_in_progress Scenario.session "1") in
      job_status db' 1 = Some "completed" /\ job_completedAt db' 1 = Some None).
Proof. vm_compute. repeat split. Qed.

End RouteFacts.

(** ** The state machine *)

Section StateMachineFacts.

Import Database.
Import JobController.

Lemma same_id_same_row (l : list PrintJobRow) (a b : PrintJobRow) :
  NoDup (map id l) -> In a l -> In b l -> id a = id b -> a = b.
Proof.
  induction l as [|x l IH]; simpl; [tauto|].
  intros Hnd Ha Hb E. inversion Hnd as [|? ? Hx Hl]; subst.
  destruct Ha as [-> | Ha], Hb as [-> | Hb]; auto.
  - exfalso. apply Hx. rewrite E. now apply in_map.
  - exfalso. apply Hx. rewrite <- E. now apply in_map.
Qed.

Lemma update_where_ids (k : Z) (f : PrintJobRow -> PrintJobRow)
    (l : list PrintJobRow) :
  (forall r, id (f r) = id r) -> map id (update_where k f l) = map id l.
Proof.
  intros Hf. unfold update_where. rewrite map_map. apply map_ext.
  intros r. destruct (id r =? k); [apply Hf | reflexivity].
Qed.

Lemma NoDup_map_filter (p : PrintJobRow -> bool) (l : list PrintJobRow) :
  NoDup (map id l) -> NoDup (map id (filter p l)).
Proof.
  induction l as [|x l IH]; simpl; [auto|].
  intros Hnd. inversion Hnd as [|? ? Hx Hl]; subst.
  destruct (p x); simpl; [|now apply IH].
  constructor; [|now apply IH].
  intros Hin. apply Hx. apply in_map_iff in Hin as (y & Ey & Hy).
  apply filter_In in Hy as [Hy _]. rewrite <- Ey. now apply in_map.
Qed.

Lemma NoDup_map_snoc (l : list PrintJobRow) (x : PrintJobRow) :
  NoDup (map id l) -> (forall r, In r l -> id r <> id x) ->
  NoDup (map id (l ++ [x])).
Proof.
  intros Hnd Hfresh. rewrite map_app. simpl.
  apply NoDup_app.
  - exact Hnd.
  - repeat constructor. simpl. tauto.
  - intros k Hk [<- | []]. apply in_map_iff in Hk as (y & Ey & Hy).
    now apply (Hfresh y).
Qed.

(** The job table after POST /submit-job: unchanged, or one row more,
    pending or in progress, under a new key. *)
Lemma postSubmitJob_table (dev : PrinterIntegration.Device) (now : Z) (db : Db)
    (session : Session) :
  let db' := snd (fst (postSubmitJob dev now db session)) in
  db' = db
  \/ exists row,
       jobs db' = (jobs db ++ [row])%list
       /\ (forall r, In r (jobs db) -> id r <> id row)
       /\ (status row = "pending" \/ status row = "in-progress").
Proof.
  unfold postSubmitJob.
  destruct (uploadedFile session) as [file|]; [|now left].
  destruct (PrintJob.falsy_id _); [now left|].
  destruct (PrintJob.createPrintJob _ _ _) as [[db1 jobId]|m] eqn:Hc; [|now left].
  pose proof (created_job_pending _ _ _ _ _ Hc) as (row0 & Hget & _).
  apply createPrintJob_row in Hc as (row & -> & -> & Hid & Hst & _).
  assert (Hfresh : forall r, In r (jobs db) -> id r <> id row)
    by (intros r Hr; rewrite Hid; now apply next_id_fresh).
  right. unfold PrintJob.submitJobToQueue. rewrite Hget.
  destruct (negb _); simpl.
  - exists row. auto.
  - destruct (PrinterIntegration.success _); simpl.
    + exists (set_status "in-progress" row). repeat split; auto.
      rewrite update_where_app, update_where_fresh; simpl.
      * now rewrite Hid, Z.eqb_refl.
      * intros r Hr. now apply next_id_fresh.
    + exists row. auto.
Qed.

(** The job table after the status route: unchanged, or the caller's job,
    found in progress, set to completed. *)
Lemma updateJobStatus_table (q : option QueueCheck) (db : Db) (session : Session)
    (jobId : string) :
  let db' := snd (updateJobStatus_with q db session jobId) in
  db' = db
  \/ exists job,
       In job (jobs db) /\ status job = "in-progress"
       /\ jobs db' = update_where (id job) (set_status "completed") (jobs db).
Proof.
  unfold updateJobStatus_with.
  destruct (invalid_job_id jobId); [now left|].
  destruct (getPrintJob db (parseInt_string jobId)) as [job|] eqn:Hget; [|now left].
  destruct (not_owner job session); [now left|].
  destruct q as [f|]; [|now left].
  destruct (f (id job)) as [sc|]; [|now left].
  destruct (negb (truthy (inQueue sc))); simpl; [|now left].
  destruct (String.eqb_spec (status job) "in-progress") as [E|]; [|now left].
  right. exists job. repeat split; auto.
  unfold getPrintJob in Hget. destruct (parseInt_string jobId); [discriminate|].
  now apply find_some_id in Hget as [H _].
Qed.

Lemma terminal_final (before after : string) :
  terminal before = true -> follows_order before after -> after = before.
Proof.
  intros Ht [E | [[-> _] | [-> _]]]; [exact E | discriminate | discriminate].
Qed.

(** Every request moves each stored job along the state machine, adds only
    pending or in-progress jobs, and keeps the keys distinct. *)
Lemma serve_moves (q : option QueueCheck) (db : Db) (request : Request) :
  unique_ids db ->
  unique_ids (serve q db request)
  /\ forall j', In j' (jobs (serve q db request)) ->
       (exists j, In j (jobs db) /\ id j = id j'
                  /\ follows_order (status j) (status j'))
       \/ ((forall j, In j (jobs db) -> id j <> id j')
           /\ (status j' = "pending" \/ status j' = "in-progress")).
Proof.
  intros Hu. destruct request as [dev now session | session jobId | | | now]; simpl.
  - destruct (postSubmitJob_table dev now db session) as [-> | (row & E & Hfresh & Hst)].
    + split; [exact Hu|]. intros j' Hj'. left. exists j'. repeat split; auto. now left.
    + unfold unique_ids. rewrite E. split; [now apply NoDup_map_snoc|].
      intros j' Hj'. apply in_app_or in Hj' as [Hj' | [<- | []]].
      * left. exists j'. repeat split; auto. now left.
      * right. split; assumption.
  - destruct (updateJobStatus_table q db session jobId) as [-> | (job & Hin & Hst & E)].
    + split; [exact Hu|]. intros j' Hj'. left. exists j'. repeat split; auto. now left.
    + unfold unique_ids. rewrite E. split.
      * rewrite update_where_ids by reflexivity. exact Hu.
      * intros j' Hj'. left. unfold update_where in Hj'.
        apply in_map_iff in Hj' as (r & Er & Hr).
        exists r. split; [exact Hr|].
        destruct (Z.eqb_spec (id r) (id job)) as [Eid|_]; subst j'.
        -- split; [reflexivity|]. simpl.
           rewrite (same_id_same_row _ _ _ Hu Hr Hin Eid), Hst.
           right. right. now split.
        -- split; [reflexivity | now left].
  - split; [exact Hu|]. intros j' Hj'. left. exists j'. repeat split; auto. now left.
  - split; [exact Hu|]. intros j' Hj'. left. exists j'. repeat split; auto. now left.
  - split; [now apply NoDup_map_filter|].
    intros j' Hj'. apply filter_In in Hj' as [Hj' _].
    left. exists j'. repeat split; auto. now left.
Qed.

(** C3, as amended: through the routes of the application (submission,
    status reconciliation whatever the queue check answers, job details,
    dashboard) and the retention sweep, a stored job whose status is
    completed or failed keeps that status for as long as its row exists,
    every change of a stored job's status is pending to in-progress or
    in-progress to completed, and a new row starts pending or in progress. *)
Theorem serve_respects_state_machine
    (q : option QueueCheck) (db : Db) (request : Request) :
  unique_ids db ->
  (forall j j', In j (jobs db) -> In j' (jobs (serve q db request)) ->
     id j' = id j -> follows_order (status j) (status j'))
  /\ (forall j j', In j (jobs db) -> In j' (jobs (serve q db request)) ->
        id j' = id j -> terminal (status j) = true -> status j' = status j)
  /\ (forall j', In j' (jobs (serve q db request)) ->
        (forall j, In j (jobs db) -> id j <> id j') ->
        status j' = "pending" \/ status j' = "in-progress").
Proof.
  intros Hu. destruct (serve_moves q db request Hu) as [_ Hmove].
  assert (Horder : forall j j', In j (jobs db) -> In j' (jobs (serve q db request)) ->
                     id j' = id j -> follows_order (status j) (status j')).
  { intros j j' Hj Hj' E.
    destruct (Hmove j' Hj') as [(j0 & Hj0 & E0 & Hf) | [Hfresh _]].
    - assert (j0 = j) by (apply (same_id_same_row _ _ _ Hu Hj0 Hj); congruence).
      now subst j0.
    - exfalso. apply (Hfresh j Hj). congruence. }
  split; [exact Horder | split].
  - intros j j' Hj Hj' E Ht. apply (terminal_final _ _ Ht). now apply Horder.
  - intros j' Hj' Hfresh.
    destruct (Hmove j' Hj') as [(j0 & Hj0 & E0 & _) | [_ Hst]]; [|exact Hst].
    exfalso. now apply (Hfresh j0 Hj0).
Qed.

(** The keys stay distinct, so the hypothesis above holds at every step of
    a run that starts from an empty table. *)
Lemma serve_unique_ids (q : option QueueCheck) (db : Db) (request : Request) :
  unique_ids db -> unique_ids (serve q db request).
Proof. intros Hu. now apply serve_moves. Qed.

(** A completed job under reconciliation with the token gone. *)
Lemma serve_respects_state_machine_witness :
  unique_ids Scenario.db_completed
  /\ job_status (serve (Some Scenario.queue_empty) Scenario.db_completed
                   (GET_job_status Scenario.session "1")) 1
     = Some "completed".
Proof.
  assert (Hu : unique_ids Scenario.db_completed).
  { unfold unique_ids. vm_compute. repeat constructor. simpl. tauto. }
  split; [exact Hu|].
  destruct (serve_respects_state_machine (Some Scenario.queue_empty)
              Scenario.db_completed (GET_job_status Scenario.session "1") Hu)
    as (_ & Hfinal & _).
  unfold job_status, getPrintJob.
  destruct (find _ _) as [j'|] eqn:E.
  - apply find_some_id in E as [Hj' Hid]. simpl. f_equal.
    apply (Hfinal (mkRow 1 1 "a.pdf" "/uploads/a.pdf" PrintSettings.getDefaults
                     "completed" "2026-11-01 23:59:30" (Some "2026-11-01 23:59:30"))
             j').
    + vm_compute. now left.
    + exact Hj'.
    + exact Hid.
    + reflexivity.
  - vm_compute in E. discriminate E.
Defined.

(** C3, the claim as stated fails: the model's [updateJobStatus] puts the
    completed job 1 back to pending. *)
Lemma updateJobStatus_leaves_terminal_status :
  ~ terminal_status_is_final.
Proof.
  intros H.
  specialize (H Scenario.db_completed 1 "completed" "pending"
                (fst (updatePrintJobStatus Scenario.db_completed 1 "pending"))
                (snd (updatePrintJobStatus Scenario.db_completed 1 "pending"))
                eq_refl eq_refl eq_refl).
  vm_compute in H. discriminate H.
Qed.

End StateMachineFacts.

(** ** The retention sweep *)

Section SweepFacts.

Import Database.
Import CleanupService.

(** Two date parts of equal length decide the comparison of a stored
    timestamp with an ISO text before the clock parts are reached: there
    the space of the stored text sorts before the T of the ISO text. *)
Lemma text_order_stops_at_date (p q x y : string) :
  String.length p = String.length q ->
  (p ++ String " " x <? q ++ String "T" y)%string = (p <=? q)%string.
Proof.
  revert q. induction p as [|a p IH]; intros [|b q] Hlen; try discriminate.
  - reflexivity.
  - injection Hlen as Hlen. specialize (IH q Hlen).
    unfold String.ltb, String.leb in *. simpl.
    destruct (Ascii.compare a b); auto.
Qed.

(** The sweep's test on a job submitted at clock [a]: it compares the UTC
    days only, and takes the job when its day is not after the day of the
    bound. *)
Lemma sweep_test_compares_days (a bound : Z) :
  Clock.supported a -> Clock.supported bound ->
  (Clock.CURRENT_TIMESTAMP a <? Clock.toISOString bound)%string
  = (a / Clock.ONE_DAY_MS <=? bound / Clock.ONE_DAY_MS).
Proof.
  intros Ha Hb.
  etransitivity.
  - apply (text_order_stops_at_date (Clock.date_text a) (Clock.date_text bound)
             (Clock.time_text a)
             (Clock.time_text bound ++ "." ++ Clock.pad 3 (bound mod 1000) ++ "Z")).
    now rewrite !date_text_length.
  - unfold String.leb, Z.leb. now rewrite date_text_compare.
Qed.

(** The part of the retention rule the code meets: a job submitted more
    than 24 hours before the sweep is deleted. *)
Lemma sweep_deletes_older_than_a_day (now a : Z) (db : Db) (r : PrintJobRow) :
  Clock.supported a -> Clock.supported (now - Clock.ONE_DAY_MS) ->
  submittedAt r = Clock.CURRENT_TIMESTAMP a ->
  a < now - Clock.ONE_DAY_MS ->
  ~ In r (jobs (fst (cleanupOldPrintJobs now db))).
Proof.
  intros Ha Hb Hr Hold Hin.
  unfold cleanupOldPrintJobs in Hin; simpl in Hin.
  apply filter_In in Hin as [_ Hkeep]. apply negb_true_iff in Hkeep.
  rewrite Hr, sweep_test_compares_days in Hkeep by assumption.
  apply Z.leb_gt in Hkeep. unfold Clock.ONE_DAY_MS in *.
  Z.div_mod_to_equations; lia.
Qed.

(** What it does beyond the rule: every job of the bound's own UTC day is
    deleted too, however late in that day it was submitted. *)
Lemma sweep_deletes_the_bound_day (now a : Z) (db : Db) (r : PrintJobRow) :
  Clock.supported a -> Clock.supported (now - Clock.ONE_DAY_MS) ->
  submittedAt r = Clock.CURRENT_TIMESTAMP a ->
  a / Clock.ONE_DAY_MS = (now - Clock.ONE_DAY_MS) / Clock.ONE_DAY_MS ->
  ~ In r (jobs (fst (cleanupOldPrintJobs now db))).
Proof.
  intros Ha Hb Hr Hday Hin.
  unfold cleanupOldPrintJobs in Hin; simpl in Hin.
  apply filter_In in Hin as [_ Hkeep]. apply negb_true_iff in Hkeep.
  rewrite Hr, sweep_test_compares_days in Hkeep by assumption.
  apply Z.leb_gt in Hkeep. lia.
Qed.

(** A job of a later UTC day is kept. *)
Lemma sweep_keeps_later_days (now a : Z) (db : Db) (r : PrintJobRow) :
  Clock.supported a -> Clock.supported (now - Clock.ONE_DAY_MS) ->
  submittedAt r = Clock.CURRENT_TIMESTAMP a ->
  (now - Clock.ONE_DAY_MS) / Clock.ONE_DAY_MS < a / Clock.ONE_DAY_MS ->
  In r (jobs db) -> In r (jobs (fst (cleanupOldPrintJobs now db))).
Proof.
  intros Ha Hb Hr Hday Hin.
  unfold cleanupOldPrintJobs; simpl.
  apply filter_In. split; [exact Hin|]. apply negb_true_iff.
  rewrite Hr, sweep_test_compares_days by assumption.
  apply Z.leb_gt. exact Hday.
Qed.

(** In the first minute after UTC midnight the bound lies in the day that
    has just ended, and the job submitted one minute before the sweep is
    deleted. *)
Lemma sweep_deletes_one_minute_old_after_midnight
    (now : Z) (db : Db) (r : PrintJobRow) :
  Clock.supported (now - 60 * 1000) ->
  Clock.supported (now - Clock.ONE_DAY_MS) ->
  submittedAt r = Clock.CURRENT_TIMESTAMP (now - 60 * 1000) ->
  now mod Clock.ONE_DAY_MS < 60 * 1000 ->
  ~ In r (jobs (fst (cleanupOldPrintJobs now db))).
Proof.
  intros Ha Hb Hr Hmid.
  apply (sweep_deletes_the_bound_day now (now - 60 * 1000)); try assumption.
  unfold Clock.ONE_DAY_MS in *. Z.div_mod_to_equations; lia.
Qed.

(** C5, the code at the failing input: the sweep runs at
    2026-11-02T00:00:30Z and the job was submitted one minute earlier, at
    2026-11-01 23:59:30.  The bound is the text 2026-11-01T00:00:30.000Z;
    the stored text is smaller at its eleventh character, so the job is
    deleted, whatever its status. *)
Theorem cleanupOldPrintJobs_deletes_job_one_minute_old (st : string) :
  let job := mkRow 1 1 "a.pdf" "/uploads/a.pdf" PrintSettings.getDefaults st
               (Clock.CURRENT_TIMESTAMP Scenario.submit_time) None in
  Scenario.sweep_time - Scenario.submit_time = 60 * 1000
  /\ submittedAt job = "2026-11-01 23:59:30"
  /\ Clock.toISOString (Scenario.sweep_time - Clock.ONE_DAY_MS)
     = "2026-11-01T00:00:30.000Z"
  /\ cleanupOldPrintJobs Scenario.sweep_time (mkDb [1; 2] [job] 1)
     = (mkDb [1; 2] [] 1,
        mkCleanup 1 "Cleaned up 1 old print job(s) from database")
  /\ jobs (fst (cleanupOldPrintJobs Scenario.sweep_time Scenario.db_in_progress)) = [].
Proof. repeat split. Qed.

End SweepFacts.


(** * Further properties of the code *)

(** Splits a canonical settings record into its twenty-four shapes. *)
Ltac canonical_cases H :=
  match type of H with
  | canonical ?s =>
      destruct s as [p q c z];
      destruct H as ((tp & Ep & Hp) & (tq & Eq & Hq) & (tc & Ec & Hc) & (tz & Ez & Hz));
      simpl in Ep, Eq, Ec, Ez; subst p q c z;
      simpl in Hp, Hq, Hc, Hz;
      repeat match goal with
             | H : _ \/ _ |- _ => destruct H as [H|H]
             | H : False |- _ => contradiction
             end;
      subst
  end.

(** ** Uploaded file names *)

Section FileFacts.

Import FileValidator.

Lemma from_last_dot_none (s : string) :
  from_last_dot s = None <-> no_dot s = true.
Proof.
  induction s as [|c s IH]; [simpl; tauto|].
  change (no_dot (String c s)) with (negb (c =? ".")%char && no_dot s).
  simpl. destruct (from_last_dot s) as [e|].
  - split; [discriminate|]. intros H. apply andb_true_iff in H as [_ H].
    apply IH in H. discriminate H.
  - destruct (Ascii.eqb_spec c "."); simpl.
    + split; discriminate.
    + split; intros _; [now apply IH | reflexivity].
Qed.

Lemma from_last_dot_some (s e : string) :
  from_last_dot s = Some e ->
  exists base r, s = base ++ String "." r /\ e = String "." r /\ no_dot r = true.
Proof.
  revert e. induction s as [|c s IH]; simpl; intros e H; [discriminate|].
  destruct (from_last_dot s) as [e'|] eqn:E.
  - injection H as <-. destruct (IH e' eq_refl) as (base & r & -> & -> & Hr).
    exists (String c base), r. auto.
  - destruct (Ascii.eqb_spec c "."); [|discriminate]. injection H as <-. subst c.
    exists "", s. repeat split. now apply from_last_dot_none.
Qed.

Lemma getFileExtension_of_suffix (base e : string) :
  no_dot e = true ->
  getFileExtension (base ++ String "." e) = String "." e.
Proof.
  intros He. unfold getFileExtension.
  induction base as [|c base IH]; simpl.
  - apply from_last_dot_none in He. now rewrite He.
  - destruct (from_last_dot (base ++ String "." e)) as [x|]; [exact IH|].
    discriminate IH.
Qed.

(** X1: the extension of a file name is empty when the name has no dot,
    and otherwise the text from its last dot on: a dot followed by
    characters none of which is a dot. *)
Theorem getFileExtension_from_last_dot (filename : string) :
  (no_dot filename = true /\ getFileExtension filename = "")
  \/ (exists base r,
        filename = base ++ String "." r
        /\ no_dot r = true
        /\ getFileExtension filename = String "." r).
Proof.
  unfold getFileExtension.
  destruct (from_last_dot filename) as [e|] eqn:E.
  - right. destruct (from_last_dot_some _ _ E) as (base & r & Hf & He & Hr).
    exists base, r. auto.
  - left. split; [now apply from_last_dot_none | reflexivity].
Qed.

(** X2: a file is accepted exactly when its MIME type is one of the six
    supported ones and the extension after the last dot of its name,
    letter case aside, is one listed for that very type. *)
Theorem validateFileFormat_accepts_exactly (filename mimetype : string) :
  validateFileFormat filename mimetype = true <->
  In (mimetype, toLowerCase (getFileExtension filename))
     [("application/pdf", ".pdf"); ("image/jpeg", ".jpg"); ("image/jpeg", ".jpeg");
      ("image/png", ".png"); ("image/gif", ".gif"); ("image/bmp", ".bmp");
      ("image/tiff", ".tiff"); ("image/tiff", ".tif")].
Proof.
  unfold validateFileFormat.
  generalize (toLowerCase (getFileExtension filename)). intros e.
  split.
  - unfold getSupportedMimeTypes. cbn [map fst SUPPORTED_FORMATS existsb].
    repeat match goal with
           | |- context [(mimetype =? ?m)%string] =>
               destruct (String.eqb_spec mimetype m) as [->|]
           end;
      cbn; try discriminate;
      rewrite ?orb_false_r; intros H;
      repeat match goal with
             | H : (_ || _) = true |- _ => apply orb_true_iff in H as [H|H]
             end;
      apply String.eqb_eq in H; subst e; simpl; tauto.
  - intros H. simpl in H.
    repeat match goal with
           | H : _ \/ _ |- _ => destruct H as [H|H]
           end; try contradiction; injection H as <- <-; reflexivity.
Qed.

Lemma validateFileFormat_extension_listed (filename mimetype : string) :
  validateFileFormat filename mimetype = true ->
  In (toLowerCase (getFileExtension filename)) getSupportedExtensions.
Proof.
  unfold validateFileFormat.
  generalize (toLowerCase (getFileExtension filename)). intros e.
  unfold getSupportedMimeTypes. cbn [map fst SUPPORTED_FORMATS existsb].
  repeat match goal with
         | |- context [(mimetype =? ?m)%string] =>
             destruct (String.eqb_spec mimetype m) as [->|]
         end;
    cbn; try discriminate;
    rewrite ?orb_false_r; intros H;
    repeat match goal with
           | H : (_ || _) = true |- _ => apply orb_true_iff in H as [H|H]
           end;
    apply String.eqb_eq in H; subst e; simpl; tauto.
Qed.

(** X3: only the last extension counts: a name that ends in a dot and an
    extension outside the supported list is refused under every MIME
    type, whatever stands before that dot. *)
Theorem validateFileFormat_refuses_foreign_suffix (base e mimetype : string) :
  no_dot e = true ->
  ~ In (toLowerCase (String "." e)) getSupportedExtensions ->
  validateFileFormat (base ++ String "." e) mimetype = false.
Proof.
  intros He Hout.
  destruct (validateFileFormat (base ++ String "." e) mimetype) eqn:V; [|reflexivity].
  exfalso. apply Hout.
  apply validateFileFormat_extension_listed in V.
  now rewrite getFileExtension_of_suffix in V.
Qed.

(** The double extension report.pdf.exe, declared as a PDF. *)
Lemma validateFileFormat_refuses_foreign_suffix_witness :
  validateFileFormat "report.pdf.exe" "application/pdf" = false.
Proof.
  apply (validateFileFormat_refuses_foreign_suffix "report.pdf" "exe" "application/pdf").
  - reflexivity.
  - simpl. intros H.
    repeat match goal with
           | H : _ \/ _ |- _ => destruct H as [H|H]
           end; try contradiction; discriminate H.
Defined.

End FileFacts.

(** ** Settings across the modules *)

Section SettingsAcross.

Import PrintSettings.

Lemma text_field_canonical (options : list string) (v : value) (d : string) :
  In d options -> forallb nonempty options = true ->
  is_undefined v = true \/ includes_string options v = true ->
  exists t, or_else v (VStr d) = VStr t /\ In t options.
Proof.
  intros Hd Hne [Hu | Hin].
  - destruct v; try discriminate. exists d. split; [|exact Hd].
    unfold or_else. simpl. reflexivity.
  - destruct v as [| | b | n | t]; try discriminate. simpl in Hin.
    apply existsb_exists in Hin as (x & Hx & E). apply String.eqb_eq in E. subst x.
    exists t. split; [|exact Hx].
    rewrite forallb_forall in Hne. specialize (Hne t Hx). unfold nonempty in Hne.
    unfold or_else. simpl. now rewrite Hne.
Qed.

Lemma quality_field_canonical (v : value) :
  is_undefined v = true \/ includes_number printQualities (parseInt v) = true ->
  exists q, parseInt (or_else v (VNum (Num 600))) = Num q /\ In q printQualities.
Proof.
  intros [Hu | Hin].
  - destruct v; try discriminate. exists 600. split; [reflexivity | simpl; auto].
  - rewrite (or_else_truthy _ _ (listed_quality_truthy v Hin)).
    destruct (quality_cases _ Hin) as [E | E]; rewrite E;
      [exists 600 | exists 1200]; simpl; auto.
Qed.

Lemma normalized_is_canonical (s : Settings) :
  isValid (validateSettings (Obj s)) = true ->
  exists n, normalizeSettings (Obj s) = Ok n /\ canonical n.
Proof.
  intros Hvalid. destruct (valid_fields s Hvalid) as (Hp & Hq & Hc & Hz).
  eexists. split; [reflexivity|]. unfold canonical; simpl.
  destruct (text_field_canonical paperTypes (paperType s) "Plain Paper") as (tp & Ep & Ip);
    [simpl; auto | reflexivity | exact Hp |].
  destruct (quality_field_canonical (printQuality s) Hq) as (q & Eq & Iq).
  destruct (text_field_canonical colorModes (colorMode s) "Grayscale") as (tc & Ec & Ic);
    [simpl; auto | reflexivity | exact Hc |].
  destruct (text_field_canonical paperSizes (paperSize s) "A4") as (tz & Ez & Iz);
    [simpl; auto | reflexivity | exact Hz |].
  rewrite Ep, Eq, Ec, Ez. simpl.
  split; [exists tp; auto | split; [exists q; auto | split; [exists tc; auto | exists tz; auto]]].
Qed.

Lemma defaults_agree_with_normal_form (s : Settings) :
  isValid (validateSettings (Obj s)) = true ->
  applyDefaults (Obj s) = normalizeSettings (Obj s).
Proof.
  intros Hvalid. destruct (valid_fields s Hvalid) as (Hp & Hq & Hc & Hz).
  unfold applyDefaults, normalizeSettings; simpl. f_equal.
  destruct (text_field_canonical paperTypes (paperType s) "Plain Paper") as (tp & Ep & _);
    [simpl; auto | reflexivity | exact Hp |].
  destruct (text_field_canonical colorModes (colorMode s) "Grayscale") as (tc & Ec & _);
    [simpl; auto | reflexivity | exact Hc |].
  destruct (text_field_canonical paperSizes (paperSize s) "A4") as (tz & Ez & _);
    [simpl; auto | reflexivity | exact Hz |].
  rewrite Ep, Ec, Ez. simpl. f_equal.
  destruct Hq as [Hu | Hin].
  - destruct (printQuality s); try discriminate. reflexivity.
  - rewrite (or_else_truthy _ _ (listed_quality_truthy _ Hin)).
    destruct (printQuality s); try reflexivity. discriminate Hin.
Qed.

(** X4: whatever [validateSettings] accepts is resolved to one canonical
    record (four fields, each a member of its enumeration, the quality a
    number), and [applyDefaults] and [normalizeSettings] both return it. *)
Theorem valid_settings_resolve_to_canonical (s : Settings) :
  isValid (validateSettings (Obj s)) = true ->
  exists n,
    normalizeSettings (Obj s) = Ok n /\ applyDefaults (Obj s) = Ok n /\ canonical n.
Proof.
  intros Hvalid. destruct (normalized_is_canonical s Hvalid) as (n & En & Hn).
  exists n. split; [exact En | split; [|exact Hn]].
  now rewrite defaults_agree_with_normal_form.
Qed.

(** A form that names a quality as text and leaves the rest out. *)
Lemma valid_settings_resolve_to_canonical_witness :
  exists n,
    normalizeSettings (Obj (mkSettings VUndefined (VStr "1200") VUndefined VUndefined))
    = Ok n
    /\ applyDefaults (Obj (mkSettings VUndefined (VStr "1200") VUndefined VUndefined))
       = Ok n
    /\ canonical n.
Proof.
  apply (valid_settings_resolve_to_canonical
           (mkSettings VUndefined (VStr "1200") VUndefined VUndefined)).
  reflexivity.
Defined.

(** X5: canonical settings pass both validators and go through
    [normalizeSettings] and through [applyDefaults] unchanged. *)
Theorem canonical_settings_are_fixed (s : Settings) :
  canonical s ->
  isValid (validateSettings (Obj s)) = true
  /\ PrinterIntegration.valid (PrinterIntegration.validatePrintSettings (Obj s)) = true
  /\ normalizeSettings (Obj s) = Ok s
  /\ applyDefaults (Obj s) = Ok s.
Proof.
  intros H.
  assert (V : isValid (validateSettings (Obj s)) = true)
    by (canonical_cases H; reflexivity).
  assert (N : normalizeSettings (Obj s) = Ok s)
    by (canonical_cases H; reflexivity).
  repeat split.
  - exact V.
  - canonical_cases H; reflexivity.
  - exact N.
  - rewrite (defaults_agree_with_normal_form s V). exact N.
Qed.

Lemma canonical_settings_are_fixed_witness :
  normalizeSettings (Obj (mkSettings (VStr "Glossy") (VNum (Num 1200))
                            (VStr "Color") (VStr "Letter")))
  = Ok (mkSettings (VStr "Glossy") (VNum (Num 1200)) (VStr "Color") (VStr "Letter"))
  /\ applyDefaults (Obj (mkSettings (VStr "Glossy") (VNum (Num 1200))
                           (VStr "Color") (VStr "Letter")))
     = Ok (mkSettings (VStr "Glossy") (VNum (Num 1200)) (VStr "Color") (VStr "Letter")).
Proof.
  refine (proj2 (proj2 (canonical_settings_are_fixed
                          (mkSettings (VStr "Glossy") (VNum (Num 1200))
                             (VStr "Color") (VStr "Letter")) _))).
  unfold canonical; simpl.
  repeat split; eexists; (split; [reflexivity | simpl; auto]).
Defined.

Lemma printer_check_passes (v : value) (options : list string) (message : string) :
  is_undefined v = true \/ includes_string options v = true ->
  PrinterIntegration.check_field (truthy v) (includes_string options v) message = [].
Proof.
  unfold PrinterIntegration.check_field. intros [Hu | Hin].
  - destruct v; try discriminate. reflexivity.
  - rewrite Hin. now rewrite andb_false_r.
Qed.

(** X6: on objects the form's validator is the stricter one: settings
    that [validateSettings] accepts are accepted by the printer module's
    [validatePrintSettings]. *)
Theorem validateSettings_implies_validatePrintSettings (s : Settings) :
  isValid (validateSettings (Obj s)) = true ->
  PrinterIntegration.validatePrintSettings (Obj s)
  = PrinterIntegration.mkValidation true [].
Proof.
  intros Hvalid. destruct (valid_fields s Hvalid) as (Hp & Hq & Hc & Hz).
  unfold PrinterIntegration.validatePrintSettings, PrinterIntegration.collect_errors.
  rewrite (printer_check_passes _ _ _ Hp), (printer_check_passes _ _ _ Hc),
    (printer_check_passes _ _ _ Hz).
  assert (Eq : forall m, PrinterIntegration.check_field (truthy (printQuality s))
                 (includes_number [600; 1200] (parseInt (printQuality s))) m = []).
  { intros m. unfold PrinterIntegration.check_field. destruct Hq as [Hu | Hin].
    - destruct (printQuality s); try discriminate. reflexivity.
    - unfold printQualities in Hin. rewrite Hin. now rewrite andb_false_r. }
  rewrite Eq. reflexivity.
Qed.

Lemma validateSettings_implies_validatePrintSettings_witness :
  PrinterIntegration.validatePrintSettings
    (Obj (mkSettings (VStr "Glossy") (VStr " 600") VUndefined VUndefined))
  = PrinterIntegration.mkValidation true [].
Proof.
  apply (validateSettings_implies_validatePrintSettings
           (mkSettings (VStr "Glossy") (VStr " 600") VUndefined VUndefined)).
  reflexivity.
Defined.

Lemma canonical_passes_printer_validation (s : Settings) :
  canonical s ->
  PrinterIntegration.valid (PrinterIntegration.validatePrintSettings (Obj s)) = true.
Proof. intros H. canonical_cases H; reflexivity. Qed.

Lemma postConfig_outcome
    (session : JobController.Session) (body : ConfigController.Body) :
  let page := fst (ConfigController.postConfig session body) in
  let session' := snd (ConfigController.postConfig session body) in
  JobController.uploadedFile session' = JobController.uploadedFile session
  /\ JobController.userId session' = JobController.userId session
  /\ ((ConfigController.error page <> None
       /\ ConfigController.success page = None
       /\ JobController.printSettings session' = JobController.printSettings session)
      \/ (ConfigController.error page = None
          /\ ConfigController.success page = Some "Print settings saved successfully"
          /\ exists n, JobController.printSettings session' = Some n /\ canonical n)).
Proof.
  unfold ConfigController.postConfig.
  set (s := mkSettings _ _ _ _).
  destruct (isValid (validateSettings (Obj s))) eqn:V; cbn [negb].
  - destruct (normalized_is_canonical s V) as (n & En & Hn). rewrite En. simpl.
    repeat split. right. repeat split. now exists n.
  - simpl. repeat split. left. repeat split. discriminate.
Qed.

(** X7: POST /configure stores settings only in canonical form: when the
    form holds a value outside its enumeration the page lists the errors
    and the session keeps the settings it had; otherwise the session
    receives the normalised record, every field of which is a member of
    its enumeration.  The uploaded document and the user are not
    touched. *)
Theorem postConfig_stores_canonical_settings
    (session : JobController.Session) (body : ConfigController.Body) :
  let given := mkSettings (ConfigController.body_paperType body)
                 (ConfigController.body_printQuality body)
                 (ConfigController.body_colorMode body)
                 (ConfigController.body_paperSize body) in
  let session' := snd (ConfigController.postConfig session body) in
  JobController.uploadedFile session' = JobController.uploadedFile session
  /\ JobController.userId session' = JobController.userId session
  /\ (isValid (validateSettings (Obj given)) = false ->
      JobController.printSettings session' = JobController.printSettings session
      /\ fst (ConfigController.postConfig session body)
         = ConfigController.mkPage
             (Some (join "; " (errors (validateSettings (Obj given))))) None)
  /\ (isValid (validateSettings (Obj given)) = true ->
      exists n,
        normalizeSettings (Obj given) = Ok n
        /\ JobController.printSettings session' = Some n
        /\ canonical n).
Proof.
  unfold ConfigController.postConfig. cbv zeta.
  set (s := mkSettings _ _ _ _).
  destruct (isValid (validateSettings (Obj s))) eqn:V; cbn [negb].
  - destruct (normalized_is_canonical s V) as (n & En & Hn). rewrite En. simpl.
    repeat split; try discriminate. intros _. exists n. auto.
  - simpl. repeat split; try discriminate.
Qed.

End SettingsAcross.

(** ** Submission with accepted settings *)

Section SubmissionAccepted.

Import Database.
Import JobController.

(** POST /submit-job when the settings in force pass the printer module's
    validation: the confirmation page, the session cleared, and one new
    row whose status follows the device's answer. *)
Lemma postSubmitJob_accepted
    (dev : PrinterIntegration.Device) (now : Z) (db : Db)
    (file : UploadedFile) (u : Z) (stored : option Settings) :
  let s := match stored with Some s => s | None => PrintSettings.getDefaults end in
  let result := PrinterIntegration.submitJobToPrinter dev (path file) (Obj s) in
  u <> 0 -> originalName file <> "" -> path file <> "" ->
  In u (users db) ->
  PrinterIntegration.valid (PrinterIntegration.validatePrintSettings (Obj s)) = true ->
  exists row,
    postSubmitJob dev now db (mkSession (Some file) (Some u) stored)
    = (RenderJobConfirmation (next_id db) (originalName file) s result,
       mkDb (users db) (jobs db ++ [row]) (next_id db),
       mkSession None (Some u) None)
    /\ id row = next_id db
    /\ Database.userId row = u
    /\ documentName row = originalName file
    /\ documentPath row = path file
    /\ submittedAt row = Clock.CURRENT_TIMESTAMP now
    /\ completedAt row = None
    /\ status row = (if PrinterIntegration.success result
                     then "in-progress" else "pending").
Proof.
  intros s result Hu Hname Hpath Huser Hvalid.
  assert (Es : s = match stored with
                   | Some s => s
                   | None => PrintSettings.getDefaults
                   end) by reflexivity.
  subst result. clearbody s.
  unfold postSubmitJob.
  cbn [uploadedFile JobController.userId printSettings PrintJob.falsy_id].
  destruct (Z.eqb_spec u 0) as [|_]; [contradiction|].
  rewrite <- Es. clear Es.
  unfold PrintJob.createPrintJob; simpl.
  destruct (Z.eqb_spec u 0) as [|_]; [contradiction|].
  apply String.eqb_neq in Hname, Hpath. rewrite Hname, Hpath. simpl.
  unfold insertPrintJob; simpl. rewrite (existsb_In_Z u _ Huser). simpl.
  unfold PrintJob.submitJobToQueue; simpl.
  match goal with
  | |- context [find _ (jobs db ++ [?x])] => set (row := x)
  end.
  assert (Hfresh : forall r, In r (jobs db) -> id r <> id row)
    by (intros r Hr; now apply next_id_fresh).
  change (next_id db) with (id row) at 1.
  rewrite (find_fresh _ _ Hfresh).
  simpl in Hvalid. rewrite Hvalid. simpl.
  destruct (PrinterIntegration.success
              (PrinterIntegration.submitJobToPrinter dev (path file) (Obj s))) eqn:Hs;
    simpl.
  - exists (set_status "in-progress" row). split; [|repeat split].
    rewrite update_where_app, (update_where_fresh _ _ _ Hfresh). simpl.
    now rewrite Z.eqb_refl.
  - exists row. split; [reflexivity | repeat split].
Qed.

(** X8: settings saved by POST /configure are never refused at
    submission: with a document uploaded and a known user, the
    POST /submit-job that follows answers with the confirmation page,
    carrying the saved settings and the device's own result, and forgets
    the document and the settings. *)
Theorem configured_settings_reach_the_device
    (dev : PrinterIntegration.Device) (now : Z) (db : Db)
    (session : Session) (body : ConfigController.Body)
    (file : UploadedFile) (u : Z) :
  ConfigController.success (fst (ConfigController.postConfig session body)) <> None ->
  uploadedFile session = Some file ->
  JobController.userId session = Some u ->
  u <> 0 -> originalName file <> "" -> path file <> "" ->
  In u (users db) ->
  exists n db',
    printSettings (snd (ConfigController.postConfig session body)) = Some n
    /\ canonical n
    /\ postSubmitJob dev now db (snd (ConfigController.postConfig session body))
       = (RenderJobConfirmation (next_id db) (originalName file) n
            (PrinterIntegration.submitJobToPrinter dev (path file) (Obj n)),
          db', mkSession None (Some u) None).
Proof.
  intros Hok Hfile Huid Hu Hname Hpath Huser.
  destruct (postConfig_outcome session body) as (Hf & Hi & [(_ & Hs & _) | (_ & _ & n & Hn & Hc)]).
  - contradiction.
  - destruct (postSubmitJob_accepted dev now db file u (Some n) Hu Hname Hpath Huser
                (canonical_passes_printer_validation n Hc)) as (row & Hcall & _).
    exists n. eexists. split; [exact Hn | split; [exact Hc|]].
    destruct (snd (ConfigController.postConfig session body)) as [f i p].
    simpl in Hf, Hi, Hn. rewrite Hfile in Hf. rewrite Huid in Hi. subst f i p.
    exact Hcall.
Qed.

(** A form with a numeral-string quality, then the submission. *)
Lemma configured_settings_reach_the_device_witness :
  let body := ConfigController.mkBody (VStr "Glossy") (VStr "1200") VUndefined
                (VStr "Letter") in
  exists n db',
    printSettings (snd (ConfigController.postConfig Scenario.session body)) = Some n
    /\ canonical n
    /\ postSubmitJob Scenario.device_up Scenario.submit_time Scenario.empty_db
         (snd (ConfigController.postConfig Scenario.session body))
       = (RenderJobConfirmation 1 "a.pdf" n
            (PrinterIntegration.submitJobToPrinter Scenario.device_up
               "/uploads/a.pdf" (Obj n)),
          db', mkSession None (Some 1) None).
Proof.
  apply (configured_settings_reach_the_device Scenario.device_up Scenario.submit_time
           Scenario.empty_db Scenario.session
           (ConfigController.mkBody (VStr "Glossy") (VStr "1200") VUndefined
              (VStr "Letter"))
           Scenario.upload 1).
  - discriminate.
  - reflexivity.
  - reflexivity.
  - lia.
  - discriminate.
  - discriminate.
  - simpl. auto.
Defined.

(** X9: when the uploaded document is no longer on disk, POST /submit-job
    with accepted settings still writes the job and answers with the
    confirmation page: the result says that the document was not found,
    the platform's print command is never reached, the job stays pending,
    and the session forgets the upload. *)
Theorem postSubmitJob_document_gone
    (dev : PrinterIntegration.Device) (now : Z) (db : Db)
    (file : UploadedFile) (u : Z) (stored : option Settings) :
  let s := match stored with Some s => s | None => PrintSettings.getDefaults end in
  u <> 0 -> originalName file <> "" -> path file <> "" ->
  In u (users db) ->
  PrinterIntegration.valid (PrinterIntegration.validatePrintSettings (Obj s)) = true ->
  PrinterIntegration.existsSync dev (path file) = false ->
  exists row,
    postSubmitJob dev now db (mkSession (Some file) (Some u) stored)
    = (RenderJobConfirmation (next_id db) (originalName file) s
         (PrinterIntegration.mkSubmitResult false None
            ("Failed to submit job to printer: Document file not found: "
               ++ path file)),
       mkDb (users db) (jobs db ++ [row]) (next_id db),
       mkSession None (Some u) None)
    /\ id row = next_id db
    /\ status row = "pending".
Proof.
  intros s Hu Hname Hpath Huser Hvalid Hgone.
  destruct (postSubmitJob_accepted dev now db file u stored Hu Hname Hpath Huser Hvalid)
    as (row & Hcall & Hid & _ & _ & _ & _ & _ & Hst).
  fold s in Hcall, Hst.
  unfold PrinterIntegration.submitJobToPrinter in Hcall, Hst.
  rewrite Hgone in Hcall, Hst. simpl in Hcall, Hst.
  exists row. auto.
Qed.

(** The document was swept before the user pressed the button. *)
Lemma postSubmitJob_document_gone_witness :
  let dev := PrinterIntegration.mkDevice (fun _ => false) (fun _ _ => Ok "42") in
  exists row,
    postSubmitJob dev Scenario.submit_time Scenario.empty_db Scenario.session
    = (RenderJobConfirmation 1 "a.pdf" PrintSettings.getDefaults
         (PrinterIntegration.mkSubmitResult false None
            "Failed to submit job to printer: Document file not found: /uploads/a.pdf"),
       mkDb [1; 2] [row] 1,
       mkSession None (Some 1) None)
    /\ id row = 1
    /\ status row = "pending".
Proof.
  apply (postSubmitJob_document_gone
           (PrinterIntegration.mkDevice (fun _ => false) (fun _ _ => Ok "42"))
           Scenario.submit_time Scenario.empty_db Scenario.upload 1 None).
  - lia.
  - discriminate.
  - discriminate.
  - simpl. auto.
  - reflexivity.
  - reflexivity.
Defined.

End SubmissionAccepted.

(** ** The print command *)

Section PrintCommandFacts.

Import PrinterCommands.

Lemma printer_check_nil (present ok : bool) (message : string) :
  PrinterIntegration.check_field present ok message = [] ->
  present = false \/ ok = true.
Proof.
  unfold PrinterIntegration.check_field.
  destruct present, ok; simpl; auto; discriminate.
Qed.

(** What the printer module's verdict says about each field. *)
Lemma printer_valid_fields (s : Settings) :
  PrinterIntegration.valid (PrinterIntegration.validatePrintSettings (Obj s)) = true ->
  (truthy (paperType s) = false
   \/ includes_string ["Plain Paper"; "Glossy"] (paperType s) = true)
  /\ (truthy (printQuality s) = false
      \/ includes_number [600; 1200] (parseInt (printQuality s)) = true)
  /\ (truthy (colorMode s) = false
      \/ includes_string ["Color"; "Grayscale"] (colorMode s) = true)
  /\ (truthy (paperSize s) = false
      \/ includes_string ["A4"; "Letter"; "Legal"] (paperSize s) = true).
Proof.
  simpl. unfold PrinterIntegration.collect_errors. intros H.
  apply length_zero_app in H as [H1 H].
  apply app_eq_nil in H as [H2 H].
  apply app_eq_nil in H as [H3 H4].
  apply printer_check_nil in H1, H2, H3, H4. auto.
Qed.

(** A field outside its table or falsy gives no option; a text of the
    table gives the option of the table, whatever the built-ins print. *)
Ltac text_option :=
  intros nt v [Hf | Hin];
  [ unfold option_for; rewrite Hf; split; [reflexivity | constructor]
  | destruct v as [| | b | n | t]; try discriminate; simpl in Hin;
    rewrite ?orb_false_r in Hin;
    repeat match goal with
           | H : (_ || _) = true |- _ => apply orb_true_iff in H as [H|H]
           end;
    apply String.eqb_eq in Hin; subst t;
    (split; [reflexivity | repeat constructor; simpl; tauto]) ].

Lemma paperSize_option :
  forall nt v,
    truthy v = false \/ includes_string ["A4"; "Letter"; "Legal"] v = true ->
    option_for nt paperSizeMap (fun x => "-o media=" ++ x) v
    = option_for (fun _ => "") paperSizeMap (fun x => "-o media=" ++ x) v
    /\ Forall (fun o => In o known_options)
         (option_for nt paperSizeMap (fun x => "-o media=" ++ x) v).
Proof. text_option. Qed.

Lemma colorMode_option :
  forall nt v,
    truthy v = false \/ includes_string ["Color"; "Grayscale"] v = true ->
    option_for nt colorModeMap (fun x => x) v
    = option_for (fun _ => "") colorModeMap (fun x => x) v
    /\ Forall (fun o => In o known_options) (option_for nt colorModeMap (fun x => x) v).
Proof. text_option. Qed.

Lemma paperType_option :
  forall nt v,
    truthy v = false \/ includes_string ["Plain Paper"; "Glossy"] v = true ->
    option_for nt paperTypeMap (fun x => x) v
    = option_for (fun _ => "") paperTypeMap (fun x => x) v
    /\ Forall (fun o => In o known_options) (option_for nt paperTypeMap (fun x => x) v).
Proof. text_option. Qed.

(** No inherited property name reads as a number. *)
Lemma inherited_names_are_not_numbers (k : string) :
  existsb (String.eqb k) object_prototype_names = true -> parseInt_string k = NaN.
Proof.
  intros H. apply existsb_exists in H as (x & Hx & E).
  apply String.eqb_eq in E. subst x. simpl in Hx.
  repeat match goal with
         | H : _ \/ _ |- _ => destruct H as [H|H]
         end; try contradiction; subst k; reflexivity.
Qed.

Lemma printQuality_option (nt : string -> string) (v : value) :
  truthy v = false \/ includes_number [600; 1200] (parseInt v) = true ->
  option_for nt dpiMap (fun x => x) v = option_for (fun _ => "") dpiMap (fun x => x) v
  /\ Forall (fun o => In o known_options) (option_for nt dpiMap (fun x => x) v).
Proof.
  intros [Hf | Hin].
  - unfold option_for. rewrite Hf. split; [reflexivity | constructor].
  - assert (Hno : existsb (String.eqb (toString v)) object_prototype_names = false).
    { destruct (existsb _ _) eqn:E; [|reflexivity].
      apply inherited_names_are_not_numbers in E. unfold parseInt in Hin.
      rewrite E in Hin. discriminate Hin. }
    unfold option_for, lookup. rewrite Hno.
    destruct (truthy v); [|split; [reflexivity | constructor]].
    unfold dpiMap. cbn [own_property].
    destruct (String.eqb_spec "600" (toString v));
      [split; [reflexivity | repeat constructor; simpl; tauto]|].
    destruct (String.eqb_spec "1200" (toString v));
      [split; [reflexivity | repeat constructor; simpl; tauto]|].
    split; [reflexivity | constructor].
Qed.

(** X10: for settings that passed [validatePrintSettings], what
    [formatPrinterOptions] puts on the command line consists only of
    option texts from its own four tables, at most one per table, and
    does not depend on anything inherited from [Object.prototype]. *)
Theorem validated_settings_give_known_options
    (native_text : string -> string) (s : Settings) :
  PrinterIntegration.valid (PrinterIntegration.validatePrintSettings (Obj s)) = true ->
  Forall (fun o => In o known_options) (printer_options native_text s)
  /\ (List.length (printer_options native_text s) <= 4)%nat
  /\ forall other, formatPrinterOptions other (Obj s)
                   = formatPrinterOptions native_text (Obj s).
Proof.
  intros Hvalid. destruct (printer_valid_fields s Hvalid) as (Hp & Hq & Hc & Hz).
  assert (Hindep : forall nt, printer_options nt s = printer_options (fun _ => "") s).
  { intros nt. unfold printer_options.
    now rewrite (proj1 (paperSize_option nt _ Hz)), (proj1 (colorMode_option nt _ Hc)),
      (proj1 (printQuality_option nt _ Hq)), (proj1 (paperType_option nt _ Hp)). }
  split; [|split].
  - unfold printer_options. repeat (apply Forall_app; split).
    + apply paperSize_option, Hz.
    + apply colorMode_option, Hc.
    + apply printQuality_option, Hq.
    + apply paperType_option, Hp.
  - unfold printer_options. rewrite !length_app.
    unfold option_for.
    repeat match goal with
           | |- context [if ?b then _ else _] => destruct b
           | |- context [match ?o with Some _ => _ | None => _ end] => destruct o
           end; simpl; lia.
  - intros other. unfold formatPrinterOptions. simpl.
    now rewrite (Hindep other), (Hindep native_text).
Qed.

(** A quality that the validator reads as 600 but the table does not
    know: the resolution is left out. *)
Lemma validated_settings_give_known_options_witness :
  formatPrinterOptions (fun k => k)
    (Obj (mkSettings (VStr "Glossy") (VStr "600dpi") VUndefined (VStr "A4")))
  = Ok "-o media=A4 -o MediaType=Glossy"
  /\ forall other,
       formatPrinterOptions other
         (Obj (mkSettings (VStr "Glossy") (VStr "600dpi") VUndefined (VStr "A4")))
       = formatPrinterOptions (fun k => k)
           (Obj (mkSettings (VStr "Glossy") (VStr "600dpi") VUndefined (VStr "A4"))).
Proof.
  split; [reflexivity|].
  apply (validated_settings_give_known_options (fun k => k)
           (mkSettings (VStr "Glossy") (VStr "600dpi") VUndefined (VStr "A4"))).
  reflexivity.
Defined.

(** X11: for canonical settings the option text is complete: the paper
    size, the colour model, the resolution and the media type, in this
    order, one blank between them. *)
Theorem canonical_settings_give_four_options
    (native_text : string -> string) (t : string) (q : Z) (c z : string) :
  canonical (mkSettings (VStr t) (VNum (Num q)) (VStr c) (VStr z)) ->
  formatPrinterOptions native_text
    (Obj (mkSettings (VStr t) (VNum (Num q)) (VStr c) (VStr z)))
  = Ok ("-o media=" ++ z
          ++ " -o ColorModel=" ++ (if (c =? "Color")%string then "RGB" else "Gray")
          ++ " -o Resolution=" ++ decimal q ++ "x" ++ decimal q ++ "dpi"
          ++ " -o MediaType=" ++ (if (t =? "Glossy")%string then "Glossy" else "Plain")).
Proof.
  intros H.
  destruct H as ((tp & Ep & Hp) & (tq & Eq & Hq) & (tc & Ec & Hc) & (tz & Ez & Hz)).
  simpl in Ep, Eq, Ec, Ez.
  injection Ep as <-. injection Eq as <-. injection Ec as <-. injection Ez as <-.
  simpl in Hp, Hq, Hc, Hz.
  repeat match goal with
         | H : _ \/ _ |- _ => destruct H as [H|H]
         | H : False |- _ => contradiction
         end; subst; reflexivity.
Qed.

Lemma canonical_settings_give_four_options_witness :
  formatPrinterOptions (fun k => k)
    (Obj (mkSettings (VStr "Glossy") (VNum (Num 1200)) (VStr "Color") (VStr "Legal")))
  = Ok "-o media=Legal -o ColorModel=RGB -o Resolution=1200x1200dpi -o MediaType=Glossy".
Proof.
  apply (canonical_settings_give_four_options (fun k => k) "Glossy" 1200 "Color" "Legal").
  unfold canonical; simpl.
  repeat split; eexists; (split; [reflexivity | simpl; auto]).
Defined.

(** *** The request id in the answer of lp *)

Lemma digit_is_word (c : ascii) :
  is_digit c = true -> is_word_or_dash c = true /\ (c =? "-")%char = false.
Proof.
  destruct c as [[] [] [] [] [] [] [] []]; try discriminate; intros _; split; reflexivity.
Qed.

Lemma stops_no_digit (tail : string) : stops tail = true -> starts_with_digit tail = false.
Proof.
  destruct tail as [|c r]; [reflexivity|]. cbn [stops starts_with_digit]. intros H.
  destruct (is_digit c) eqn:E; [|reflexivity].
  apply digit_is_word in E as [E _]. rewrite E in H. discriminate H.
Qed.

Lemma take_digits_exact (ds tail : string) :
  all_chars is_digit ds = true -> stops tail = true ->
  take_digits (ds ++ tail) = ds.
Proof.
  intros Hds Ht. induction ds as [|d ds IH]; cbn [append take_digits all_chars] in *.
  - destruct tail as [|c r]; [reflexivity|].
    apply stops_no_digit in Ht. cbn [starts_with_digit take_digits] in *. now rewrite Ht.
  - apply andb_true_iff in Hds as [Hd Hds]. rewrite Hd. f_equal. now apply IH.
Qed.

Lemma digits_hold_no_dash (first : bool) (ds tail : string) :
  all_chars is_digit ds = true -> stops tail = true ->
  name_dash_digits first (ds ++ tail) = None.
Proof.
  intros Hds Ht. revert first.
  induction ds as [|d ds IH]; intros first; cbn [append name_dash_digits all_chars] in *.
  - destruct tail as [|c r]; [reflexivity|]. cbn [stops name_dash_digits] in *.
    apply negb_true_iff in Ht. now rewrite Ht.
  - apply andb_true_iff in Hds as [Hd Hds].
    destruct (digit_is_word d Hd) as [Hw Hdash]. rewrite Hw, (IH Hds), Hdash.
    now rewrite andb_false_r.
Qed.

(** The dash before the digits is the one the pattern settles on. *)
Lemma name_dash_digits_last (first : bool) (name ds tail : string) :
  all_chars is_word_or_dash name = true ->
  name <> "" \/ first = false ->
  ds <> "" -> all_chars is_digit ds = true -> stops tail = true ->
  name_dash_digits first (name ++ String "-" (ds ++ tail)) = Some ds.
Proof.
  intros Hname Hfirst Hne Hds Ht. revert first Hfirst.
  induction name as [|c name IH]; intros first Hfirst.
  - destruct Hfirst as [Hfirst | ->]; [contradiction|].
    cbn [append name_dash_digits]. change (is_word_or_dash "-") with true. cbv iota.
    rewrite (digits_hold_no_dash false ds tail Hds Ht).
    destruct ds as [|d ds]; [contradiction|].
    cbn [all_chars] in Hds. apply andb_true_iff in Hds as [Hd Hds].
    cbn [negb andb append starts_with_digit]. change ("-" =? "-")%char with true.
    rewrite Hd. cbn [andb]. f_equal.
    change (String d ds ++ tail) with (String d (ds ++ tail)).
    cbn [take_digits]. rewrite Hd. f_equal. now apply take_digits_exact.
  - cbn [all_chars] in Hname. apply andb_true_iff in Hname as [Hc Hname].
    cbn [append name_dash_digits]. rewrite Hc.
    now rewrite (IH Hname false (or_intror eq_refl)).
Qed.

Lemma request_id_here_after_head (rest : string) :
  request_id_here ("request id is " ++ rest) = name_dash_digits true rest.
Proof.
  unfold request_id_here. simpl. destruct rest; reflexivity.
Qed.

(** X12: the answer of lp is read back exactly: from
    "request id is NAME-DIGITS" followed by the end or by a character
    that is neither a letter, a digit, an underscore nor a dash, the
    pattern extracts DIGITS, also when NAME itself holds dashes and
    digits. *)
Theorem match_request_id_reads_the_job_number (name ds tail : string) :
  name <> "" -> all_chars is_word_or_dash name = true ->
  ds <> "" -> all_chars is_digit ds = true ->
  stops tail = true ->
  match_request_id ("request id is " ++ name ++ "-" ++ ds ++ tail) = Some ds.
Proof.
  intros Hn Hname Hne Hds Ht.
  assert (E : request_id_here ("request id is " ++ name ++ "-" ++ ds ++ tail) = Some ds).
  { rewrite request_id_here_after_head.
    now apply (name_dash_digits_last true name ds tail); auto. }
  change ("request id is " ++ name ++ "-" ++ ds ++ tail)
    with (String "r" ("equest id is " ++ name ++ "-" ++ ds ++ tail)) in *.
  cbn [match_request_id]. now rewrite E.
Qed.

Lemma match_request_id_reads_the_job_number_witness :
  match_request_id "request id is Ink-Tank-310-series-123 (1 file(s))" = Some "123".
Proof.
  apply (match_request_id_reads_the_job_number "Ink-Tank-310-series" "123"
           " (1 file(s))"); try reflexivity; discriminate.
Defined.

Lemma take_digits_all_digits (s : string) : all_chars is_digit (take_digits s) = true.
Proof.
  induction s as [|c s IH]; cbn [take_digits]; [reflexivity|].
  destruct (is_digit c) eqn:E; cbn [all_chars]; [rewrite E; exact IH | reflexivity].
Qed.

Lemma name_dash_digits_shape (first : bool) (s d : string) :
  name_dash_digits first s = Some d -> d <> "" /\ all_chars is_digit d = true.
Proof.
  revert first d.
  induction s as [|c s IH]; intros first d; cbn [name_dash_digits]; [discriminate|].
  destruct (is_word_or_dash c); [|discriminate].
  destruct (name_dash_digits false s) as [d'|] eqn:E.
  - intros H. injection H as <-. now apply (IH false).
  - destruct (negb first && (c =? "-")%char && starts_with_digit s) eqn:G; [|discriminate].
    intros H. injection H as <-. split; [|apply take_digits_all_digits].
    apply andb_true_iff in G as [_ G]. destruct s as [|x s]; [discriminate|].
    cbn [starts_with_digit take_digits] in G |- *. rewrite G. discriminate.
Qed.

Lemma match_request_id_shape (out d : string) :
  match_request_id out = Some d -> d <> "" /\ all_chars is_digit d = true.
Proof.
  induction out as [|c out IH]; cbn [match_request_id].
  - unfold request_id_here. simpl. discriminate.
  - destruct (request_id_here (String c out)) as [d'|] eqn:E; [|exact IH].
    intros H. injection H as <-. unfold request_id_here in E.
    destruct (String.prefix _ _); [|discriminate].
    now apply name_dash_digits_shape in E.
Qed.

(** X13: whatever lp prints, the token that [submitJobToPrinterLinux]
    hands back after a successful command is either the text "unknown"
    or a non-empty run of decimal digits. *)
Theorem submitJobToPrinterLinux_token_shape
    (native_text : string -> string) (exec : Shell) (documentPath : string)
    (settings : Settings) (token : string) :
  submitJobToPrinterLinux native_text exec documentPath settings = Ok token ->
  token = "unknown" \/ (token <> "" /\ all_chars is_digit token = true).
Proof.
  unfold submitJobToPrinterLinux.
  destruct (exec _) as [out|m].
  - intros H. injection H as <-.
    destruct (match_request_id (stdout out)) as [d|] eqn:E; [|now left].
    right. now apply match_request_id_shape in E.
  - repeat match goal with
           | |- context [if ?b then _ else _] => destruct b
           end; discriminate.
Qed.

Lemma submitJobToPrinterLinux_token_shape_witness :
  let exec : Shell := fun _ => Ok (mkExec "lp: job accepted" "") in
  submitJobToPrinterLinux (fun k => k) exec "/uploads/a.pdf" PrintSettings.getDefaults
  = Ok "unknown"
  /\ ("unknown" = "unknown"
      \/ ("unknown" <> "" /\ all_chars is_digit "unknown" = true)).
Proof.
  intros exec. split; [reflexivity|].
  apply (submitJobToPrinterLinux_token_shape (fun k => k) exec "/uploads/a.pdf"
           PrintSettings.getDefaults "unknown").
  reflexivity.
Defined.

End PrintCommandFacts.

(** ** From the upload to the printer *)

Section EndToEnd.

Import Database.
Import JobController.
Import PrinterCommands.

(** X14: on Linux, with no settings chosen, POST /submit-job resolves the
    settings to the defaults, runs lp on the Ink-Tank-310-series queue
    with the four default options and the quoted document path, reads the
    job number out of lp's answer, shows it on the confirmation page and
    leaves the new job in progress. *)
Theorem linux_submission_end_to_end
    (native_text : string -> string) (exec : Shell) (existsSync : string -> bool)
    (clock now : Z) (db : Db) (file : UploadedFile) (u : Z) (ds : string) :
  u <> 0 -> originalName file <> "" -> path file <> "" ->
  In u (users db) ->
  existsSync (path file) = true ->
  ds <> "" -> all_chars is_digit ds = true ->
  exec ("lp -d Ink-Tank-310-series -o media=A4 -o ColorModel=Gray "
          ++ "-o Resolution=600x600dpi -o MediaType=Plain "
          ++ quote ++ path file ++ quote)
  = Ok (mkExec ("request id is Ink-Tank-310-series-" ++ ds ++ " (1 file(s))") "") ->
  exists row,
    postSubmitJob (device existsSync Linux native_text exec clock) now db
      (mkSession (Some file) (Some u) None)
    = (RenderJobConfirmation (next_id db) (originalName file)
         (mkSettings (VStr "Plain Paper") (VNum (Num 600)) (VStr "Grayscale") (VStr "A4"))
         (PrinterIntegration.mkSubmitResult true (Some ds)
            ("Job submitted successfully to printer. Job ID: " ++ ds)),
       mkDb (users db) (jobs db ++ [row]) (next_id db),
       mkSession None (Some u) None)
    /\ id row = next_id db
    /\ Database.userId row = u
    /\ status row = "in-progress"
    /\ completedAt row = None.
Proof.
  intros Hu Hname Hpath Huser Hexists Hne Hds Hexec.
  destruct (postSubmitJob_accepted (device existsSync Linux native_text exec clock)
              now db file u None Hu Hname Hpath Huser eq_refl)
    as (row & Hcall & Hid & Huid & _ & _ & _ & Hdone & Hst).
  assert (E : PrinterIntegration.submitJobToPrinter
                (device existsSync Linux native_text exec clock) (path file)
                (Obj PrintSettings.getDefaults)
              = PrinterIntegration.mkSubmitResult true (Some ds)
                  ("Job submitted successfully to printer. Job ID: " ++ ds)).
  { unfold PrinterIntegration.submitJobToPrinter, device.
    cbn [PrinterIntegration.existsSync PrinterIntegration.platformSubmit].
    rewrite Hexists. cbn [negb]. unfold submitJobToPrinterLinux.
    change (lp_command (join " " (printer_options native_text PrintSettings.getDefaults))
              (path file))
      with ("lp -d Ink-Tank-310-series -o media=A4 -o ColorModel=Gray "
              ++ "-o Resolution=600x600dpi -o MediaType=Plain "
              ++ quote ++ path file ++ quote).
    rewrite Hexec. cbn [stdout].
    assert (M : match_request_id
                  ("request id is Ink-Tank-310-series-" ++ ds ++ " (1 file(s))")
                = Some ds).
    { assert (H : request_id_here
                    ("request id is " ++ "Ink-Tank-310-series" ++ "-" ++ ds
                       ++ " (1 file(s))") = Some ds).
      { rewrite request_id_here_after_head.
        apply (name_dash_digits_last true "Ink-Tank-310-series" ds " (1 file(s))");
          auto; try reflexivity. left. discriminate. }
      change ("request id is Ink-Tank-310-series-" ++ ds ++ " (1 file(s))")
        with (String "r" ("equest id is Ink-Tank-310-series-" ++ ds ++ " (1 file(s))")).
      cbn [match_request_id].
      change (String "r" ("equest id is Ink-Tank-310-series-" ++ ds ++ " (1 file(s))"))
        with ("request id is " ++ "Ink-Tank-310-series" ++ "-" ++ ds ++ " (1 file(s))").
      now rewrite H. }
    now rewrite M. }
  cbv zeta in Hcall, Hst. rewrite E in Hcall, Hst. cbn in Hst.
  exists row. repeat split; assumption.
Qed.

Lemma linux_submission_end_to_end_witness :
  let exec : Shell :=
    fun _ => Ok (mkExec "request id is Ink-Tank-310-series-123 (1 file(s))" "") in
  exists row,
    postSubmitJob (device (fun _ => true) Linux (fun k => k) exec 0)
      Scenario.submit_time Scenario.empty_db Scenario.session
    = (RenderJobConfirmation 1 "a.pdf"
         (mkSettings (VStr "Plain Paper") (VNum (Num 600)) (VStr "Grayscale") (VStr "A4"))
         (PrinterIntegration.mkSubmitResult true (Some "123")
            "Job submitted successfully to printer. Job ID: 123"),
       mkDb [1; 2] [row] 1,
       mkSession None (Some 1) None)
    /\ id row = 1
    /\ Database.userId row = 1
    /\ status row = "in-progress"
    /\ completedAt row = None.
Proof.
  intros exec.
  apply (linux_submission_end_to_end (fun k => k) exec (fun _ => true) 0
           Scenario.submit_time Scenario.empty_db Scenario.upload 1 "123").
  - lia.
  - discriminate.
  - discriminate.
  - simpl. auto.
  - reflexivity.
  - discriminate.
  - reflexivity.
  - reflexivity.
Defined.

End EndToEnd.


(** ** The job table: writes and look-ups *)

Section StoreRoundTrip.

Import Database.

Lemma find_other_app (j : Z) (l : list PrintJobRow) (x : PrintJobRow) :
  id x <> j ->
  find (fun r => id r =? j) (l ++ [x]) = find (fun r => id r =? j) l.
Proof.
  intros Hx. induction l as [|a l IH]; simpl.
  - destruct (Z.eqb_spec (id x) j); [contradiction | reflexivity].
  - destruct (id a =? j); [reflexivity | exact IH].
Qed.

Lemma find_other_update_where (k j : Z) (f : PrintJobRow -> PrintJobRow)
    (l : list PrintJobRow) :
  j <> k -> (forall r, id (f r) = id r) ->
  find (fun r => id r =? j) (update_where k f l) = find (fun r => id r =? j) l.
Proof.
  intros Hj Hf. induction l as [|a l IH]; simpl; [reflexivity|].
  destruct (Z.eqb_spec (id a) k) as [E|E].
  - rewrite Hf, E. destruct (Z.eqb_spec k j) as [E'|_]; [now subst | exact IH].
  - destruct (id a =? j); [reflexivity | exact IH].
Qed.

Lemma find_none_fresh (k : Z) (l : list PrintJobRow) :
  find (fun r => id r =? k) l = None -> forall r, In r l -> id r <> k.
Proof.
  intros H r Hr E. apply (find_none _ _ H) in Hr. apply Z.eqb_neq in Hr. contradiction.
Qed.

Lemma count_id_fresh (k : Z) (l : list PrintJobRow) :
  (forall r, In r l -> id r <> k) -> count_id k l = 0.
Proof.
  intros H. unfold count_id. induction l as [|a l IH]; simpl; [reflexivity|].
  destruct (Z.eqb_spec (id a) k) as [E|_].
  - exfalso. apply (H a); [now left | exact E].
  - apply IH. intros r Hr. apply H. now right.
Qed.

Lemma next_id_above_sequence (db : Db) : sequence db < next_id db.
Proof. unfold next_id. lia. Qed.

(** X15: a job written by createPrintJob is found again under the id the
    call returned, with the user, name and path given, pending (whatever
    status the caller passed), stamped with the time of the call and not
    completed; the id was free before and lies above the AUTOINCREMENT
    counter, and every other look-up answers as before. *)
Theorem createPrintJob_then_getPrintJob
    (now : Z) (db db1 : Db) (jobData : JobData) (jobId : Z) :
  PrintJob.createPrintJob now db jobData = Ok (db1, jobId) ->
  (exists row,
     getPrintJob db1 (Num jobId) = Some row
     /\ id row = jobId
     /\ jd_userId jobData = Some (userId row)
     /\ jd_documentName jobData = Some (documentName row)
     /\ jd_documentPath jobData = Some (documentPath row)
     /\ status row = "pending"
     /\ submittedAt row = Clock.CURRENT_TIMESTAMP now
     /\ completedAt row = None)
  /\ getPrintJob db (Num jobId) = None
  /\ (forall k, k <> jobId -> getPrintJob db1 (Num k) = getPrintJob db (Num k))
  /\ sequence db < jobId
  /\ sequence db1 = jobId.
Proof.
  intros H.
  destruct (createPrintJob_row now db db1 jobData jobId H)
    as (row & -> & -> & Hid & Hst & Hc & Hu & Hn & Hp & Ht).
  assert (Hfresh : forall r, In r (jobs db) -> id r <> id row)
    by (intros r Hr; rewrite Hid; now apply next_id_fresh).
  repeat split.
  - exists row. simpl. rewrite <- Hid. rewrite (find_fresh _ _ Hfresh). now repeat split.
  - simpl. destruct (find (fun r => id r =? next_id db) (jobs db)) as [r|] eqn:F;
      [|reflexivity].
    apply find_some_id in F. destruct F as [Hr E].
    exfalso. apply (next_id_fresh db r Hr E).
  - intros k Hk. simpl. apply find_other_app. now rewrite Hid.
  - apply next_id_above_sequence.
Qed.

Lemma createPrintJob_then_getPrintJob_witness :
  let jobData := mkJobData (Some 2) (Some "b.png") (Some "/uploads/b.png")
                   PrintSettings.getDefaults (Some "completed") in
  let db1 := snd (fst (JobController.postSubmitJob Scenario.device_up
                         Scenario.submit_time Scenario.empty_db Scenario.session)) in
  exists db2,
    PrintJob.createPrintJob Scenario.sweep_time db1 jobData = Ok (db2, 2)
    /\ option_map status (getPrintJob db2 (Num 2)) = Some "pending"
    /\ getPrintJob db2 (Num 1) = getPrintJob db1 (Num 1).
Proof.
  intros jobData db1.
  assert (E : exists db2, PrintJob.createPrintJob Scenario.sweep_time db1 jobData
                          = Ok (db2, 2)) by (eexists; reflexivity).
  destruct E as (db2 & E). exists db2. split; [exact E|].
  destruct (createPrintJob_then_getPrintJob _ _ _ _ _ E)
    as ((row & Hrow & _ & _ & _ & _ & Hst & _) & _ & Hother & _).
  split.
  - rewrite Hrow. simpl. now rewrite Hst.
  - apply Hother. lia.
Defined.

(** X16: updateJobStatus with one of the four status names never fails:
    the job with that id, if there is one, is found again with the new
    status and every other column as before, whatever its status was; all
    other look-ups answer as before; when no job has the id the database
    is unchanged and the call still succeeds, reporting zero changes. *)
Theorem updateJobStatus_writes_one_status (db : Db) (jobId : Z) (st : string) :
  In st PrintJob.validStatuses ->
  exists r,
    PrintJob.updateJobStatus db jobId st
    = Ok (fst (updatePrintJobStatus db jobId st), r)
    /\ getPrintJob (fst (updatePrintJobStatus db jobId st)) (Num jobId)
       = option_map (set_status st) (getPrintJob db (Num jobId))
    /\ (forall k, k <> jobId ->
          getPrintJob (fst (updatePrintJobStatus db jobId st)) (Num k)
          = getPrintJob db (Num k))
    /\ (getPrintJob db (Num jobId) = None ->
          fst (updatePrintJobStatus db jobId st) = db /\ changes r = 0).
Proof.
  intros Hst. exists (snd (updatePrintJobStatus db jobId st)).
  repeat split.
  - unfold PrintJob.updateJobStatus.
    assert (E : existsb (String.eqb st) PrintJob.validStatuses = true).
    { apply existsb_exists. exists st. split; [exact Hst | apply String.eqb_refl]. }
    rewrite E. simpl. reflexivity.
  - simpl. now apply find_update_where.
  - intros k Hk. simpl. now apply find_other_update_where.
  - simpl. rewrite update_where_fresh by now apply find_none_fresh.
    now destruct db.
  - simpl. apply count_id_fresh. now apply find_none_fresh.
Qed.

Lemma updateJobStatus_writes_one_status_witness :
  job_status (fst (updatePrintJobStatus Scenario.db_completed 1 "pending")) 1
  = Some "pending"
  /\ fst (updatePrintJobStatus Scenario.db_completed 7 "failed") = Scenario.db_completed.
Proof.
  split.
  - destruct (updateJobStatus_writes_one_status Scenario.db_completed 1 "pending")
      as (r & _ & H & _).
    + simpl. auto.
    + unfold job_status. rewrite H. reflexivity.
  - destruct (updateJobStatus_writes_one_status Scenario.db_completed 7 "failed")
      as (r & _ & _ & _ & H).
    + simpl. auto.
    + apply H. reflexivity.
Defined.



(** X18: submitJobToQueue throws in two cases only, and writes nothing in
    either: no job has the id, or the printer module's validation refuses
    the settings.  Whatever the device does, a call for a stored job with
    accepted settings returns the device's result. *)
Theorem submitJobToQueue_throws_exactly
    (dev : PrinterIntegration.Device) (db : Db) (jobId : Z)
    (documentPath : string) (settings : arg) (m : string) :
  PrintJob.submitJobToQueue dev db jobId documentPath settings = Throw m
  <-> (getPrintJob db (Num jobId) = None
       /\ m = "Job submission error: Job " ++ decimal jobId ++ " not found")
      \/ (getPrintJob db (Num jobId) <> None
          /\ PrinterIntegration.valid (PrinterIntegration.validatePrintSettings settings)
             = false
          /\ m = "Job submission error: Invalid print settings: "
                 ++ join ", " (PrinterIntegration.errors
                                 (PrinterIntegration.validatePrintSettings settings))).
Proof.
  unfold PrintJob.submitJobToQueue.
  destruct (getPrintJob db (Num jobId)) as [row|] eqn:F.
  - destruct (PrinterIntegration.valid
                (PrinterIntegration.validatePrintSettings settings)) eqn:V; cbn [negb].
    + destruct (PrinterIntegration.success _); simpl; split;
        try discriminate; intros [[? _] | (_ & ? & _)]; discriminate.
    + simpl. split.
      * intros [= <-]. right. repeat split. discriminate.
      * intros [[? _] | (_ & _ & ->)]; [discriminate | reflexivity].
  - simpl. split.
    + intros [= <-]. left. now split.
    + intros [[_ ->] | (H & _)]; [reflexivity | contradiction].
Qed.

End StoreRoundTrip.


(** ** The routes and the job table *)

Section RouteTable.

Import Database.
Import JobController.

Lemma same_job_refl (r : PrintJobRow) : same_job r r.
Proof. now repeat split. Qed.

Lemma same_job_trans (a b c : PrintJobRow) :
  same_job a b -> same_job b c -> same_job a c.
Proof.
  unfold same_job. intros (H1 & H2 & H3 & H4 & H5 & H6 & H7) (K1 & K2 & K3 & K4 & K5 & K6 & K7).
  repeat split; etransitivity; eassumption.
Qed.

Lemma update_where_same_job (k : Z) (st : string) (l : list PrintJobRow)
    (r' : PrintJobRow) :
  In r' (update_where k (set_status st) l) -> exists r, In r l /\ same_job r r'.
Proof.
  unfold update_where. intros H. apply in_map_iff in H. destruct H as (r & <- & Hr).
  exists r. split; [exact Hr|].
  destruct (id r =? k); [now repeat split | apply same_job_refl].
Qed.

(** What a submission to the queue can do to the table. *)
Lemma submitJobToQueue_table (dev : PrinterIntegration.Device) (db db2 : Db)
    (jobId : Z) (documentPath : string) (settings : arg)
    (result : PrinterIntegration.SubmitResult) :
  PrintJob.submitJobToQueue dev db jobId documentPath settings = Ok (db2, result) ->
  db2 = db \/ db2 = fst (updatePrintJobStatus db jobId "in-progress").
Proof.
  unfold PrintJob.submitJobToQueue.
  destruct (getPrintJob db (Num jobId)); [|discriminate].
  destruct (negb _); [discriminate|].
  destruct (PrinterIntegration.success _); simpl; intros [= <- _]; auto.
Qed.

(** What the status route can do to the table, and to whose job. *)
Lemma updateJobStatus_with_table (q : option QueueCheck) (db : Db)
    (session : Session) (jobId : string) :
  snd (updateJobStatus_with q db session jobId) = db
  \/ exists job,
       In job (jobs db) /\ not_owner job session = false
       /\ snd (updateJobStatus_with q db session jobId)
          = fst (updatePrintJobStatus db (id job) "completed").
Proof.
  unfold updateJobStatus_with.
  destruct (invalid_job_id jobId); [now left|].
  destruct (getPrintJob db (parseInt_string jobId)) as [job|] eqn:F; [|now left].
  destruct (not_owner job session) eqn:O; [now left|].
  destruct q as [check|]; [|now left].
  destruct (check (id job)) as [sc|]; [|now left].
  destruct (negb (truthy (inQueue sc)) && (status job =? "in-progress")%string);
    [|now left].
  simpl. right. exists job. repeat split; [|exact O].
  unfold getPrintJob in F. destruct (parseInt_string jobId); [discriminate|].
  now apply find_some_id in F.
Qed.

(** One request: the counter never falls, no row passes it, and every row
    of the table afterwards is a job of the table before, its status
    apart, or a new one above the old counter with no completion time. *)
Lemma serve_keeps_jobs (q : option QueueCheck) (db : Db) (request : Request) :
  ids_counted db ->
  ids_counted (serve q db request)
  /\ sequence db <= sequence (serve q db request)
  /\ users (serve q db request) = users db
  /\ forall r', In r' (jobs (serve q db request)) ->
       (exists r, In r (jobs db) /\ same_job r r')
       \/ (sequence db < id r' /\ completedAt r' = None).
Proof.
  intros Hc.
  assert (Hsame : ids_counted db /\ sequence db <= sequence db /\ users db = users db
                  /\ forall r', In r' (jobs db) ->
                       (exists r, In r (jobs db) /\ same_job r r')
                       \/ (sequence db < id r' /\ completedAt r' = None)).
  { repeat split; [exact Hc | lia |].
    intros r' Hr. left. exists r'. split; [exact Hr | apply same_job_refl]. }
  assert (Hupd : forall k st,
             let db' := fst (updatePrintJobStatus db k st) in
             ids_counted db' /\ sequence db <= sequence db' /\ users db' = users db
             /\ forall r', In r' (jobs db') ->
                  (exists r, In r (jobs db) /\ same_job r r')
                  \/ (sequence db < id r' /\ completedAt r' = None)).
  { intros k st. simpl. repeat split; [|lia|].
    - intros r' Hr. simpl in Hr. apply update_where_same_job in Hr.
      destruct Hr as (r & Hr & E & _). simpl. rewrite <- E. now apply Hc.
    - intros r' Hr. left. now apply update_where_same_job in Hr. }
  destruct request as [dev now session | session jobId | | | now]; simpl;
    try exact Hsame.
  - unfold postSubmitJob.
    destruct (uploadedFile session) as [file|]; [|exact Hsame].
    destruct (PrintJob.falsy_id (JobController.userId session)); [exact Hsame|].
    destruct (PrintJob.createPrintJob _ _ _) as [[db1 jobId]|m] eqn:C; [|exact Hsame].
    destruct (createPrintJob_row _ _ _ _ _ C)
      as (row & -> & -> & Hid & _ & Hnone & _).
    pose proof (next_id_above_sequence db) as Hlt.
    set (db1 := mkDb (users db) (jobs db ++ [row]) (next_id db)).
    assert (H1 : ids_counted db1 /\ sequence db <= sequence db1 /\ users db1 = users db
                 /\ forall r', In r' (jobs db1) ->
                      (exists r, In r (jobs db) /\ same_job r r')
                      \/ (sequence db < id r' /\ completedAt r' = None)).
    { subst db1. simpl. repeat split; [|lia|].
      - intros r Hr. simpl in *. apply in_app_or in Hr. destruct Hr as [Hr|[<-|[]]].
        + apply Hc in Hr. lia.
        + lia.
      - intros r' Hr. apply in_app_or in Hr. destruct Hr as [Hr|[<-|[]]].
        + left. exists r'. split; [exact Hr | apply same_job_refl].
        + right. split; [lia | exact Hnone]. }
    destruct (PrintJob.submitJobToQueue dev db1 (next_id db) (path file) _)
      as [[db2 res]|m] eqn:S; simpl; [|exact H1].
    apply submitJobToQueue_table in S. destruct S as [->| ->]; [exact H1|].
    destruct H1 as (I1 & S1 & U1 & J1).
    simpl. repeat split; [|lia|].
    + intros r' Hr. simpl in Hr. apply update_where_same_job in Hr.
      destruct Hr as (r & Hr & E & _). simpl. rewrite <- E. now apply I1.
    + intros r' Hr. apply update_where_same_job in Hr.
      destruct Hr as (r1 & Hr1 & E1). destruct (J1 r1 Hr1) as [(r & Hr & E)|(Hn & Hn')].
      * left. exists r. split; [exact Hr | now apply same_job_trans with r1].
      * right. destruct E1 as (E & _ & _ & _ & _ & _ & E'). rewrite <- E, <- E'. now split.
  - destruct (updateJobStatus_with_table q db session jobId) as [->|(job & _ & _ & ->)];
      [exact Hsame | apply Hupd].
  - repeat split; [|lia|].
    + intros r Hr. simpl in *. apply filter_In in Hr. now apply Hc.
    + intros r' Hr. apply filter_In in Hr. left. exists r'.
      split; [tauto | apply same_job_refl].
Qed.

Lemma run_keeps_jobs (q : option QueueCheck) (requests : list Request) (db : Db) :
  ids_counted db ->
  ids_counted (run q db requests)
  /\ sequence db <= sequence (run q db requests)
  /\ forall r', In r' (jobs (run q db requests)) ->
       (exists r, In r (jobs db) /\ same_job r r')
       \/ (sequence db < id r' /\ completedAt r' = None).
Proof.
  revert db. induction requests as [|request requests IH]; intros db Hc.
  - simpl. repeat split; [exact Hc | lia |].
    intros r' Hr. left. exists r'. split; [exact Hr | apply same_job_refl].
  - change (run q db (request :: requests))
      with (run q (serve q db request) requests).
    destruct (serve_keeps_jobs q db request Hc) as (Hc1 & Hs1 & _ & H1).
    destruct (IH _ Hc1) as (Hc2 & Hs2 & H2).
    repeat split; [exact Hc2 | lia |].
    intros r' Hr. destruct (H2 r' Hr) as [(r1 & Hr1 & E1)|(Hn & Hn')].
    + destruct (H1 r1 Hr1) as [(r & Hr0 & E)|(Hm & Hm')].
      * left. exists r. split; [exact Hr0 | now apply same_job_trans with r1].
      * right. destruct E1 as (E & _ & _ & _ & _ & _ & E'). rewrite <- E, <- E'. now split.
    + right. split; [lia | exact Hn'].
Qed.

(** X19: a job id is never given twice.  Through any series of requests
    (submissions, status checks whatever the queue check answers, page
    views, sweeps), a row that carries the id of a job of the table at the
    start is that job: same user, document, settings, submission time and
    completion time; only its status may differ.  This holds also after a
    sweep has deleted the rows of the highest ids. *)
Theorem job_id_never_reused
    (q : option QueueCheck) (db : Db) (requests : list Request)
    (r r' : PrintJobRow) :
  ids_counted db -> unique_ids db ->
  In r (jobs db) -> In r' (jobs (run q db requests)) ->
  id r' = id r ->
  same_job r r'.
Proof.
  intros Hc Hu Hr Hr' E.
  destruct (run_keeps_jobs q requests db Hc) as (_ & _ & H).
  destruct (H r' Hr') as [(r0 & Hr0 & E0)|(Hn & _)].
  - assert (r0 = r); [|now subst].
    apply (same_id_same_row (jobs db)); auto.
    destruct E0 as (E0 & _). congruence.
  - apply Hc in Hr. lia.
Qed.

(** After the first job was swept, the next submission gets id 2. *)
Lemma job_id_never_reused_witness :
  let requests :=
    [Sweep (Scenario.sweep_time + Clock.ONE_DAY_MS);
     POST_submit_job Scenario.device_up (Scenario.sweep_time + Clock.ONE_DAY_MS)
       Scenario.session] in
  map id (jobs (run None Scenario.db_in_progress requests)) = [2]
  /\ forall r r',
       In r (jobs Scenario.db_in_progress) ->
       In r' (jobs (run None Scenario.db_in_progress requests)) ->
       id r' = id r -> same_job r r'.
Proof.
  intros requests. split; [reflexivity|].
  intros r r'.
  apply (job_id_never_reused None Scenario.db_in_progress requests r r').
  - intros x [<-|[]]. vm_compute. discriminate.
  - unfold unique_ids. simpl. constructor; [intros [] | constructor].
Defined.

(** X20: the application never writes a completion time.  Starting from a
    table in which no job has one (the empty table, say), no series of
    requests produces a row with completedAt set, although the status
    route, given a queue check, does move jobs to completed. *)
Theorem requests_never_stamp_completion
    (q : option QueueCheck) (db : Db) (requests : list Request) (r' : PrintJobRow) :
  ids_counted db ->
  (forall r, In r (jobs db) -> completedAt r = None) ->
  In r' (jobs (run q db requests)) ->
  completedAt r' = None.
Proof.
  intros Hc Hnone Hr'.
  destruct (run_keeps_jobs q requests db Hc) as (_ & _ & H).
  destruct (H r' Hr') as [(r0 & Hr0 & E0)|(_ & Hn)]; [|exact Hn].
  destruct E0 as (_ & _ & _ & _ & _ & _ & <-). now apply Hnone.
Qed.

Lemma requests_never_stamp_completion_witness :
  let requests :=
    [POST_submit_job Scenario.device_up Scenario.submit_time Scenario.session;
     GET_job_status Scenario.session "1"] in
  let db' := run (Some Scenario.queue_empty) Scenario.empty_db requests in
  job_status db' 1 = Some "completed"
  /\ forall r', In r' (jobs db') -> completedAt r' = None.
Proof.
  intros requests db'. split; [reflexivity|].
  intros r'.
  apply (requests_never_stamp_completion (Some Scenario.queue_empty) Scenario.empty_db
           requests r').
  - intros x [].
  - intros x [].
Defined.

(** X21: the status route writes to no job but the caller's own: a row
    that belongs to another user, or any row when the session names no
    user, is in the table afterwards exactly as it was. *)
Theorem updateJobStatus_leaves_other_users_jobs
    (q : option QueueCheck) (db : Db) (session : Session) (jobId : string)
    (r : PrintJobRow) :
  unique_ids db ->
  In r (jobs db) ->
  not_owner r session = true ->
  In r (jobs (snd (updateJobStatus_with q db session jobId))).
Proof.
  intros Hu Hr Ho.
  destruct (updateJobStatus_with_table q db session jobId) as [->|(job & Hj & Oj & ->)];
    [exact Hr|].
  simpl. unfold update_where. apply in_map_iff. exists r. split; [|exact Hr].
  destruct (Z.eqb_spec (id r) (id job)) as [E|_]; [|reflexivity].
  assert (r = job) by (apply (same_id_same_row (jobs db)); auto).
  subst. rewrite Ho in Oj. discriminate.
Qed.

Lemma updateJobStatus_leaves_other_users_jobs_witness :
  let other := mkSession None (Some 2) None in
  updateJobStatus_with (Some Scenario.queue_empty) Scenario.db_in_progress other "1"
  = (JsonError 403 "Access denied", Scenario.db_in_progress)
  /\ forall r, In r (jobs Scenario.db_in_progress) ->
       In r (jobs (snd (updateJobStatus_with (Some Scenario.queue_empty)
                          Scenario.db_in_progress other "1"))).
Proof.
  intros other. split; [reflexivity|].
  intros r Hr.
  apply (updateJobStatus_leaves_other_users_jobs (Some Scenario.queue_empty)
           Scenario.db_in_progress other "1" r).
  - unfold unique_ids. simpl. constructor; [intros [] | constructor].
  - exact Hr.
  - destruct Hr as [<-|[]]. reflexivity.
Defined.

(** X22: the job page shows a job only to its owner: when GET /job/:jobId
    renders the details of a job, that job is a row of the table, its id
    is what parseInt reads from the route parameter, and its user is the
    user of the session. *)
Theorem getJobDetails_shows_only_own_jobs
    (db : Db) (session : Session) (jobId : string) (job : PrintJobRow) :
  getJobDetails db session jobId = RenderJobDetails job ->
  In job (jobs db)
  /\ parseInt_string jobId = Num (id job)
  /\ JobController.userId session = Some (Database.userId job).
Proof.
  unfold getJobDetails.
  destruct (invalid_job_id jobId); [discriminate|].
  destruct (getPrintJob db (parseInt_string jobId)) as [j|] eqn:F; [|discriminate].
  destruct (not_owner j session) eqn:O; [discriminate|].
  intros [= ->].
  unfold getPrintJob in F. destruct (parseInt_string jobId) as [|n]; [discriminate|].
  apply find_some_id in F. destruct F as [Hin <-].
  repeat split; [exact Hin|].
  unfold not_owner in O. destruct (JobController.userId session) as [u|]; [|discriminate].
  apply negb_false_iff, Z.eqb_eq in O. now subst.
Qed.

Lemma getJobDetails_shows_only_own_jobs_witness :
  exists job,
    getJobDetails Scenario.db_in_progress Scenario.session "1" = RenderJobDetails job
    /\ JobController.userId Scenario.session = Some (Database.userId job)
    /\ getJobDetails Scenario.db_in_progress (mkSession None (Some 2) None) "1"
       = RenderError 403 "Access denied. You do not have permission to view this job.".
Proof.
  assert (E : exists job,
             getJobDetails Scenario.db_in_progress Scenario.session "1"
             = RenderJobDetails job) by (eexists; reflexivity).
  destruct E as (job & E). exists job. split; [exact E|]. split; [|reflexivity].
  apply (getJobDetails_shows_only_own_jobs Scenario.db_in_progress Scenario.session
           "1" job E).
Defined.

End RouteTable.


(** ** The sweeps *)

Section SweepReach.

Import Database.
Import CleanupService.
Import Files.
Import CleanupFiles.

Lemma day_before (t : Z) :
  (t - Clock.ONE_DAY_MS) / Clock.ONE_DAY_MS = t / Clock.ONE_DAY_MS - 1.
Proof.
  replace (t - Clock.ONE_DAY_MS) with (t + (-1) * Clock.ONE_DAY_MS) by lia.
  rewrite Z.div_add by (unfold Clock.ONE_DAY_MS; lia). lia.
Qed.

Lemma filter_split_length {A : Type} (p : A -> bool) (l : list A) :
  (List.length (filter p l) + List.length (filter (fun x => negb (p x)) l)
   = List.length l)%nat.
Proof.
  induction l as [|a l IH]; simpl; [reflexivity|].
  destruct (p a); simpl; lia.
Qed.

(** X23: which jobs the retention sweep takes.  A job stamped by the
    application survives the sweep exactly when it was submitted on a
    later UTC day than the instant one day before the sweep, that is, on
    the UTC day of the sweep or after it; the time of day plays no part.
    The count returned is the number of rows that disappeared, and the
    users and the AUTOINCREMENT counter are not touched. *)
Theorem cleanupOldPrintJobs_keeps_the_sweep_day (now : Z) (db : Db) :
  Clock.supported (now - Clock.ONE_DAY_MS) ->
  (forall r a,
     In r (jobs db) -> Clock.supported a ->
     submittedAt r = Clock.CURRENT_TIMESTAMP a ->
     (In r (jobs (fst (cleanupOldPrintJobs now db)))
      <-> now / Clock.ONE_DAY_MS <= a / Clock.ONE_DAY_MS))
  /\ Z.of_nat (List.length (jobs (fst (cleanupOldPrintJobs now db))))
     + deleted (snd (cleanupOldPrintJobs now db))
     = Z.of_nat (List.length (jobs db))
  /\ users (fst (cleanupOldPrintJobs now db)) = users db
  /\ sequence (fst (cleanupOldPrintJobs now db)) = sequence db.
Proof.
  intros Hb. split; [|repeat split].
  - intros r a Hr Ha Hsub. split.
    + intros H. simpl in H. apply filter_In in H. destruct H as [_ H].
      rewrite Hsub, (sweep_test_compares_days a _ Ha Hb), day_before in H.
      apply negb_true_iff, Z.leb_gt in H. lia.
    + intros Hday. simpl. apply filter_In. split; [assumption|].
      rewrite Hsub, (sweep_test_compares_days a _ Ha Hb), day_before.
      apply negb_true_iff, Z.leb_gt. lia.
  - simpl.
    pose proof (filter_split_length
                  (fun r => (submittedAt r
                             <? Clock.toISOString (now - Clock.ONE_DAY_MS))%string)
                  (jobs db)) as L.
    lia.
Qed.

Lemma cleanupOldPrintJobs_keeps_the_sweep_day_witness :
  let early := mkRow 1 1 "a.pdf" "/uploads/a.pdf" PrintSettings.getDefaults "pending"
                 (Clock.CURRENT_TIMESTAMP Scenario.submit_time) None in
  let late := mkRow 2 1 "b.pdf" "/uploads/b.pdf" PrintSettings.getDefaults "pending"
                (Clock.CURRENT_TIMESTAMP (Scenario.submit_time + 60 * 1000)) None in
  let db := mkDb [1] [early; late] 2 in
  ~ In early (jobs (fst (cleanupOldPrintJobs Scenario.sweep_time db)))
  /\ In late (jobs (fst (cleanupOldPrintJobs Scenario.sweep_time db))).
Proof.
  intros early late db.
  assert (Hb : Clock.supported (Scenario.sweep_time - Clock.ONE_DAY_MS))
    by (unfold Clock.supported; vm_compute; split; [discriminate | reflexivity]).
  assert (S1 : Clock.supported Scenario.submit_time)
    by (unfold Clock.supported; vm_compute; split; [discriminate | reflexivity]).
  assert (S2 : Clock.supported (Scenario.submit_time + 60 * 1000))
    by (unfold Clock.supported; vm_compute; split; [discriminate | reflexivity]).
  assert (I1 : In early (jobs db)) by (left; reflexivity).
  assert (I2 : In late (jobs db)) by (right; left; reflexivity).
  destruct (cleanupOldPrintJobs_keeps_the_sweep_day Scenario.sweep_time db Hb)
    as (H & _).
  pose proof (H early Scenario.submit_time I1 S1 eq_refl) as H1.
  pose proof (H late (Scenario.submit_time + 60 * 1000) I2 S2 eq_refl) as H2.
  split.
  - intros Hin. apply (proj1 H1) in Hin. vm_compute in Hin. now apply Hin.
  - apply (proj2 H2). vm_compute. discriminate.
Defined.

(** The loop of a document sweep: what remains and what is counted. *)
Lemma sweep_loop_filter (now : Z) (files : list File) (n : Z) :
  sweep_loop now files n
  = (filter (fun f => negb (sweep_one now f)) files,
     n + Z.of_nat (List.length (filter (sweep_one now) files))).
Proof.
  revert n. induction files as [|f files IH]; intros n; simpl.
  - f_equal. lia.
  - destruct (sweep_one now f); simpl.
    + rewrite IH. f_equal. lia.
    + now rewrite IH.
Qed.

Lemma sweep_one_old (now : Z) (f : File) :
  sweep_one now f = true ->
  exists m, mtimeMs f = Some m /\ Clock.ONE_DAY_MS < now - m /\ locked f = false.
Proof.
  unfold sweep_one, expired. intros H. apply andb_true_iff in H. destruct H as [H L].
  destruct (mtimeMs f) as [m|]; [|discriminate].
  exists m. repeat split; [now apply Z.ltb_lt | now apply negb_true_iff].
Qed.

Lemma sweep_one_spared (now : Z) (f : File) :
  mtimeMs f = None \/ locked f = true
  \/ (exists m, mtimeMs f = Some m /\ now - m <= Clock.ONE_DAY_MS) ->
  sweep_one now f = false.
Proof.
  unfold sweep_one, expired. intros [H|[H|(m & H & Hm)]].
  - now rewrite H.
  - rewrite H. apply andb_false_r.
  - rewrite H. apply andb_false_iff. left. apply Z.ltb_ge. exact Hm.
Qed.

(** X24: the sweep of the uploads says what it did.  On an existing
    directory cleanupUploadedDocuments never fails; the count it returns
    and puts in its message is the number of entries that disappeared;
    every entry that disappeared could be read, could be deleted and was
    modified more than 24 hours before the sweep; an entry that is still
    there and is so old is one that could not be deleted. *)
Theorem cleanupUploadedDocuments_reports_what_it_removed (now : Z) (files : list File) :
  exists kept n,
    cleanupUploadedDocuments now (Some files)
    = (Some kept,
       mkCleanup n ("Cleaned up " ++ decimal n ++ " old uploaded document(s)"))
    /\ Z.of_nat (List.length kept) + n = Z.of_nat (List.length files)
    /\ (forall f, In f kept -> In f files)
    /\ (forall f, In f files ->
          In f kept
          \/ exists m, mtimeMs f = Some m /\ Clock.ONE_DAY_MS < now - m
                       /\ locked f = false)
    /\ (forall f m, In f kept -> mtimeMs f = Some m -> Clock.ONE_DAY_MS < now - m ->
          locked f = true).
Proof.
  unfold cleanupUploadedDocuments, cleanupDirectory.
  rewrite sweep_loop_filter. simpl.
  exists (filter (fun f => negb (sweep_one now f)) files).
  exists (Z.of_nat (List.length (filter (sweep_one now) files))).
  repeat split.
  - pose proof (filter_split_length (sweep_one now) files). lia.
  - intros f Hf. now apply filter_In in Hf.
  - intros f Hf. destruct (sweep_one now f) eqn:S.
    + right. now apply sweep_one_old.
    + left. apply filter_In. split; [exact Hf | now rewrite S].
  - intros f m Hf Hm Hold. apply filter_In in Hf. destruct Hf as [_ Hf].
    apply negb_true_iff in Hf. unfold sweep_one, expired in Hf. rewrite Hm in Hf.
    apply andb_false_iff in Hf. destruct Hf as [Hf|Hf].
    + apply Z.ltb_ge in Hf. lia.
    + now apply negb_false_iff in Hf.
Qed.

(** X25: what the daily clean-up spares.  runAllCleanup leaves in place
    every uploaded and every scanned document that was modified within
    the 24 hours before its sweep, that cannot be read or that cannot be
    deleted, and every job submitted on the UTC day of the job sweep or
    later; a missing directory stays missing; the three counts of the
    summary are those of the three sweeps. *)
Theorem runAllCleanup_spares_the_young (t1 t2 t3 : Z) (st : Storage) :
  let st' := fst (runAllCleanup t1 t2 t3 st) in
  let report := snd (runAllCleanup t1 t2 t3 st) in
  (forall files f,
     uploads st = Some files -> In f files ->
     mtimeMs f = None \/ locked f = true
     \/ (exists m, mtimeMs f = Some m /\ t1 - m <= Clock.ONE_DAY_MS) ->
     exists kept, uploads st' = Some kept /\ In f kept)
  /\ (forall files f,
        scanned st = Some files -> In f files ->
        mtimeMs f = None \/ locked f = true
        \/ (exists m, mtimeMs f = Some m /\ t2 - m <= Clock.ONE_DAY_MS) ->
        exists kept, scanned st' = Some kept /\ In f kept)
  /\ (forall r a,
        In r (jobs (database st)) ->
        Clock.supported a -> Clock.supported (t3 - Clock.ONE_DAY_MS) ->
        submittedAt r = Clock.CURRENT_TIMESTAMP a ->
        t3 / Clock.ONE_DAY_MS <= a / Clock.ONE_DAY_MS ->
        In r (jobs (database st')))
  /\ (uploads st = None -> uploads st' = None)
  /\ (scanned st = None -> scanned st' = None)
  /\ uploadedDocs report = deleted (snd (cleanupUploadedDocuments t1 (uploads st)))
  /\ scannedDocs report = deleted (snd (cleanupScannedDocuments t2 (scanned st)))
  /\ printJobs report = deleted (snd (cleanupOldPrintJobs t3 (database st))).
Proof.
  intros st' report. subst st' report. unfold runAllCleanup.
  destruct (cleanupUploadedDocuments t1 (uploads st)) as [u1 r1] eqn:E1.
  destruct (cleanupScannedDocuments t2 (scanned st)) as [u2 r2] eqn:E2.
  destruct (cleanupOldPrintJobs t3 (database st)) as [d3 r3] eqn:E3.
  cbn [fst snd uploads scanned database uploadedDocs scannedDocs printJobs].
  unfold cleanupUploadedDocuments, cleanupScannedDocuments, cleanupDirectory in E1, E2.
  repeat split.
  - intros files f Hd Hf Hs. rewrite Hd, sweep_loop_filter in E1.
    injection E1 as <- _. eexists. split; [reflexivity|].
    apply filter_In. split; [exact Hf|]. now rewrite (sweep_one_spared t1 f Hs).
  - intros files f Hd Hf Hs. rewrite Hd, sweep_loop_filter in E2.
    injection E2 as <- _. eexists. split; [reflexivity|].
    apply filter_In. split; [exact Hf|]. now rewrite (sweep_one_spared t2 f Hs).
  - intros r a Hr Ha Hb Hsub Hday.
    replace d3 with (fst (cleanupOldPrintJobs t3 (database st))) by now rewrite E3.
    apply (sweep_keeps_later_days t3 a); auto.
    rewrite day_before. lia.
  - intros Hd. rewrite Hd in E1. now injection E1 as <- _.
  - intros Hd. rewrite Hd in E2. now injection E2 as <- _.
Qed.

Lemma runAllCleanup_spares_the_young_witness :
  let fresh := mkFile "new.pdf" (Some (Scenario.sweep_time - 1000)) false in
  let old := mkFile "old.pdf" (Some (Scenario.sweep_time - 2 * Clock.ONE_DAY_MS)) false in
  let st := mkStorage (Some [old; fresh]) None Scenario.empty_db in
  uploads (fst (runAllCleanup Scenario.sweep_time Scenario.sweep_time
                  Scenario.sweep_time st)) = Some [fresh]
  /\ exists kept,
       uploads (fst (runAllCleanup Scenario.sweep_time Scenario.sweep_time
                       Scenario.sweep_time st)) = Some kept
       /\ In fresh kept.
Proof.
  intros fresh old st. split; [reflexivity|].
  destruct (runAllCleanup_spares_the_young Scenario.sweep_time Scenario.sweep_time
              Scenario.sweep_time st) as (H & _).
  apply (H [old; fresh] fresh).
  - reflexivity.
  - simpl. auto.
  - right. right. exists (Scenario.sweep_time - 1000). split; [reflexivity|].
    unfold Clock.ONE_DAY_MS. lia.
Defined.

End SweepReach.


(** ** The stored scans *)

Section ScanFacts.

Import Files.
Import CleanupFiles.
Import ScannerIntegration.
Import CleanupService.

Lemma expire_loop_readable (now : Z) (before rest : list File) (n : Z) :
  Forall readable before ->
  expire_loop now (before ++ rest) n
  = (filter (fun f => negb (expired now f && negb (locked f))) before
       ++ fst (expire_loop now rest
                 (n + Z.of_nat (List.length
                                  (filter (fun f => expired now f && negb (locked f))
                                     before)))),
     snd (expire_loop now rest
            (n + Z.of_nat (List.length
                             (filter (fun f => expired now f && negb (locked f))
                                before)))))%list.
Proof.
  intros Hr. revert n. induction Hr as [|f before Hf Hr IH]; intros n.
  - simpl. rewrite Z.add_0_r. now destruct (expire_loop now rest n).
  - cbn [app expire_loop filter].
    destruct (mtimeMs f) as [m|] eqn:M; [|now elim Hf].
    destruct (expired now f) eqn:E; [destruct (locked f) eqn:L|]; cbn [andb negb].
    + rewrite IH. reflexivity.
    + rewrite IH. cbn [List.length].
      match goal with
      | |- context [n + Z.of_nat (S ?k)] =>
          replace (n + Z.of_nat (S k)) with (n + 1 + Z.of_nat k) by lia
      end.
      reflexivity.
    + rewrite IH. reflexivity.
Qed.

Lemma find_first_unreadable (before after : list File) (bad : File) :
  Forall readable before -> mtimeMs bad = None ->
  find (fun f => is_none (mtimeMs f)) (before ++ bad :: after) = Some bad.
Proof.
  intros Hr Hb. induction Hr as [|f before Hf Hr IH]; simpl.
  - now rewrite Hb.
  - destruct (mtimeMs f) eqn:M; [exact IH | now elim Hf].
Qed.

(** X26: one unreadable entry makes cleanupExpiredDocuments report a
    failure with zero deleted, although it has already removed every
    expired entry listed before that one; the entries listed after it are
    not looked at.  The count reported can so be lower than the number of
    files removed. *)
Theorem cleanupExpiredDocuments_stops_at_unreadable_entry
    (os_error : option string -> string) (now : Z)
    (before after : list File) (bad : File) :
  Forall readable before -> mtimeMs bad = None ->
  cleanupExpiredDocuments os_error now (Some (before ++ bad :: after)%list)
  = (Some (filter (fun f => negb (expired now f && negb (locked f))) before
             ++ bad :: after)%list,
     mkCleanup 0 ("Failed to cleanup: " ++ os_error (Some (fileName bad)))).
Proof.
  intros Hr Hb. unfold cleanupExpiredDocuments.
  rewrite (expire_loop_readable now before (bad :: after) 0 Hr).
  cbn [expire_loop]. rewrite Hb. cbn [fst snd].
  now rewrite (find_first_unreadable before after bad Hr Hb).
Qed.

Lemma cleanupExpiredDocuments_stops_at_unreadable_entry_witness :
  let old := mkFile "old.pdf" (Some 0) false in
  let bad := mkFile "gone.pdf" None false in
  cleanupExpiredDocuments (fun _ => "ENOENT") (2 * Clock.ONE_DAY_MS)
    (Some [old; bad; old])
  = (Some [bad; old], mkCleanup 0 "Failed to cleanup: ENOENT").
Proof.
  intros old bad.
  apply (cleanupExpiredDocuments_stops_at_unreadable_entry (fun _ => "ENOENT")
           (2 * Clock.ONE_DAY_MS) [old] [old] bad).
  - constructor; [discriminate | constructor].
  - reflexivity.
Defined.

(** X27: on a directory whose entries can all be read, the two sweeps of
    the scanned documents, cleanupExpiredDocuments of the scanner module
    and cleanupScannedDocuments of the clean-up service, remove the same
    entries and report the same count. *)
Theorem scanned_sweeps_agree
    (os_error : option string -> string) (now : Z) (files : list File) :
  Forall readable files ->
  fst (cleanupExpiredDocuments os_error now (Some files))
  = fst (cleanupScannedDocuments now (Some files))
  /\ deleted (snd (cleanupExpiredDocuments os_error now (Some files)))
     = deleted (snd (cleanupScannedDocuments now (Some files)))
  /\ message (snd (cleanupExpiredDocuments os_error now (Some files)))
     = "Cleaned up "
         ++ decimal (deleted (snd (cleanupScannedDocuments now (Some files))))
         ++ " expired document(s)".
Proof.
  intros Hr. unfold cleanupExpiredDocuments, cleanupScannedDocuments, cleanupDirectory.
  rewrite sweep_loop_filter.
  pose proof (expire_loop_readable now files [] 0 Hr) as E.
  rewrite app_nil_r in E. rewrite E. cbn [expire_loop fst snd deleted message].
  rewrite app_nil_r. unfold sweep_one. repeat split.
Qed.

Lemma scanned_sweeps_agree_witness :
  let old := mkFile "old.pdf" (Some 0) false in
  let kept := mkFile "held.pdf" (Some 0) true in
  cleanupScannedDocuments (2 * Clock.ONE_DAY_MS) (Some [old; kept; old])
  = (Some [kept], mkCleanup 2 "Cleaned up 2 old scanned document(s)")
  /\ fst (cleanupExpiredDocuments (fun _ => "EIO") (2 * Clock.ONE_DAY_MS)
            (Some [old; kept; old]))
     = fst (cleanupScannedDocuments (2 * Clock.ONE_DAY_MS) (Some [old; kept; old])).
Proof.
  intros old kept. split; [reflexivity|].
  apply (scanned_sweeps_agree (fun _ => "EIO") (2 * Clock.ONE_DAY_MS) [old; kept; old]).
  repeat constructor; discriminate.
Defined.

(** *** The list of scans *)

Lemma insert_doc_perm (d : ScannedDoc) (l : list ScannedDoc) :
  Permutation (insert_doc d l) (d :: l).
Proof.
  induction l as [|x l IH]; simpl; [reflexivity|].
  destruct (createdAt x <=? createdAt d); [reflexivity|].
  rewrite IH. apply perm_swap.
Qed.

Lemma sort_docs_perm (l : list ScannedDoc) : Permutation (sort_docs l) l.
Proof.
  induction l as [|d l IH]; simpl; [reflexivity|].
  rewrite insert_doc_perm. now constructor.
Qed.

Lemma insert_doc_sorted (d : ScannedDoc) (l : list ScannedDoc) :
  StronglySorted newer_first l -> StronglySorted newer_first (insert_doc d l).
Proof.
  induction 1 as [|x l Hs IH Hx]; simpl.
  - constructor; constructor.
  - destruct (Z.leb_spec (createdAt x) (createdAt d)) as [Hle|Hgt].
    + constructor; [now constructor|].
      constructor; [exact Hle|].
      eapply Forall_impl; [|exact Hx]. unfold newer_first. intros; lia.
    + constructor; [exact IH|].
      apply (Permutation_Forall (Permutation_sym (insert_doc_perm d l))).
      constructor; [unfold newer_first; lia | exact Hx].
Qed.

Lemma sort_docs_sorted (l : list ScannedDoc) : StronglySorted newer_first (sort_docs l).
Proof.
  induction l as [|d l IH]; simpl; [constructor | now apply insert_doc_sorted].
Qed.

Lemma describe_In (now : Z) (files : list File) (docs : list ScannedDoc) :
  describe now files = Some docs ->
  forall d, In d docs <->
    exists f m, In f files /\ mtimeMs f = Some m
                /\ d = mkDoc (fileName f) m (m + Clock.ONE_DAY_MS) (expired now f).
Proof.
  revert docs. induction files as [|f files IH]; intros docs; simpl.
  - intros [= <-] d. split; [intros [] | intros (f & m & [] & _)].
  - destruct (mtimeMs f) as [m|] eqn:M; [|discriminate].
    destruct (describe now files) as [rest|]; [|discriminate].
    intros [= <-] d. simpl. rewrite (IH rest eq_refl d). split.
    + intros [<-|(g & k & Hg & Hk & ->)].
      * exists f, m. auto.
      * exists g, k. auto.
    + intros (g & k & [<-|Hg] & Hk & ->).
      * left. rewrite M in Hk. now injection Hk as <-.
      * right. exists g, k. auto.
Qed.

Lemma describe_names (now : Z) (files : list File) (docs : list ScannedDoc) :
  describe now files = Some docs ->
  map doc_fileName (filter (fun d => negb (isExpired d)) docs)
  = map fileName (filter (fun f => negb (expired now f)) files).
Proof.
  revert docs. induction files as [|f files IH]; intros docs; simpl.
  - now intros [= <-].
  - destruct (mtimeMs f) as [m|] eqn:M; [|discriminate].
    destruct (describe now files) as [rest|]; [|discriminate].
    intros [= <-]. simpl. destruct (expired now f); simpl; now rewrite (IH rest).
Qed.

Lemma describe_readable (now : Z) (files : list File) :
  Forall readable files <-> describe now files <> None.
Proof.
  induction files as [|f files IH]; simpl.
  - split; [discriminate | constructor].
  - split.
    + intros H. inversion H as [|? ? Hf Hr]; subst. apply IH in Hr.
      destruct (mtimeMs f) eqn:M; [|now elim Hf].
      destruct (describe now files); [discriminate | contradiction].
    + intros H. destruct (mtimeMs f) eqn:M; [|contradiction].
      constructor; [unfold readable; now rewrite M|].
      apply IH. destruct (describe now files); [discriminate | contradiction].
Qed.

(** X28: what getScannedDocuments lists.  When every entry of the
    directory can be read, the list holds, latest modification first, one
    document for each entry modified no more than 24 hours ago, with the
    entry's name, its modification time as creation time and the expiry
    24 hours later; when one entry cannot be read the list is empty.  The
    user passed plays no part: every user is shown every scan. *)
Theorem getScannedDocuments_lists_unexpired
    (now : Z) (files : list File) (userId : option Z) :
  let docs := getScannedDocuments now (Some files) userId in
  (Forall readable files ->
     (forall d, In d docs <->
        exists f m, In f files /\ mtimeMs f = Some m /\ now - m <= Clock.ONE_DAY_MS
                    /\ d = mkDoc (fileName f) m (m + Clock.ONE_DAY_MS) false)
     /\ Permutation (map doc_fileName docs)
          (map fileName (filter (fun f => negb (expired now f)) files))
     /\ StronglySorted newer_first docs)
  /\ (~ Forall readable files -> docs = [])
  /\ (forall other, getScannedDocuments now (Some files) other = docs).
Proof.
  intros docs. subst docs. unfold getScannedDocuments. split; [|split].
  - intros Hr. apply (describe_readable now) in Hr.
    destruct (describe now files) as [all|] eqn:D; [clear Hr | contradiction].
    split; [|split].
    + intros d. split.
      * intros Hd. apply (Permutation_in _ (sort_docs_perm _)) in Hd.
        apply filter_In in Hd. destruct Hd as [Hd Hlive].
        apply (describe_In now files all D) in Hd.
        destruct Hd as (f & m & Hf & Hm & ->). simpl in Hlive.
        apply negb_true_iff in Hlive. exists f, m. rewrite Hlive.
        repeat split; auto.
        unfold expired in Hlive. rewrite Hm in Hlive. now apply Z.ltb_ge in Hlive.
      * intros (f & m & Hf & Hm & Hage & ->).
        apply (Permutation_in _ (Permutation_sym (sort_docs_perm _))).
        apply filter_In. split; [|reflexivity].
        apply (describe_In now files all D). exists f, m. repeat split; auto.
        unfold expired. rewrite Hm. f_equal. symmetry. now apply Z.ltb_ge.
    + rewrite <- (describe_names now files all D).
      apply Permutation_map, sort_docs_perm.
    + apply sort_docs_sorted.
  - intros Hn. destruct (describe now files) as [all|] eqn:D; [|reflexivity].
    exfalso. apply Hn. apply (describe_readable now). rewrite D. discriminate.
  - reflexivity.
Qed.

Lemma getScannedDocuments_lists_unexpired_witness :
  let a := mkFile "a.pdf" (Some 5) false in
  let b := mkFile "b.pdf" (Some 7) false in
  let old := mkFile "old.pdf" (Some (-5)) false in
  getScannedDocuments Clock.ONE_DAY_MS (Some [a; old; b]) (Some 1)
  = [mkDoc "b.pdf" 7 (7 + Clock.ONE_DAY_MS) false;
     mkDoc "a.pdf" 5 (5 + Clock.ONE_DAY_MS) false]
  /\ StronglySorted newer_first
       (getScannedDocuments Clock.ONE_DAY_MS (Some [a; old; b]) (Some 1)).
Proof.
  intros a b old. split; [reflexivity|].
  destruct (getScannedDocuments_lists_unexpired Clock.ONE_DAY_MS [a; old; b] (Some 1))
    as (H & _).
  apply H. repeat constructor; discriminate.
Defined.

Lemma describe_after_sweep (t1 t2 : Z) (files : list File) :
  t1 <= t2 ->
  option_map (filter (fun d => negb (isExpired d)))
    (describe t2 (filter (fun f => negb (sweep_one t1 f)) files))
  = option_map (filter (fun d => negb (isExpired d))) (describe t2 files).
Proof.
  intros Ht. induction files as [|f files IH]; [reflexivity|].
  cbn [filter]. destruct (sweep_one t1 f) eqn:S; cbn [negb].
  - destruct (sweep_one_old t1 f S) as (m & Hm & Hold & _).
    rewrite IH. cbn [describe]. rewrite Hm.
    destruct (describe t2 files) as [docs|]; [|reflexivity].
    cbn [option_map filter isExpired]. unfold expired. rewrite Hm.
    assert (E : (Clock.ONE_DAY_MS <? t2 - m) = true) by (apply Z.ltb_lt; lia).
    now rewrite E.
  - cbn [describe]. destruct (mtimeMs f) as [m|]; [|reflexivity].
    destruct (describe t2 (filter _ files)) as [d1|];
      destruct (describe t2 files) as [d2|]; cbn [option_map] in *;
      try discriminate; [|reflexivity].
    injection IH as IH. cbn [filter isExpired].
    destruct (negb (expired t2 f)); now rewrite IH.
Qed.

Lemma describe_after_expire_loop (t1 t2 : Z) (files : list File) (n : Z) :
  t1 <= t2 ->
  option_map (filter (fun d => negb (isExpired d)))
    (describe t2 (fst (expire_loop t1 files n)))
  = option_map (filter (fun d => negb (isExpired d))) (describe t2 files).
Proof.
  intros Ht. revert n. induction files as [|f files IH]; intros n; [reflexivity|].
  cbn [expire_loop]. destruct (mtimeMs f) as [m|] eqn:M; [|reflexivity].
  assert (Keep : forall k,
             option_map (filter (fun d => negb (isExpired d)))
               (describe t2 (f :: fst (expire_loop t1 files k)))
             = option_map (filter (fun d => negb (isExpired d)))
                 (describe t2 (f :: files))).
  { intros k. specialize (IH k). cbn [describe]. rewrite M.
    destruct (describe t2 (fst (expire_loop t1 files k))) as [d1|];
      destruct (describe t2 files) as [d2|]; cbn [option_map] in *;
      try discriminate; [|reflexivity].
    injection IH as IH. cbn [filter isExpired].
    destruct (negb (expired t2 f)); now rewrite IH. }
  destruct (expired t1 f) eqn:E; [destruct (locked f)|].
  - specialize (Keep n). destruct (expire_loop t1 files n). exact Keep.
  - rewrite IH. cbn [describe]. rewrite M.
    destruct (describe t2 files) as [docs|]; [|reflexivity].
    cbn [option_map filter isExpired].
    unfold expired in E |- *. rewrite M in E |- *. apply Z.ltb_lt in E.
    assert (E' : (Clock.ONE_DAY_MS <? t2 - m) = true) by (apply Z.ltb_lt; lia).
    now rewrite E'.
  - specialize (Keep n). destruct (expire_loop t1 files n). exact Keep.
Qed.

Lemma getScannedDocuments_by_filter (now : Z) (dir : Directory) (userId : option Z) :
  getScannedDocuments now dir userId
  = match dir with
    | None => []
    | Some files =>
        match option_map (filter (fun d => negb (isExpired d))) (describe now files) with
        | Some live => sort_docs live
        | None => []
        end
    end.
Proof.
  unfold getScannedDocuments. destruct dir as [files|]; [|reflexivity].
  now destruct (describe now files).
Qed.

(** X29: a sweep never changes what the list of scans shows.  Whatever
    the directory holds, unreadable and undeletable entries included,
    getScannedDocuments answers after either sweep of the scanned
    documents what it would have answered without it at the same later
    moment: the sweeps remove only entries the list already hides. *)
Theorem sweeps_keep_the_list_of_scans
    (os_error : option string -> string) (t1 t2 : Z) (dir : Directory)
    (userId : option Z) :
  t1 <= t2 ->
  getScannedDocuments t2 (fst (cleanupExpiredDocuments os_error t1 dir)) userId
  = getScannedDocuments t2 dir userId
  /\ getScannedDocuments t2 (fst (cleanupScannedDocuments t1 dir)) userId
     = getScannedDocuments t2 dir userId.
Proof.
  intros Ht. rewrite !getScannedDocuments_by_filter.
  destruct dir as [files|]; [|split; reflexivity].
  split.
  - unfold cleanupExpiredDocuments.
    pose proof (describe_after_expire_loop t1 t2 files 0 Ht) as E.
    destruct (expire_loop t1 files 0) as [kept [n|]]; cbn [fst] in *; now rewrite E.
  - unfold cleanupScannedDocuments, cleanupDirectory.
    rewrite sweep_loop_filter. cbn [fst].
    now rewrite (describe_after_sweep t1 t2 files Ht).
Qed.

Lemma sweeps_keep_the_list_of_scans_witness :
  let a := mkFile "a.pdf" (Some 5) false in
  let old := mkFile "old.pdf" (Some (-5)) false in
  fst (cleanupScannedDocuments Clock.ONE_DAY_MS (Some [a; old])) = Some [a]
  /\ getScannedDocuments (Clock.ONE_DAY_MS + 1)
       (fst (cleanupScannedDocuments Clock.ONE_DAY_MS (Some [a; old]))) None
     = getScannedDocuments (Clock.ONE_DAY_MS + 1) (Some [a; old]) None.
Proof.
  intros a old. split; [reflexivity|].
  apply (sweeps_keep_the_list_of_scans (fun _ => "EIO") Clock.ONE_DAY_MS
           (Clock.ONE_DAY_MS + 1) (Some [a; old]) None).
  lia.
Defined.

End ScanFacts.


(** ** The session guards *)

Section GuardFacts.

Import Auth.
Import JobController.

(** X30: the two guards never send a visitor round in circles.  A request
    that requireAuth turns away to /login passes requireGuest there, and a
    request that requireAuth lets through is turned away from the login
    page to /dashboard, where the handler's own session check agrees with
    the guard: it renders the dashboard with the jobs of the session's
    user and of nobody else.  A session whose userId is 0 counts as
    logged out on both sides. *)
Theorem guards_never_loop (db : Database.Db) (session : option Session) :
  match requireAuth session with
  | RedirectTo target =>
      target = "/login" /\ requireGuest session = Next
      /\ behind_requireAuth Redirect (getDashboard db) session = Redirect "/login"
  | Next =>
      requireGuest session = RedirectTo "/dashboard"
      /\ exists s u,
           session = Some s /\ JobController.userId s = Some u /\ u <> 0
           /\ behind_requireAuth Redirect (getDashboard db) session
              = RenderDashboard (Database.getPrintJobs db u)
           /\ forall r, In r (Database.getPrintJobs db u) -> Database.userId r = u
  end.
Proof.
  unfold behind_requireAuth, requireAuth, requireGuest, logged_in.
  destruct session as [s|]; cbn [negb]; [|now repeat split].
  destruct (JobController.userId s) as [u|] eqn:U; cbn [PrintJob.falsy_id negb];
    [|now repeat split].
  destruct (Z.eqb_spec u 0) as [->|Hu]; cbn [negb]; [now repeat split|].
  split; [reflexivity|]. exists s, u. repeat split; auto.
  - unfold getDashboard. rewrite U. cbn [PrintJob.falsy_id].
    destruct (Z.eqb_spec u 0); [contradiction | reflexivity].
  - intros r Hr. destruct (Z.eq_dec (Database.userId r) u) as [E|E]; [exact E|].
    exfalso. apply (getPrintJobs_isolated db u (Database.userId r) r); auto.
Qed.

End GuardFacts.
